(** * Booking lifecycle and payment reconciliation: a shallow embedding

    This development embeds the booking, payment-link, webhook and
    reconciliation code of the backend
    ([app/services/supabase.py], [app/agent/tools/booking.py],
    [app/api/webhooks.py], [app/api/bookings.py]) and states the
    properties of its specification about it; it goes on with the
    confirmation e-mail ([app/services/notifications.py]) and the free
    hours of a day ([app/agent/tools/availability.py]).

    Conventions of the embedding:
    - a naive [datetime] is an integer count of microseconds;
    - Python [float]s are Rocq's primitive binary64 floats;
    - a database table is the list of its rows, in insertion order;
    - effectful code lives in a state-and-exception monad [M] over a
      [world] that holds the database, the script of faults the database
      client is going to meet, the trace of calls made to the payment
      provider and the list of background tasks that were spawned;
    - the payment provider is a record of oracles ([Stripe.api]): what it
      answers is a parameter of every statement. *)

From Stdlib Require Import ZArith List Ascii String Bool Lia.
From Stdlib Require Import PrimFloat FloatOps SpecFloat Uint63.
From Stdlib Require Sorted.
Import ListNotations.

Local Open Scope string_scope.
Local Open Scope list_scope.
Local Open Scope Z_scope.

(* ================================================================== *)
(** ** Python values *)

(** A naive [datetime.datetime]: microseconds on the time line. *)
Definition datetime := Z.

(** Truthiness of an optional string ([None] and [""] are falsy). *)
Definition truthy_str (s : option string) : bool :=
  match s with
  | Some s => negb (String.eqb s "")
  | None => false
  end.

(** Truthiness of an optional number ([None], [0] and [-0.0] are falsy,
    NaN is truthy). *)
Definition truthy_num (x : option float) : bool :=
  match x with
  | Some x => negb (PrimFloat.eqb x 0%float)
  | None => false
  end.

(** The exceptions the embedded code can meet. *)
Inductive exn :=
| TimeoutError (msg : string)        (* raised by [_execute] *)
| RemoteProtocolError                  (* connection error of the DB client *)
| APIError                             (* any other error of the DB client *)
| HTTPException (status_code : Z) (detail : string)
| StripeError                          (* any error of the provider SDK *)
| AsyncioTimeoutError                  (* [asyncio.wait_for] timed out *)
| ValueError
| OverflowError
| IndexError.

Inductive result (A : Type) :=
| Ok (a : A)
| Raise (e : exn).
Arguments Ok {A} a.
Arguments Raise {A} e.

(** [int(x)] for a non-negative integer held in a [Z], as a float. It is
    exact below [2^53]. *)
Definition float_of_Z (z : Z) : float :=
  if z <? 0 then PrimFloat.opp (PrimFloat.of_uint63 (Uint63.of_Z (- z)))
  else PrimFloat.of_uint63 (Uint63.of_Z z).

(** [timedelta.total_seconds()]: the microsecond count divided by [10**6]
    (true division).  Python's quotient of two integers is correctly
    rounded; so is the binary64 division below as long as the count is
    below [2^53] microseconds (285 years). *)
Definition total_seconds (delta_us : Z) : float :=
  PrimFloat.div (float_of_Z delta_us) 1000000%float.

(** Nearest integer to [m * 2^e] ([m >= 0]), ties to the even integer. *)
Definition round_half_even_dyadic (m e : Z) : Z :=
  if 0 <=? e then m * 2 ^ e
  else
    let d := 2 ^ (- e) in
    let q := m / d in
    let r := m mod d in
    match 2 * r ?= d with
    | Lt => q
    | Gt => q + 1
    | Eq => if Z.even q then q else q + 1
    end.

(** [round(x)] of a float with no [ndigits]: an [int], the nearest one,
    ties to even; [ValueError] on NaN and [OverflowError] on infinities. *)
Definition py_round (x : float) : result Z :=
  match Prim2SF x with
  | S754_zero _ => Ok 0
  | S754_finite s m e =>
      let n := round_half_even_dyadic (Z.pos m) e in
      Ok (if s then - n else n)
  | S754_infinity _ => Raise OverflowError
  | S754_nan => Raise ValueError
  end.

(* ================================================================== *)
(** ** Rows of the database *)

Module Space.
Record t := mk {
  id : string;
  name : string;
  type : string;
  location : string;
  hourly_rate : option float;
  daily_rate : option float;
  monthly_rate : option float;
  is_active : bool
}.
End Space.

Module Booking.
Record t := mk {
  id : string;
  user_id : string;
  space_id : string;
  start_time : datetime;
  end_time : datetime;
  duration_type : string;
  status : string;
  total_amount : float;
  attendees_count : Z;
  notes : option string;
  special_requirements : option string
}.

Definition with_status (s : string) (b : t) : t :=
  mk (id b) (user_id b) (space_id b) (start_time b) (end_time b)
     (duration_type b) s (total_amount b) (attendees_count b)
     (notes b) (special_requirements b).
End Booking.

Module Payment.
Record t := mk {
  user_id : string;
  booking_id : string;
  amount : float;
  currency : string;
  payment_status : string;
  payment_provider : string;
  transaction_id : option string;
  paid_at : option datetime;
  receipt_url : option string
}.
End Payment.

(** The tables, and the default of the [id] column of [bookings]: the
    identifier the database gives to the row inserted when the table
    already holds [n] rows. *)
Record database := mkDb {
  spaces : list Space.t;
  bookings : list Booking.t;
  payments : list Payment.t;
  gen_random_uuid : nat -> string
}.

Definition set_bookings (rows : list Booking.t) (d : database) : database :=
  mkDb (spaces d) rows (payments d) (gen_random_uuid d).

Definition set_payments (rows : list Payment.t) (d : database) : database :=
  mkDb (spaces d) (bookings d) rows (gen_random_uuid d).

(* ================================================================== *)
(** ** The world and the monad of effects *)

(** What one call of [query.execute] meets.  A request that fails is
    taken to fail before it has any effect on the tables.  For a
    time-out this is an assumption on the database client and not a fact
    of the code: [asyncio.wait_for] gives up the wait, the worker thread
    of [asyncio.to_thread] goes on, and a write that it completes later
    is not followed here.  What a statement says of the tables after a
    write that timed out rests on this assumption. *)
Inductive db_outcome :=
| DbOk                       (* the request goes through *)
| DbTimeout                  (* [asyncio.wait_for] times out *)
| DbRemoteProtocolError      (* an exception whose type name contains
                                "RemoteProtocolError" *)
| DbFailure.                 (* any other exception *)

(** Calls made to the payment provider. *)
Inductive provider_call :=
| PriceCreate (unit_amount : Z) (booking_id : string)
| PaymentLinkCreate (price_id booking_id user_id : string)
| PaymentIntentRetrieve (payment_intent_id : string)
| CheckoutSessionList (payment_link_id : string)
| PaymentIntentSearch (booking_id : string).

(** Background tasks spawned with [asyncio.create_task]. *)
Inductive task :=
| SendBookingConfirmationEmail (booking_id : string)
                               (fallback_email : option string).

Record world := mkWorld {
  db : database;
  db_script : list db_outcome;   (* faults of the coming DB requests *)
  calls : list provider_call;    (* provider calls, latest first *)
  tasks : list task              (* spawned tasks, latest first *)
}.

Definition M (A : Type) := world -> result A * world.

Definition ret {A} (a : A) : M A := fun w => (Ok a, w).

Definition raise {A} (e : exn) : M A := fun w => (Raise e, w).

Definition bind {A B} (c : M A) (k : A -> M B) : M B :=
  fun w =>
    match c w with
    | (Ok a, w') => k a w'
    | (Raise e, w') => (Raise e, w')
    end.

(** [try: c  except Exception as e: h e]. *)
Definition try_except {A} (c : M A) (h : exn -> M A) : M A :=
  fun w =>
    match c w with
    | (Ok a, w') => (Ok a, w')
    | (Raise e, w') => h e w'
    end.

Declare Scope monad_scope.
Delimit Scope monad_scope with monad.
Notation "x <- c1 ;; c2" := (bind c1 (fun x => c2))
  (at level 61, c1 at next level, right associativity) : monad_scope.
Notation "c1 ;;; c2" := (bind c1 (fun _ => c2))
  (at level 61, right associativity) : monad_scope.
Local Open Scope monad_scope.

Definition log_call (c : provider_call) : M unit :=
  fun w => (Ok tt, mkWorld (db w) (db_script w) (c :: calls w) (tasks w)).

Definition create_task (t : task) : M unit :=
  fun w => (Ok tt, mkWorld (db w) (db_script w) (calls w) (t :: tasks w)).

Definition next_db_outcome : M db_outcome :=
  fun w =>
    match db_script w with
    | [] => (Ok DbOk, w)
    | o :: rest => (Ok o, mkWorld (db w) rest (calls w) (tasks w))
    end.

(** A built query: what executing it against the database answers and
    leaves behind. *)
Definition query (A : Type) := database -> result A * database.

Definition run_query {A} (q : query A) : M A :=
  fun w =>
    let (r, d) := q (db w) in
    (r, mkWorld d (db_script w) (calls w) (tasks w)).

(** [.single()]: the request fails unless exactly one row matches. *)
Definition single {A} (rows : list A) : result (option A) :=
  match rows with
  | [r] => Ok (Some r)
  | _ => Raise APIError
  end.

(** [response.data[0] if response.data else None]. *)
Definition first_or_none {A} (rows : list A) : option A :=
  match rows with
  | r :: _ => Some r
  | [] => None
  end.

(* ================================================================== *)
(** ** [app/services/supabase.py] *)

Module SupabaseService.

Definition max_retries : nat := 2.

(** One turn of the loop of [_execute], with the number of retries that
    are still allowed ([attempt < max_retries - 1]). *)
Fixpoint execute_attempts {A} (retries_left : nat) (q : query A) : M A :=
  o <- next_db_outcome ;;
  match o with
  | DbOk => run_query q
  | DbTimeout => raise (TimeoutError "Supabase request timed out")
  | DbRemoteProtocolError =>
      match retries_left with
      | S n => execute_attempts n q
      | O => raise RemoteProtocolError
      end
  | DbFailure => raise APIError
  end.

Definition _execute {A} (q : query A) : M A :=
  execute_attempts (max_retries - 1) q.

(* ---------------- spaces ---------------- *)

Definition get_space_by_id (space_id : string) : M (option Space.t) :=
  _execute (fun d =>
    (single (filter (fun s => String.eqb (Space.id s) space_id) (spaces d)),
     d)).

(* ---------------- bookings ---------------- *)

(** The filter of the availability query: same space, not cancelled,
    [start_time < end] and [end_time > start]. *)
Definition blocks (space_id : string) (start_time end_time : datetime)
           (b : Booking.t) : bool :=
  String.eqb (Booking.space_id b) space_id
  && negb (String.eqb (Booking.status b) "cancelled")
  && (Booking.start_time b <? end_time)
  && (Booking.end_time b >? start_time).

Definition check_space_availability
           (space_id : string) (start_time end_time : datetime) : M bool :=
  data <- _execute (fun d =>
            (Ok (filter (blocks space_id start_time end_time) (bookings d)),
             d)) ;;
  ret (Nat.eqb (List.length data) 0).

Definition create_booking
           (user_id space_id : string) (start_time end_time : datetime)
           (duration_type : string) (total_amount : float)
           (attendees_count : Z) (notes : option string)
           (special_requirements : option string) : M (option Booking.t) :=
  data <- _execute (fun d =>
            let row :=
              Booking.mk (gen_random_uuid d (List.length (bookings d)))
                         user_id space_id start_time end_time
                         duration_type "pending" total_amount
                         attendees_count notes special_requirements in
            (Ok [row], set_bookings (bookings d ++ [row]) d)) ;;
  ret (first_or_none data).

(** The rows an [update ... eq("id", booking_id)] touches. *)
Definition has_id (booking_id : string) (b : Booking.t) : bool :=
  String.eqb (Booking.id b) booking_id.

Definition set_status_where_id (booking_id status : string)
           (b : Booking.t) : Booking.t :=
  if has_id booking_id b then Booking.with_status status b else b.

Definition update_booking_status (booking_id status : string)
  : M (option Booking.t) :=
  data <- _execute (fun d =>
            let rows := map (set_status_where_id booking_id status)
                            (bookings d) in
            (Ok (filter (has_id booking_id) rows), set_bookings rows d)) ;;
  ret (first_or_none data).

(** The joined columns of [spaces] are not read by the callers that are
    embedded here; the row alone is returned. *)
Definition get_booking_by_id (booking_id : string) : M (option Booking.t) :=
  _execute (fun d =>
    (single (filter (has_id booking_id) (bookings d)), d)).

(* ---------------- payments ---------------- *)

Definition create_payment_record
           (user_id booking_id : string) (amount : float)
           (payment_status payment_provider : string)
           (transaction_id : option string) : M (option Payment.t) :=
  data <- _execute (fun d =>
            let row :=
              Payment.mk user_id booking_id amount "MYR" payment_status
                         payment_provider transaction_id None None in
            (Ok [row], set_payments (payments d ++ [row]) d)) ;;
  ret (first_or_none data).

Definition for_booking (booking_id : string) (p : Payment.t) : bool :=
  String.eqb (Payment.booking_id p) booking_id.

(** [update_data]: the status always, the other columns only when the
    argument is truthy. *)
Definition apply_payment_update
           (payment_status : string) (transaction_id : option string)
           (paid_at : option datetime) (receipt_url : option string)
           (p : Payment.t) : Payment.t :=
  Payment.mk (Payment.user_id p) (Payment.booking_id p)
             (Payment.amount p) (Payment.currency p)
             payment_status (Payment.payment_provider p)
             (if truthy_str transaction_id then transaction_id
              else Payment.transaction_id p)
             (match paid_at with
              | Some t => Some t
              | None => Payment.paid_at p
              end)
             (if truthy_str receipt_url then receipt_url
              else Payment.receipt_url p).

Definition update_payment_status
           (booking_id payment_status : string)
           (transaction_id : option string) (paid_at : option datetime)
           (receipt_url : option string) : M (option Payment.t) :=
  data <- _execute (fun d =>
            let upd p :=
              if for_booking booking_id p
              then apply_payment_update payment_status transaction_id
                                        paid_at receipt_url p
              else p in
            let rows := map upd (payments d) in
            (Ok (filter (for_booking booking_id) rows),
             set_payments rows d)) ;;
  ret (first_or_none data).

Definition get_payment_by_booking (booking_id : string)
  : M (option Payment.t) :=
  data <- _execute (fun d =>
            (Ok (firstn 1 (filter (for_booking booking_id) (payments d))),
             d)) ;;
  ret (first_or_none data).

End SupabaseService.

(* ================================================================== *)
(** ** The payment provider and the settings *)

Module Stripe.

Module Price.
Record t := mk { id : string; product : string }.
End Price.

Module PaymentLink.
Record t := mk { id : string; url : string }.
End PaymentLink.

(** A checkout session, as far as reconciliation reads it:
    [getattr(session, "payment_status", "")] and
    [session.payment_intent]. *)
Module Session.
Record t := mk { payment_status : string;
                 payment_intent : option string }.
End Session.

Module Charge.
Record t := mk { billing_details_email : option string }.
End Charge.

Module PaymentIntent.
Record t := mk {
  id : string;
  status : string;
  metadata_booking_id : option string;
  receipt_email : option string;
  charges_data : option (list Charge.t)   (* [charges.data], if any *)
}.
End PaymentIntent.

(** [event["data"]["object"]], as far as the webhook reads it; a key
    that is missing is [None].  The record is typed: an object whose
    [metadata] or [amount_total] is an explicit JSON null is not
    represented. *)
Module Object.
Record t := mk {
  id : option string;
  email : option string;
  metadata_booking_id : option string;
  customer_email : option string;
  payment_intent : option string;
  amount_total : option Z;
  last_payment_error_message : option string
}.
End Object.

Module Event.
Record t := mk { type : string; data_object : Object.t }.
End Event.

(** What [Webhook.construct_event] does with a payload, a signature
    header and the secret: it builds the event, or raises one of the two
    exceptions the handler catches. *)
Inductive constructed :=
| Constructed (event : Event.t)
| InvalidPayload                 (* raises [ValueError] *)
| SignatureVerificationError.    (* raises [stripe.error.SignatureVerificationError] *)

(** The answer to a request that is awaited under a timeout. *)
Inductive reply (A : Type) :=
| Reply (a : A)
| Fails              (* the SDK raises *)
| Hangs.             (* no answer within the timeout *)
Arguments Reply {A} a.
Arguments Fails {A}.
Arguments Hangs {A}.

(** The provider, as the oracles the code consults.  [None] stands for
    a call that raises. *)
Record api := mkApi {
  construct_event : string -> string -> string -> constructed;
  price_create : Z -> string -> string -> string -> reply Price.t;
  payment_link_create :
    string -> string -> string -> string -> string -> reply PaymentLink.t;
  payment_intent_retrieve : string -> option PaymentIntent.t;
  checkout_session_list : string -> option (list Session.t);
  payment_intent_search : string -> option (list PaymentIntent.t)
}.

End Stripe.

Record Settings := mkSettings {
  FRONTEND_URL : string;
  STRIPE_SECRET_KEY : string;
  STRIPE_WEBHOOK_SECRET : string
}.

(** What a handler finds around it: the settings, the provider, whether
    the provider SDK could be imported, the reading of the clock, and the
    two parsers whose library code is not embedded: [UUID(s)] (does it
    accept the string?) and [parse_datetime] (the instant, or the message
    of the [ValueError]). *)
Record env := mkEnv {
  settings : Settings;
  stripe : Stripe.api;
  STRIPE_AVAILABLE : bool;
  now : datetime;
  valid_uuid : string -> bool;
  parse_datetime : string -> string -> string + datetime
}.

Definition lift_result {A} (r : result A) : M A := fun w => (r, w).

(** [str(exc)], roughly. *)
Definition exn_str (e : exn) : string :=
  match e with
  | TimeoutError msg => msg
  | RemoteProtocolError => "RemoteProtocolError"
  | APIError => "APIError"
  | HTTPException _ detail => detail
  | StripeError => "StripeError"
  | AsyncioTimeoutError => ""
  | ValueError => "ValueError"
  | OverflowError => "OverflowError"
  | IndexError => "list index out of range"
  end.

(* ================================================================== *)
(** ** [app/agent/tools/booking.py] *)

Module BookingTool.

(** The payload of a successful answer (the keys of the JSON object
    that depend on the run). *)
Record payment_metadata := mkMeta {
  payment_link_id : string;
  price_id : string;
  product_id : string;
  amount_cents : Z;
  currency : string
}.

Record payload := mkPayload {
  booking_id : string;
  duration_hours : float;
  total_amount : float;
  status : string;
  message : string;
  payment_link : option string;
  payment_provider : option string;
  payment_details : option payment_metadata;
  payment_error : option string
}.

(** The JSON answer: [{"error": ...}] or [{"success": true, ...}]. *)
Inductive response :=
| Error (error : string)
| Success (p : payload).

(** A rate the pricing code takes into account: present and truthy. *)
Definition usable_rate (r : option float) : option float :=
  if truthy_num r then r else None.

(** The rate of the requested mode, when [duration_type] is [mode] and
    the space has a usable rate for it. *)
Definition rate_when (duration_type mode : string) (r : option float)
  : option float :=
  if String.eqb duration_type mode then usable_rate r else None.

(** "Calculate total amount": the chain of tests on [duration_type] and
    the rates of the space. [None] is the branch that answers with the
    pricing error. *)
Definition compute_total_amount
           (space : Space.t) (duration_type : string)
           (duration_hours : float) : option float :=
  match rate_when duration_type "hourly" (Space.hourly_rate space) with
  | Some r => Some (PrimFloat.mul r duration_hours)
  | None =>
  match rate_when duration_type "daily" (Space.daily_rate space) with
  | Some r => Some r
  | None =>
  match rate_when duration_type "monthly" (Space.monthly_rate space) with
  | Some r => Some r
  | None =>
      (* Default to hourly calculation *)
      match usable_rate (Space.hourly_rate space) with
      | Some r => Some (PrimFloat.mul r duration_hours)
      | None => usable_rate (Space.daily_rate space)
      end
  end end end.

(** The hard timeout of the payment-link request, in seconds. *)
Definition payment_link_timeout : Z := 12.

(** A provider request made under [asyncio.wait_for]. *)
Definition await_reply {A} (r : Stripe.reply A) : M A :=
  match r with
  | Stripe.Reply a => ret a
  | Stripe.Fails => raise StripeError
  | Stripe.Hangs => raise AsyncioTimeoutError
  end.

(** [int(round(total_amount * 100))]. *)
Definition to_cents (total_amount : float) : result Z :=
  py_round (PrimFloat.mul total_amount 100%float).

Definition _create_payment_link_sync
           (e : env) (space : Space.t) (space_id user_id : string)
           (booking : Booking.t) (total_amount : float)
  : M (Stripe.Price.t * Stripe.PaymentLink.t) :=
  amount_cents <- lift_result (to_cents total_amount) ;;
  log_call (PriceCreate amount_cents (Booking.id booking)) ;;;
  price <- await_reply
             (Stripe.price_create (stripe e) amount_cents "myr"
                (Space.name space ++ " booking")%string space_id) ;;
  log_call (PaymentLinkCreate (Stripe.Price.id price)
                              (Booking.id booking) user_id) ;;;
  link <- await_reply
            (Stripe.payment_link_create (stripe e)
               (Stripe.Price.id price) (Booking.id booking) user_id
               space_id
               (FRONTEND_URL (settings e)
                ++ "/?payment_status=success&booking_id="
                ++ Booking.id booking)%string) ;;
  ret (price, link).

(** The three variables the payment step leaves behind:
    [payment_link], [payment_error], [payment_metadata]. *)
Definition payment_step
           (e : env) (space : Space.t) (space_id user_id : string)
           (booking : Booking.t) (total_amount : float)
  : M (option string * option string * option payment_metadata) :=
  if negb (String.eqb (STRIPE_SECRET_KEY (settings e)) "") then
    try_except
      (pl <- _create_payment_link_sync e space space_id user_id
                                       booking total_amount ;;
       let (price, link) := pl in
       cents <- lift_result (to_cents total_amount) ;;
       let payment_metadata :=
         mkMeta (Stripe.PaymentLink.id link) (Stripe.Price.id price)
                (Stripe.Price.product price) cents "myr" in
       (* Record the pending payment (best-effort, non-blocking) *)
       try_except
         (SupabaseService.create_payment_record
            user_id (Booking.id booking) total_amount "pending" "stripe"
            (Some (Stripe.PaymentLink.id link)) ;;;
          ret tt)
         (fun _ => ret tt) ;;;
       ret (Some (Stripe.PaymentLink.url link), None,
            Some payment_metadata))
      (fun exc =>
         ret (None,
              Some ("Failed to create payment link: " ++ exn_str exc)%string,
              None))
  else ret (None, None, None).

(** What the first part of [create_booking] hands to the second: the
    space, the inserted row, [total_amount] and [duration_hours]. *)
Record pending := mkPending {
  p_space : Space.t;
  p_booking : Booking.t;
  p_total_amount : float;
  p_duration_hours : float
}.

(** [create_booking] up to and including "Create the booking": the
    validations, the availability check, the price and the insertion.
    The answer is the early [return] of an error, or what the rest of
    the function goes on with. *)
Definition create_pending_booking
           (e : env) (user_id space_id date start_time end_time : string)
           (duration_type : string) (attendees_count : Z)
           (notes : option string) : M (response + pending) :=
  (* Validate UUID inputs early *)
  if negb (valid_uuid e space_id) then
    ret (inl (Error "Invalid space_id format; expected a UUID."))
  else if negb (valid_uuid e user_id) then
    ret (inl (Error "Invalid user_id format; expected a UUID."))
  else
  (* Parse datetimes *)
  match parse_datetime e date start_time,
        parse_datetime e date end_time with
  | inl msg, _ => ret (inl (Error msg))
  | inr _, inl msg => ret (inl (Error msg))
  | inr start_datetime, inr end_datetime =>
  (* Validate that booking is not in the past *)
  if start_datetime <? now e then
    ret (inl (Error "Cannot book in the past"))
  (* Validate times *)
  else if end_datetime <=? start_datetime then
    ret (inl (Error "End time must be after start time"))
  else
  (* Get space details for pricing *)
  space <- SupabaseService.get_space_by_id space_id ;;
  match space with
  | None => ret (inl (Error ("Space not found: " ++ space_id)%string))
  | Some space =>
  (* Check availability *)
  is_available <- SupabaseService.check_space_availability
                    space_id start_datetime end_datetime ;;
  if negb is_available then
    ret (inl (Error
      "Space is not available for the requested time slot"))
  else
  (* Calculate total amount *)
  let duration_hours :=
    PrimFloat.div (total_seconds (end_datetime - start_datetime))
                  3600%float in
  match compute_total_amount space duration_type duration_hours with
  | None =>
      ret (inl (Error
        "Could not determine pricing for this space and duration type"))
  | Some total_amount =>
  (* Create the booking *)
  created <- try_except
               (b <- SupabaseService.create_booking
                       user_id space_id start_datetime end_datetime
                       duration_type total_amount attendees_count
                       notes None ;;
                ret (Some b))
               (fun _ => ret None) ;;
  match created with
  | None | Some None => ret (inl (Error "Failed to create booking"))
  | Some (Some booking) =>
      ret (inr (mkPending space booking total_amount duration_hours))
  end end end end.

(** The answer that is built once the payment step is over. *)
Definition response_payload
           (p : pending)
           (pay : option string * option string * option payment_metadata)
  : response :=
  let '(payment_link, payment_error, payment_metadata) := pay in
  Success
    (mkPayload (Booking.id (p_booking p)) (p_duration_hours p)
       (p_total_amount p) "pending"
       (match payment_error with
        | Some _ =>
            "Booking created successfully, but payment link could not be generated automatically. Please contact support or try again."
        | None =>
            "Booking created successfully. Please complete payment to confirm."
        end)
       payment_link
       (if truthy_str payment_link then Some "stripe" else None)
       payment_metadata
       payment_error).

Definition create_booking
           (e : env) (user_id space_id date start_time end_time : string)
           (duration_type : string) (attendees_count : Z)
           (notes : option string) : M response :=
  r <- create_pending_booking e user_id space_id date start_time
                              end_time duration_type attendees_count
                              notes ;;
  match r with
  | inl error => ret error
  | inr p =>
      pay <- payment_step e (p_space p) space_id user_id (p_booking p)
                          (p_total_amount p) ;;
      ret (response_payload p pay)
  end.

End BookingTool.

(* ================================================================== *)
(** ** [app/api/webhooks.py] *)

(** The status line an endpoint answers with: the code of the
    [HTTPException] that was raised, [500] for any other exception that
    leaves the handler, [200] otherwise. *)
Definition http_status {A} (r : result A) : Z :=
  match r with
  | Ok _ => 200
  | Raise (HTTPException code _) => code
  | Raise _ => 500
  end.

Definition is_client_error (code : Z) : bool :=
  (400 <=? code) && (code <? 500).

Module Webhooks.

Record request := mkRequest {
  body : string;
  stripe_signature : option string    (* the [Stripe-Signature] header *)
}.

(** The JSON object a handler returns. *)
Definition json := list (string * option string).

(** The booking reference of a completed session: the metadata of the
    session, else the metadata of its payment intent. *)
Definition resolve_booking_id (e : env) (session : Stripe.Object.t)
  : M (option string) :=
  let booking_id := Stripe.Object.metadata_booking_id session in
  let payment_intent_id := Stripe.Object.payment_intent session in
  if negb (truthy_str booking_id) && truthy_str payment_intent_id then
    match payment_intent_id with
    | Some pid =>
        try_except
          (log_call (PaymentIntentRetrieve pid) ;;;
           match Stripe.payment_intent_retrieve (stripe e) pid with
           | Some pi => ret (Stripe.PaymentIntent.metadata_booking_id pi)
           | None => raise StripeError
           end)
          (fun _ => ret booking_id)
    | None => ret booking_id
    end
  else ret booking_id.

Definition on_checkout_session_completed
           (e : env) (session : Stripe.Object.t) : M json :=
  let customer_email := Stripe.Object.customer_email session in
  let payment_intent_id := Stripe.Object.payment_intent session in
  let amount_total :=       (* converted from cents; not read again *)
    PrimFloat.div
      (float_of_Z (match Stripe.Object.amount_total session with
                   | Some a => a
                   | None => 0
                   end))
      100%float in
  booking_id <- resolve_booking_id e session ;;
  (if truthy_str booking_id then
     match booking_id with
     | Some bid =>
         try_except
           (SupabaseService.update_booking_status bid "confirmed" ;;;
            SupabaseService.update_payment_status
              bid "completed" payment_intent_id (Some (now e)) None ;;;
            create_task (SendBookingConfirmationEmail bid customer_email))
           (fun _ => ret tt)
           (* Don't raise - the provider must not retry for internal
              errors *)
     | None => ret tt
     end
   else ret tt) ;;;
  ret [("status", Some "success"); ("booking_id", booking_id)].

Definition on_payment_intent_succeeded
           (payment_intent : Stripe.Object.t) : M json :=
  let booking_id := Stripe.Object.metadata_booking_id payment_intent in
  (if truthy_str booking_id then
     match booking_id with
     | Some bid =>
         try_except
           (SupabaseService.update_booking_status bid "confirmed" ;;;
            ret tt)
           (fun _ => ret tt)
     | None => ret tt
     end
   else ret tt) ;;;
  ret [("status", Some "success")].

Definition on_payment_intent_payment_failed
           (payment_intent : Stripe.Object.t) : M json :=
  let booking_id := Stripe.Object.metadata_booking_id payment_intent in
  let failure_message :=
    match Stripe.Object.last_payment_error_message payment_intent with
    | Some m => m
    | None => "Unknown error"
    end in
  (if truthy_str booking_id then
     match booking_id with
     | Some bid =>
         (* Keep booking as pending, update payment record *)
         try_except
           (SupabaseService.update_payment_status
              bid "failed" None None None ;;;
            ret tt)
           (fun _ => ret tt)
     | None => ret tt
     end
   else ret tt) ;;;
  ret [("status", Some "failed"); ("message", Some failure_message)].

Definition stripe_webhook (e : env) (req : request) : M json :=
  if negb (STRIPE_AVAILABLE e) then
    raise (HTTPException 503 "Stripe integration not available")
  else
  match stripe_signature req with
  | None => raise (HTTPException 400 "Missing Stripe signature")
  | Some signature =>
  if String.eqb signature "" then
    raise (HTTPException 400 "Missing Stripe signature")
  else
  (* Verify webhook signature *)
  match Stripe.construct_event (stripe e) (body req) signature
          (STRIPE_WEBHOOK_SECRET (settings e)) with
  | Stripe.InvalidPayload =>
      raise (HTTPException 400 "Invalid payload")
  | Stripe.SignatureVerificationError =>
      raise (HTTPException 400 "Invalid signature")
  | Stripe.Constructed event =>
  (* Handle the event *)
  let event_type := Stripe.Event.type event in
  let event_data := Stripe.Event.data_object event in
  if String.eqb event_type "checkout.session.completed" then
    on_checkout_session_completed e event_data
  else if String.eqb event_type "payment_intent.succeeded" then
    on_payment_intent_succeeded event_data
  else if String.eqb event_type "payment_intent.payment_failed" then
    on_payment_intent_payment_failed event_data
  else if String.eqb event_type "customer.created" then
    ret [("status", Some "success");
         ("customer_id", Stripe.Object.id event_data)]
  else
    ret [("status", Some "ignored"); ("event_type", Some event_type)]
  end end.

End Webhooks.

(* ================================================================== *)
(** ** [app/api/bookings.py] *)

Module BookingsApi.

Inductive response :=
| AlreadyConfirmed (booking : Booking.t)
    (* [{"status": "confirmed", "booking": booking}] *)
| Pending (message : string)
    (* [{"status": "pending", "message": ...}] *)
| Confirmed (booking : option Booking.t) (payment_intent_id : string).
    (* [{"status": "confirmed", "booking": ..., "payment_intent_id": ...}] *)

Definition is_paid_session (s : Stripe.Session.t) : bool :=
  String.eqb (Stripe.Session.payment_status s) "paid"
  && truthy_str (Stripe.Session.payment_intent s).

Definition has_succeeded (pi : Stripe.PaymentIntent.t) : bool :=
  String.eqb (Stripe.PaymentIntent.status pi) "succeeded".

(** First try: the sessions of the payment link the booking used. *)
Definition payment_intent_of_link
           (e : env) (payment_link_id : option string)
  : M (option string) :=
  if truthy_str payment_link_id then
    match payment_link_id with
    | Some link_id =>
        try_except
          (log_call (CheckoutSessionList link_id) ;;;
           match Stripe.checkout_session_list (stripe e) link_id with
           | Some sessions =>
               match find is_paid_session sessions with
               | Some paid_session =>
                   ret (Stripe.Session.payment_intent paid_session)
               | None => ret None
               end
           | None => raise StripeError
           end)
          (fun _ => ret None)
    | None => ret None
    end
  else ret None.

(** Fetch the payment intent of a paid session. *)
Definition retrieve_intent (e : env) (payment_intent_id : option string)
  : M (option Stripe.PaymentIntent.t) :=
  if truthy_str payment_intent_id then
    match payment_intent_id with
    | Some pid =>
        try_except
          (log_call (PaymentIntentRetrieve pid) ;;;
           match Stripe.payment_intent_retrieve (stripe e) pid with
           | Some pi => ret (Some pi)
           | None => raise StripeError
           end)
          (fun _ => ret None)
    | None => ret None
    end
  else ret None.

(** Fallback: search by metadata. *)
Definition search_intent (e : env) (booking_id : string)
  : M (option Stripe.PaymentIntent.t) :=
  results <- try_except
               (log_call (PaymentIntentSearch booking_id) ;;;
                match Stripe.payment_intent_search (stripe e)
                        booking_id with
                | Some results => ret results
                | None => raise StripeError
                end)
               (fun exc =>
                  raise (HTTPException 502
                    ("Stripe search failed: " ++ exn_str exc)%string)) ;;
  ret (find has_succeeded results).

(** The e-mail address handed to the confirmation task. *)
Definition fallback_email_of (pi : Stripe.PaymentIntent.t)
  : result (option string) :=
  if truthy_str (Stripe.PaymentIntent.receipt_email pi) then
    Ok (Stripe.PaymentIntent.receipt_email pi)
  else
    match Stripe.PaymentIntent.charges_data pi with
    | None => Ok None                  (* the default [[{}]] *)
    | Some [] => Raise IndexError
    | Some (c :: _) => Ok (Stripe.Charge.billing_details_email c)
    end.

Definition reconcile_booking_payment (e : env) (booking_id : string)
  : M response :=
  booking <- SupabaseService.get_booking_by_id booking_id ;;
  match booking with
  | None => raise (HTTPException 404 "Booking not found")
  | Some booking =>
  if String.eqb (Booking.status booking) "confirmed" then
    ret (AlreadyConfirmed booking)
  else if negb (STRIPE_AVAILABLE e) then
    raise (HTTPException 503
             "Stripe SDK not available for reconciliation")
  else
  payment_record <- SupabaseService.get_payment_by_booking booking_id ;;
  let payment_link_id :=
    match payment_record with
    | Some p => Payment.transaction_id p
    | None => None
    end in
  payment_intent_id <- payment_intent_of_link e payment_link_id ;;
  confirmed_intent <- retrieve_intent e payment_intent_id ;;
  confirmed_intent <-
    match confirmed_intent with
    | Some pi => ret (Some pi)
    | None => search_intent e booking_id
    end ;;
  match confirmed_intent with
  | None =>
      ret (Pending "No successful payment found yet for this booking.")
  | Some confirmed_intent =>
  (* Update booking and payment record *)
  booking <-
    try_except
      (SupabaseService.update_booking_status booking_id "confirmed" ;;;
       SupabaseService.update_payment_status
         booking_id "completed"
         (Some (Stripe.PaymentIntent.id confirmed_intent))
         (Some (now e)) None ;;;
       booking <- SupabaseService.get_booking_by_id booking_id ;;
       fallback_email <- lift_result (fallback_email_of confirmed_intent) ;;
       create_task (SendBookingConfirmationEmail booking_id
                                                 fallback_email) ;;;
       ret booking)
      (fun exc =>
         raise (HTTPException 500
           ("Failed to update booking/payment: " ++ exn_str exc)%string)) ;;
  ret (Confirmed booking (Stripe.PaymentIntent.id confirmed_intent))
  end end.

End BookingsApi.

(* ================================================================== *)
(** ** [app/services/supabase.py], the other methods *)

(** A row of the [profiles] table, as far as it is read. *)
Module Profile.
Record t := mk {
  id : string;
  email : option string;
  full_name : option string
}.
End Profile.

Module SupabaseServiceExt.

(** The filter of [get_bookings_for_space]: same space, not cancelled,
    [start_time >= start_date] and [end_time <= end_date]. *)
Definition within (space_id : string) (start_date end_date : datetime)
           (b : Booking.t) : bool :=
  String.eqb (Booking.space_id b) space_id
  && negb (String.eqb (Booking.status b) "cancelled")
  && (Booking.start_time b >=? start_date)
  && (Booking.end_time b <=? end_date).

Definition get_bookings_for_space
           (space_id : string) (start_date end_date : datetime)
  : M (list Booking.t) :=
  SupabaseService._execute (fun d =>
    (Ok (filter (within space_id start_date end_date) (bookings d)), d)).

(** [order("start_time", desc=False)].  The database does not say in
    which order it gives rows of equal [start_time]; here they keep the
    order of the table. *)
Fixpoint insert_by_start_time (b : Booking.t) (rows : list Booking.t)
  : list Booking.t :=
  match rows with
  | [] => [b]
  | x :: rest =>
      if Booking.start_time b <=? Booking.start_time x then b :: x :: rest
      else x :: insert_by_start_time b rest
  end.

Definition order_by_start_time (rows : list Booking.t) : list Booking.t :=
  fold_right insert_by_start_time [] rows.

(** The filter that [get_user_bookings] builds: the user, the status when
    one is given, and the start not before [now] when only upcoming
    bookings are asked for. *)
Definition of_user (now : datetime) (user_id : string)
           (status : option string) (upcoming_only : bool)
           (b : Booking.t) : bool :=
  String.eqb (Booking.user_id b) user_id
  && (if truthy_str status then
        match status with
        | Some s => String.eqb (Booking.status b) s
        | None => true
        end
      else true)
  && (if upcoming_only then Booking.start_time b >=? now else true).

(** [now] is the reading of the clock when the query is built. *)
Definition get_user_bookings
           (now : datetime) (user_id : string) (status : option string)
           (upcoming_only : bool) : M (list Booking.t) :=
  SupabaseService._execute (fun d =>
    (Ok (order_by_start_time
           (filter (of_user now user_id status upcoming_only)
                   (bookings d))),
     d)).

(** The rows that [cancel_booking] touches: the booking, if the user owns
    it. *)
Definition owned (booking_id user_id : string) (b : Booking.t) : bool :=
  SupabaseService.has_id booking_id b
  && String.eqb (Booking.user_id b) user_id.

Definition cancel_where_owned (booking_id user_id : string)
           (b : Booking.t) : Booking.t :=
  if owned booking_id user_id b then Booking.with_status "cancelled" b
  else b.

Definition cancel_booking (booking_id user_id : string) : M bool :=
  data <- SupabaseService._execute (fun d =>
            let rows := map (cancel_where_owned booking_id user_id)
                            (bookings d) in
            (Ok (filter (owned booking_id user_id) rows),
             set_bookings rows d)) ;;
  ret (Nat.ltb 0 (List.length data)).

(** The [profiles] table is written by no code that is embedded here: it
    is an argument.  Any exception of the request is turned into
    [None]. *)
Definition get_user_profile (profiles : list Profile.t) (user_id : string)
  : M (option Profile.t) :=
  try_except
    (SupabaseService._execute (fun d =>
       (single (filter (fun p => String.eqb (Profile.id p) user_id)
                       profiles),
        d)))
    (fun _ => ret None).

End SupabaseServiceExt.

(* ================================================================== *)
(** ** [app/agent/tools/booking.py], [cancel_booking] *)

Module CancelTool.

(** The JSON answer: [{"success": false, "error": ...}] or
    [{"success": true, "cancelled_booking": {"id": ...}, ...}]. *)
Inductive response :=
| Refused (error : string)
| Cancelled (booking_id : string).

Definition cancel_booking (booking_id user_id : string) : M response :=
  (* Get booking details first *)
  booking <- SupabaseService.get_booking_by_id booking_id ;;
  match booking with
  | None => ret (Refused ("Booking not found: " ++ booking_id)%string)
  | Some booking =>
  (* Check if booking belongs to user *)
  if negb (String.eqb (Booking.user_id booking) user_id) then
    ret (Refused "You can only cancel your own bookings.")
  (* Check if booking can be cancelled *)
  else if String.eqb (Booking.status booking) "cancelled" then
    ret (Refused "This booking is already cancelled.")
  else if String.eqb (Booking.status booking) "completed" then
    ret (Refused "Cannot cancel a completed booking.")
  else
  (* Cancel the booking *)
  success <- SupabaseServiceExt.cancel_booking booking_id user_id ;;
  if success then ret (Cancelled booking_id)
  else ret (Refused
    "Failed to cancel booking. Please try again or contact support.")
  end.

End CancelTool.

(* ================================================================== *)
(** ** [app/api/bookings.py], [get_booking] *)

Module BookingsApiExt.

Definition get_booking (booking_id : string) : M Booking.t :=
  booking <- SupabaseService.get_booking_by_id booking_id ;;
  match booking with
  | None => raise (HTTPException 404 "Booking not found")
  | Some booking => ret booking
  end.

End BookingsApiExt.

(* ================================================================== *)
(** ** [app/services/notifications.py] *)

Module Notifications.

(** [str.rstrip("/")]: the string without the slashes it ends with. *)
Fixpoint rstrip_slash (s : string) : string :=
  match s with
  | EmptyString => EmptyString
  | String c rest =>
      match rstrip_slash rest with
      | EmptyString =>
          if Ascii.eqb c "/"%char then EmptyString
          else String c EmptyString
      | kept => String c kept
      end
  end.

Definition _build_checkin_url (s : Settings) (booking_id : string)
  : string :=
  (rstrip_slash (FRONTEND_URL s) ++ "/checkin/" ++ booking_id)%string.

(** What the confirmation finds around it besides [env]: the two
    settings of the mailer, whether its SDK could be imported, the
    [profiles] table, and whether the mailer accepts an e-mail for a
    recipient ([false]: [resend.Emails.send] raises). *)
Record mailer := mkMailer {
  RESEND_API_KEY : string;
  RESEND_FROM : string;
  RESEND_AVAILABLE : bool;
  profiles : list Profile.t;
  accepts : string -> bool
}.

(** Where the coroutine ends.  It returns [None] at each [return]; the
    constructor tells which one was reached and, for the last two, to
    whom the e-mail was addressed.  [Died_AttributeError] is the
    [user_profile.get] of the greeting when [user_profile] is [None]: an
    exception that ends the task. *)
Inductive ending :=
| NotConfigured
| SdkMissing
| BookingNotFound
| AlreadySent
| NoRecipient
| Died_AttributeError
| SendFailed (recipient : string)
| Sent (recipient : string).

(** The recipient looked up at the provider when neither the profile nor
    the caller gave one. *)
Definition recipient_from_stripe
           (e : env) (payment : option Payment.t)
           (recipient : option string) : M (option string) :=
  match payment with
  | Some p =>
      if negb (truthy_str recipient)
         && truthy_str (Payment.transaction_id p) then
        match Payment.transaction_id p with
        | Some transaction_id =>
            try_except
              (log_call (PaymentIntentRetrieve transaction_id) ;;;
               match Stripe.payment_intent_retrieve (stripe e)
                       transaction_id with
               | Some pi => lift_result (BookingsApi.fallback_email_of pi)
               | None => raise StripeError
               end)
              (fun _ => ret recipient)
        | None => ret recipient
        end
      else ret recipient
  | None => ret recipient
  end.

(** "Mark payment record to avoid duplicate sends". *)
Definition mark_sent (booking_id : string) (payment : option Payment.t)
  : M unit :=
  match payment with
  | Some p =>
      try_except
        (SupabaseService.update_payment_status
           booking_id (Payment.payment_status p) (Payment.transaction_id p)
           None
           (if truthy_str (Payment.receipt_url p) then Payment.receipt_url p
            else Some "email_sent") ;;;
         ret tt)
        (fun _ => ret tt)
  | None => ret tt
  end.

Definition send_booking_confirmation_email
           (e : env) (m : mailer) (booking_id : string)
           (fallback_email : option string) : M ending :=
  if String.eqb (RESEND_API_KEY m) "" || String.eqb (RESEND_FROM m) "" then
    ret NotConfigured
  else if negb (RESEND_AVAILABLE m) then ret SdkMissing
  else
  booking <- SupabaseService.get_booking_by_id booking_id ;;
  match booking with
  | None => ret BookingNotFound
  | Some booking =>
  payment <- SupabaseService.get_payment_by_booking booking_id ;;
  if match payment with
     | Some p =>
         match Payment.receipt_url p with
         | Some url => String.eqb url "email_sent"
         | None => false
         end
     | None => false
     end
  then ret AlreadySent       (* Already sent a confirmation *)
  else
  user_profile <- SupabaseServiceExt.get_user_profile
                    (profiles m) (Booking.user_id booking) ;;
  let profile_email :=
    match user_profile with
    | Some p => Profile.email p
    | None => None
    end in
  let recipient :=
    if truthy_str profile_email then profile_email else fallback_email in
  recipient <- recipient_from_stripe e payment recipient ;;
  if negb (truthy_str recipient) then ret NoRecipient
  else
  match recipient with
  | None => ret NoRecipient
  | Some recipient =>
  (* body_lines: [user_profile.get('full_name')] *)
  match user_profile with
  | None => ret Died_AttributeError
  | Some _ =>
  if negb (accepts m recipient) then ret (SendFailed recipient)
  else
  mark_sent booking_id payment ;;;
  ret (Sent recipient)
  end end end.

End Notifications.

(* ================================================================== *)
(** ** [app/agent/tools/availability.py], [get_available_time_slots] *)

Module AvailabilityTool.

Definition second_us : Z := 1000000.
Definition minute_us : Z := 60 * second_us.
Definition hour_us : Z := 60 * minute_us.
Definition day_us : Z := 24 * hour_us.

(** [t.hour]. *)
Definition hour_of (t : datetime) : Z := (t / hour_us) mod 24.

(** [t.replace(hour=h, minute=m, second=s)]: the date and the
    microsecond of [t] are kept. *)
Definition replace_hms (t : datetime) (h m s : Z) : datetime :=
  (t / day_us) * day_us + h * hour_us + m * minute_us + s * second_us
  + t mod second_us.

(** The [while current < end] loop over one booking, with the number of
    turns that are left. *)
Fixpoint booked_hours_loop (turns : nat) (current end_time : datetime)
         (booked_hours : list Z) : list Z :=
  match turns with
  | O => booked_hours
  | S turns' =>
      if current <? end_time then
        booked_hours_loop turns' (current + hour_us) end_time
                          (hour_of current :: booked_hours)
      else booked_hours
  end.

(** One turn an hour, and one more: enough for the loop to stop on its
    test. *)
Definition turns_for (start_time end_time : datetime) : nat :=
  Z.to_nat ((end_time - start_time) / hour_us + 1).

(** "Build list of booked hours": the set, as the list of what was
    added. *)
Definition booked_hours_of (bookings : list Booking.t) : list Z :=
  fold_left
    (fun booked_hours b =>
       booked_hours_loop
         (turns_for (Booking.start_time b) (Booking.end_time b))
         (Booking.start_time b) (Booking.end_time b) booked_hours)
    bookings [].

Definition business_start : Z := 8.
Definition business_end : Z := 22.

(** [range(business_start, business_end)]. *)
Definition business_hours : list Z :=
  map Z.of_nat (seq (Z.to_nat business_start)
                    (Z.to_nat (business_end - business_start))).

(** "Generate available slots": a slot is the pair of the hours it starts
    and ends at. *)
Definition available_slots (booked_hours : list Z) : list (Z * Z) :=
  map (fun hour => (hour, hour + 1))
      (filter (fun hour => negb (existsb (Z.eqb hour) booked_hours))
              business_hours).

Record slots := mkSlots {
  space_id : string;
  space_name : string;
  date : datetime;
  slot_list : list (Z * Z);
  total_available : nat
}.

Inductive response :=
| Error (error : string)
| Available (s : slots).

(** [parse_date] is an argument: the instant of the date, or the message
    of the [ValueError]. *)
Definition get_available_time_slots
           (parse_date : string -> string + datetime)
           (space_id date : string) : M response :=
  match parse_date date with
  | inl msg => ret (Error msg)
  | inr booking_date =>
  (* Get space details *)
  space <- SupabaseService.get_space_by_id space_id ;;
  match space with
  | None => ret (Error ("Space not found: " ++ space_id)%string)
  | Some space =>
  (* Get existing bookings for the day *)
  let day_start := replace_hms booking_date 0 0 0 in
  let day_end := replace_hms booking_date 23 59 59 in
  bookings <- SupabaseServiceExt.get_bookings_for_space
                space_id day_start day_end ;;
  let available := available_slots (booked_hours_of bookings) in
  ret (Available (mkSlots space_id (Space.name space) booking_date
                          available (List.length available)))
  end end.

End AvailabilityTool.

(* ================================================================== *)
(** ** Vocabulary of the statements *)

(** A computation is [stable] for a relation between the world before and
    the world after when every run of it is in the relation.  For a
    preorder, stability goes through sequencing and handlers. *)
Definition stable {A} (R : world -> world -> Prop) (c : M A) : Prop :=
  forall w r w', c w = (r, w') -> R w w'.

(** Nothing observable changed: the tables, the trace of provider calls
    and the spawned tasks are what they were. *)
Definition untouched (w w' : world) : Prop :=
  db w' = db w /\ calls w' = calls w /\ tasks w' = tasks w.

(** Only the provider was talked to: the tables, the tasks and the
    script of database faults are what they were. *)
Definition provider_only (w w' : world) : Prop :=
  db w' = db w /\ tasks w' = tasks w /\ db_script w' = db_script w.

(** A query that leaves the database as it is makes a request that
    leaves the world untouched. *)
Definition read_only {A} (q : query A) : Prop :=
  forall d, snd (q d) = d.

(** The request gets as far as the price: both identifiers are accepted,
    both instants parse, the start is not before the reading of the
    clock, the end is after the start, the space is found (leaving the
    world [w1]) and it is free for the interval (leaving [w2]). *)
Definition reaches_pricing
           (e : env) (user_id space_id date start_time end_time : string)
           (w : world) (space : Space.t)
           (start_datetime end_datetime : datetime) (w2 : world) : Prop :=
  valid_uuid e space_id = true /\
  valid_uuid e user_id = true /\
  parse_datetime e date start_time = inr start_datetime /\
  parse_datetime e date end_time = inr end_datetime /\
  now e <= start_datetime /\
  start_datetime < end_datetime /\
  exists w1,
    SupabaseService.get_space_by_id space_id w = (Ok (Some space), w1) /\
    SupabaseService.check_space_availability
      space_id start_datetime end_datetime w1 = (Ok true, w2).

(** [duration_hours] of an interval. *)
Definition hours_between (start_datetime end_datetime : datetime) : float :=
  PrimFloat.div (total_seconds (end_datetime - start_datetime)) 3600%float.

(** What the pricing code falls back to: the hourly rate times the
    duration, else the flat daily rate, else nothing. *)
Definition default_price (space : Space.t) (duration_hours : float)
  : option float :=
  match BookingTool.usable_rate (Space.hourly_rate space) with
  | Some r => Some (PrimFloat.mul r duration_hours)
  | None => BookingTool.usable_rate (Space.daily_rate space)
  end.

(** The request cannot be verified: the signature header is missing or
    empty, or [construct_event] refuses the payload (malformed) or the
    signature (it does not match the payload under the shared secret). *)
Definition unverifiable (e : env) (req : Webhooks.request) : Prop :=
  match Webhooks.stripe_signature req with
  | None => True
  | Some signature =>
      signature = "" \/
      Stripe.construct_event (stripe e) (Webhooks.body req) signature
        (STRIPE_WEBHOOK_SECRET (settings e)) = Stripe.InvalidPayload \/
      Stripe.construct_event (stripe e) (Webhooks.body req) signature
        (STRIPE_WEBHOOK_SECRET (settings e))
      = Stripe.SignatureVerificationError
  end.

(** The request carries a signature under which [construct_event] accepts
    the payload as [event]. *)
Definition verified_as (e : env) (req : Webhooks.request)
           (event : Stripe.Event.t) : Prop :=
  exists signature,
    Webhooks.stripe_signature req = Some signature /\
    signature <> "" /\
    Stripe.construct_event (stripe e) (Webhooks.body req) signature
      (STRIPE_WEBHOOK_SECRET (settings e)) = Stripe.Constructed event.

(** The provider holds the proof of a successful payment for the
    booking, in the world [w]: the payment link of the booking (the
    transaction reference of its first payment record) has sessions, the
    first of them that is paid names a payment intent, and that payment
    intent can be retrieved; or a succeeded payment intent is among the
    results of the search by the identifier of the booking. *)
Definition proven_payment (e : env) (w : world) (booking_id : string)
  : Prop :=
  (exists p link_id sessions s pid pi,
     first_or_none (filter (SupabaseService.for_booking booking_id)
                           (payments (db w))) = Some p /\
     Payment.transaction_id p = Some link_id /\
     link_id <> "" /\
     Stripe.checkout_session_list (stripe e) link_id = Some sessions /\
     find BookingsApi.is_paid_session sessions = Some s /\
     Stripe.Session.payment_intent s = Some pid /\
     Stripe.payment_intent_retrieve (stripe e) pid = Some pi) \/
  (exists results pi,
     Stripe.payment_intent_search (stripe e) booking_id = Some results /\
     In pi results /\
     BookingsApi.has_succeeded pi = true).

(* ================================================================== *)
(** ** Concrete data for the examples *)

Module Fixtures.

Definition hour : Z := 3600000000.

Definition cancelled_booking : Booking.t :=
  Booking.mk "b1" "u1" "s1" (14 * hour) (16 * hour) "hourly" "cancelled"
             80%float 1 None None.

Definition no_uuid : nat -> string := fun _ => "b2".

(** A ledger whose only booking was cancelled. *)
Definition cancelled_ledger : world :=
  mkWorld (mkDb [] [cancelled_booking] [] no_uuid) [] [] [].

(** A meeting room at RM10.50 an hour, with no daily or monthly
    rate. *)
Definition room : Space.t :=
  Space.mk "s1" "Meeting Room A" "meeting-room" "Kuala Lumpur"
           (Some 10.5%float) None None true.

(** A provider that answers every request. *)
Definition provider : Stripe.api :=
  Stripe.mkApi
    (fun _ _ _ => Stripe.SignatureVerificationError)
    (fun _ _ _ _ => Stripe.Reply (Stripe.Price.mk "price_1" "prod_1"))
    (fun _ _ _ _ _ =>
       Stripe.Reply (Stripe.PaymentLink.mk "plink_1" "https://pay/plink_1"))
    (fun _ => None) (fun _ => None) (fun _ => None).

(** A provider that does not answer within the timeout. *)
Definition silent_provider : Stripe.api :=
  Stripe.mkApi
    (fun _ _ _ => Stripe.SignatureVerificationError)
    (fun _ _ _ _ => Stripe.Hangs)
    (fun _ _ _ _ _ => Stripe.Hangs)
    (fun _ => None) (fun _ => None) (fun _ => None).

(** The instants of one day, by their time string. *)
Definition parse_clock (date time : string) : string + datetime :=
  if String.eqb time "13:00" then inr (13 * hour)
  else if String.eqb time "14:00" then inr (14 * hour)
  else if String.eqb time "14:15" then inr (14 * hour + hour / 4)
  else if String.eqb time "14:20" then inr (14 * hour + hour / 3)
  else if String.eqb time "16:00" then inr (16 * hour)
  else inl ("Could not parse date: " ++ date)%string.

Definition env_at (t : datetime) (api : Stripe.api) : env :=
  mkEnv (mkSettings "http://localhost:3000" "sk_test" "whsec")
        api true t (fun _ => true) parse_clock.

(** A hall at RM40 an hour or RM200 a day. *)
Definition hall : Space.t :=
  Space.mk "s2" "Event Hall" "meeting-room" "Kuala Lumpur"
           (Some 40%float) (Some 200%float) None true.

Definition first_uuid : nat -> string := fun _ => "b1".

(** The catalog holds the room and the hall; nothing is booked yet. *)
Definition empty_ledger : world :=
  mkWorld (mkDb [room; hall] [] [] first_uuid) [] [] [].

(** A booking that waits for its payment, and its payment record. *)
Definition pending_booking : Booking.t :=
Booking.mk "b1" "u1" "s1" (14 * hour) (16 * hour) "hourly" "pending"
           21%float 1 None None.

Definition pending_payment : Payment.t :=
Payment.mk "u1" "b1" 21%float "MYR" "pending" "stripe" (Some "plink_1")
           None None.

Definition pending_ledger : world :=
mkWorld (mkDb [room; hall] [pending_booking] [pending_payment] first_uuid)
        [] [] [].

(** The same ledger when the coming database request is going to time
    out. *)
Definition failing_ledger : world :=
mkWorld (mkDb [room; hall] [pending_booking] [pending_payment] first_uuid)
        [DbTimeout] [] [].


(** The session of the payment link of the booking, completed. *)
Definition completed_session : Stripe.Object.t :=
Stripe.Object.mk (Some "cs_1") None (Some "b1") (Some "u1@example.com")
                 (Some "pi_1") (Some 2100) None.

Definition checkout_completed : Stripe.Event.t :=
Stripe.Event.mk "checkout.session.completed" completed_session.

(** A provider whose webhook payloads verify under the signature
    ["t=1,v1=good"] only, and that knows no payment. *)
Definition signing_provider : Stripe.api :=
Stripe.mkApi
  (fun payload signature secret =>
     if String.eqb signature "t=1,v1=good" then
       if String.eqb payload "" then Stripe.InvalidPayload
       else Stripe.Constructed checkout_completed
     else Stripe.SignatureVerificationError)
  (fun _ _ _ _ => Stripe.Fails)
  (fun _ _ _ _ _ => Stripe.Fails)
  (fun _ => None) (fun _ => Some []) (fun _ => Some []).

Definition forged_request : Webhooks.request :=
Webhooks.mkRequest "{}" (Some "t=1,v1=forged").

Definition genuine_request : Webhooks.request :=
Webhooks.mkRequest "{}" (Some "t=1,v1=good").

(** The empty ledger when the fourth database request to come, the
    insertion of the payment record, is going to time out. *)
Definition flaky_ledger : world :=
mkWorld (mkDb [room; hall] [] [] first_uuid)
        [DbOk; DbOk; DbOk; DbTimeout] [] [].

End Fixtures.

(* ================================================================== *)
(** ** More concrete data for the examples *)

Module Scenarios.

(** A provider that accepts every signed payload as the given event,
    knows no session, and answers the search by booking with the given
    payment intents. *)
Definition delivering (event : Stripe.Event.t)
           (found : list Stripe.PaymentIntent.t) : Stripe.api :=
Stripe.mkApi
  (fun _ _ _ => Stripe.Constructed event)
  (fun _ _ _ _ => Stripe.Fails)
  (fun _ _ _ _ _ => Stripe.Fails)
  (fun _ => None) (fun _ => Some []) (fun _ => Some found).

Definition payment_failed : Stripe.Event.t :=
Stripe.Event.mk "payment_intent.payment_failed"
  (Stripe.Object.mk (Some "pi_1") None (Some "b1") None None None
                    (Some "Your card was declined.")).

Definition payment_succeeded : Stripe.Event.t :=
Stripe.Event.mk "payment_intent.succeeded"
  (Stripe.Object.mk (Some "pi_1") None (Some "b1") None None None None).

Definition customer_created : Stripe.Event.t :=
Stripe.Event.mk "customer.created"
  (Stripe.Object.mk (Some "cus_1") (Some "u1@example.com") None None None
                    None None).

(** A completed session that carries no booking reference and no payment
    intent. *)
Definition orphan_completed : Stripe.Event.t :=
Stripe.Event.mk "checkout.session.completed"
  (Stripe.Object.mk (Some "cs_2") None None None None (Some 2100) None).

Definition env_delivering (event : Stripe.Event.t) : env :=
Fixtures.env_at (17 * Fixtures.hour) (delivering event []).

(** A succeeded payment intent of booking b1, with a receipt address. *)
Definition paid_intent : Stripe.PaymentIntent.t :=
Stripe.PaymentIntent.mk "pi_1" "succeeded" (Some "b1")
                        (Some "u1@example.com") None.

(** The same, with no receipt address and an empty list of charges. *)
Definition paid_intent_without_charge : Stripe.PaymentIntent.t :=
Stripe.PaymentIntent.mk "pi_1" "succeeded" (Some "b1") None (Some []).

Definition env_paid (pi : Stripe.PaymentIntent.t) : env :=
Fixtures.env_at (17 * Fixtures.hour)
                (delivering Fixtures.checkout_completed [pi]).

(** The profile of user u1 and a mailer that accepts every e-mail. *)
Definition profile_u1 : Profile.t :=
Profile.mk "u1" (Some "u1@example.com") (Some "Aina").

Definition mailer_ok : Notifications.mailer :=
Notifications.mkMailer "re_key" "bookings@example.com" true [profile_u1]
                       (fun _ => true).

(** The same mailer when the user has no profile. *)
Definition mailer_without_profile : Notifications.mailer :=
Notifications.mkMailer "re_key" "bookings@example.com" true []
                       (fun _ => true).

(** The ledger of the pending booking once its payment is completed. *)
Definition paid_ledger : world :=
mkWorld (mkDb [Fixtures.room; Fixtures.hall]
              [Booking.with_status "confirmed" Fixtures.pending_booking]
              [Payment.mk "u1" "b1" 21%float "MYR" "completed" "stripe"
                          (Some "pi_1") (Some (17 * Fixtures.hour)) None]
              Fixtures.first_uuid)
        [] [] [].

(** A day of the room: booked from 14:00 to 16:00 and from 9:30 to
    10:30. *)
Definition half_past_booking : Booking.t :=
Booking.mk "b2" "u1" "s1"
           (9 * Fixtures.hour + Fixtures.hour / 2)
           (10 * Fixtures.hour + Fixtures.hour / 2)
           "hourly" "confirmed" 10.5%float 1 None None.

Definition busy_day : world :=
mkWorld (mkDb [Fixtures.room; Fixtures.hall]
              [Fixtures.pending_booking; half_past_booking] []
              Fixtures.first_uuid)
        [] [] [].

Definition parse_day (date : string) : string + datetime :=
if String.eqb date "1970-01-01" then inr 0
else inl ("Could not parse date: " ++ date)%string.

(** The confirmed booking when the insertion of its payment record had
    failed: the booking has no payment record. *)
Definition unrecorded_ledger : world :=
mkWorld (mkDb [Fixtures.room; Fixtures.hall]
              [Booking.with_status "confirmed" Fixtures.pending_booking]
              [] Fixtures.first_uuid)
        [] [] [].


(** The environment of a deployment where the SDK of the provider could
    not be imported. *)
Definition env_without_sdk : env :=
mkEnv (mkSettings "http://localhost:3000" "sk_test" "whsec")
      Fixtures.signing_provider false (13 * Fixtures.hour)
      (fun _ => true) Fixtures.parse_clock.

(** A hall whose hourly rate is zero and whose daily rate is RM200, and
    the ledger of a catalog that holds it. *)
Definition zero_rate_hall : Space.t :=
Space.mk "s3" "Open Hall" "meeting-room" "Kuala Lumpur"
         (Some 0%float) (Some 200%float) None true.

Definition zero_rate_ledger : world :=
mkWorld (mkDb [zero_rate_hall] [] [] Fixtures.first_uuid) [] [] [].

(** The room booked from 20:00 to 2:00 of the next day. *)
Definition overnight_ledger : world :=
mkWorld (mkDb [Fixtures.room; Fixtures.hall]
              [Booking.mk "b3" "u1" "s1"
                          (20 * Fixtures.hour) (26 * Fixtures.hour)
                          "hourly" "confirmed" 63%float 1 None None]
              [] Fixtures.first_uuid)
        [] [] [].

End Scenarios.

(* ================================================================== *)
(** * Properties *)

(** ** Reasoning about computations *)

Lemma bind_inv {A B} (c : M A) (k : A -> M B) w r w' :
  bind c k w = (r, w') ->
  (exists a w1, c w = (Ok a, w1) /\ k a w1 = (r, w')) \/
  (exists e, c w = (Raise e, w') /\ r = Raise e).
Proof.
  unfold bind. destruct (c w) as [[a | e] w1]; intros H.
  - left. exists a, w1. auto.
  - right. inversion H; subst. exists e. auto.
Qed.

Lemma try_except_inv {A} (c : M A) (h : exn -> M A) w r w' :
  try_except c h w = (r, w') ->
  (exists a, c w = (Ok a, w') /\ r = Ok a) \/
  (exists e w1, c w = (Raise e, w1) /\ h e w1 = (r, w')).
Proof.
  unfold try_except. destruct (c w) as [[a | e] w1]; intros H.
  - inversion H; subst. left. exists a. auto.
  - right. exists e, w1. auto.
Qed.

Lemma bind_ok {A B} (c : M A) (k : A -> M B) w a w1 :
  c w = (Ok a, w1) -> bind c k w = k a w1.
Proof. unfold bind. intros ->. reflexivity. Qed.

Lemma bind_raise {A B} (c : M A) (k : A -> M B) w e w1 :
  c w = (Raise e, w1) -> bind c k w = (Raise e, w1).
Proof. unfold bind. intros ->. reflexivity. Qed.

Section Stable.
Variable R : world -> world -> Prop.
Hypothesis R_refl : forall w, R w w.
Hypothesis R_trans : forall w1 w2 w3, R w1 w2 -> R w2 w3 -> R w1 w3.

Lemma stable_ret {A} (a : A) : stable R (ret a).
Proof. intros w r w' H. inversion H; subst. apply R_refl. Qed.

Lemma stable_raise {A} (e : exn) : stable R (@raise A e).
Proof. intros w r w' H. inversion H; subst. apply R_refl. Qed.

Lemma stable_lift_result {A} (x : result A) : stable R (lift_result x).
Proof. intros w r w' H. inversion H; subst. apply R_refl. Qed.

Lemma stable_bind {A B} (c : M A) (k : A -> M B) :
  stable R c -> (forall a, stable R (k a)) -> stable R (bind c k).
Proof.
  intros Hc Hk w r w' H.
  apply bind_inv in H as [(a & w1 & H1 & H2) | (e & H1 & _)].
  - eapply R_trans; [eapply Hc | eapply Hk]; eassumption.
  - eapply Hc; eassumption.
Qed.

Lemma stable_try_except {A} (c : M A) (h : exn -> M A) :
  stable R c -> (forall e, stable R (h e)) -> stable R (try_except c h).
Proof.
  intros Hc Hh w r w' H.
  apply try_except_inv in H as [(a & H1 & _) | (e & w1 & H1 & H2)].
  - eapply Hc; eassumption.
  - eapply R_trans; [eapply Hc | eapply Hh]; eassumption.
Qed.

Lemma stable_next_db_outcome :
  (forall w o rest, db_script w = o :: rest ->
     R w (mkWorld (db w) rest (calls w) (tasks w))) ->
  stable R next_db_outcome.
Proof.
  intros Hs w r w'. unfold next_db_outcome.
  destruct (db_script w) as [| o rest] eqn:E; intros H;
    inversion H; subst; eauto.
Qed.

Lemma stable_execute_attempts {A} (q : query A) :
  stable R next_db_outcome -> stable R (run_query q) ->
  forall n, stable R (SupabaseService.execute_attempts n q).
Proof.
  intros Hn Hq. induction n as [| n IH]; simpl;
    apply stable_bind; auto; intros [];
      auto using stable_raise.
Qed.

Lemma stable_execute {A} (q : query A) :
  stable R next_db_outcome -> stable R (run_query q) ->
  stable R (SupabaseService._execute q).
Proof. intros. apply stable_execute_attempts; assumption. Qed.
End Stable.

Lemma untouched_refl w : untouched w w.
Proof. repeat split. Qed.

Lemma untouched_trans w1 w2 w3 :
  untouched w1 w2 -> untouched w2 w3 -> untouched w1 w3.
Proof.
  unfold untouched. intros (a & b & c) (a' & b' & c').
  repeat split; congruence.
Qed.

Lemma untouched_next_db_outcome : stable untouched next_db_outcome.
Proof.
  apply stable_next_db_outcome; [apply untouched_refl |].
  intros w o rest _. repeat split.
Qed.

Lemma untouched_run_query {A} (q : query A) :
  read_only q -> stable untouched (run_query q).
Proof.
  intros Hq w r w'. unfold run_query. specialize (Hq (db w)).
  destruct (q (db w)) as [r0 d]. simpl in Hq. subst d.
  intros H. inversion H; subst. repeat split.
Qed.

Lemma untouched_read {A} (q : query A) :
  read_only q -> stable untouched (SupabaseService._execute q).
Proof.
  intros Hq. apply stable_execute.
  - apply untouched_refl.
  - apply untouched_trans.
  - apply untouched_next_db_outcome.
  - apply untouched_run_query, Hq.
Qed.

(** With no fault ahead, a request is the execution of its query. *)
Lemma execute_no_fault {A} (q : query A) w :
  db_script w = [] ->
  SupabaseService._execute q w = run_query q w.
Proof.
  intros Hs. unfold SupabaseService._execute. simpl.
  unfold bind, next_db_outcome. rewrite Hs. reflexivity.
Qed.

Lemma run_query_cases {A} (q : query A) d sc cs ts r w' :
  run_query q (mkWorld d sc cs ts) = (r, w') ->
  calls w' = cs /\ tasks w' = ts /\ (r, db w') = q d.
Proof.
  unfold run_query. simpl. destruct (q d) as [r0 d0].
  intros H. inversion H; subst. simpl. auto.
Qed.

(** A request either fails, and then the database is as it was, or is
    the execution of its query; it makes no provider call and spawns no
    task. *)
Lemma execute_attempts_cases {A} (q : query A) n w r w' :
  SupabaseService.execute_attempts n q w = (r, w') ->
  calls w' = calls w /\ tasks w' = tasks w /\
  ((exists e, r = Raise e /\ db w' = db w) \/ (r, db w') = q (db w)).
Proof.
  assert (Hraise : forall (e : exn) (w0 : world),
            (Raise e, w0) = (r, w') ->
            calls w' = calls w0 /\ tasks w' = tasks w0 /\
            ((exists e', r = Raise e' /\ db w' = db w0) \/
             (r, db w') = q (db w0))).
  { intros e w0 H. inversion H; subst.
    repeat split. left. exists e. split; reflexivity. }
  revert w. induction n as [| n IH]; intros [d sc cs ts]; simpl;
    unfold bind at 1, next_db_outcome; simpl;
    (destruct sc as [| [] rest]; simpl; intros H;
     [ apply run_query_cases in H; tauto
     | apply run_query_cases in H; tauto
     | apply Hraise in H; exact H
     | idtac
     | apply Hraise in H; exact H ]).
  - apply Hraise in H. exact H.
  - apply IH in H. exact H.
Qed.

Lemma execute_cases {A} (q : query A) w r w' :
  SupabaseService._execute q w = (r, w') ->
  calls w' = calls w /\ tasks w' = tasks w /\
  ((exists e, r = Raise e /\ db w' = db w) \/ (r, db w') = q (db w)).
Proof. apply execute_attempts_cases. Qed.

(* ================================================================== *)
(** ** The booking ledger: status updates *)

Lemma set_status_where_id_id booking_id status b :
  Booking.id (SupabaseService.set_status_where_id booking_id status b)
  = Booking.id b.
Proof.
  unfold SupabaseService.set_status_where_id.
  destruct (SupabaseService.has_id booking_id b); reflexivity.
Qed.

Lemma set_status_where_id_idem booking_id status b :
  SupabaseService.set_status_where_id booking_id status
    (SupabaseService.set_status_where_id booking_id status b)
  = SupabaseService.set_status_where_id booking_id status b.
Proof.
  unfold SupabaseService.set_status_where_id, SupabaseService.has_id.
  destruct (String.eqb (Booking.id b) booking_id) eqn:E; simpl;
    rewrite E; reflexivity.
Qed.

Lemma update_booking_status_no_fault booking_id status w :
  db_script w = [] ->
  SupabaseService.update_booking_status booking_id status w
  = (Ok (first_or_none
           (filter (SupabaseService.has_id booking_id)
              (map (SupabaseService.set_status_where_id booking_id status)
                   (bookings (db w))))),
     mkWorld
       (set_bookings
          (map (SupabaseService.set_status_where_id booking_id status)
               (bookings (db w)))
          (db w))
       [] (calls w) (tasks w)).
Proof.
  intros Hs. unfold SupabaseService.update_booking_status.
  unfold bind. rewrite execute_no_fault by assumption.
  unfold run_query, ret. rewrite Hs. reflexivity.
Qed.

(** C1, counterexample: a cancelled booking is set to [confirmed] by
    [update_booking_status]; the call succeeds and returns the row with
    its new status, so a terminal state is overwritten and no illegal
    transition is signalled. *)
Lemma update_booking_status_overwrites_cancelled :
  Booking.status Fixtures.cancelled_booking = "cancelled" /\
  SupabaseService.update_booking_status "b1" "confirmed"
    Fixtures.cancelled_ledger
  = (Ok (Some (Booking.with_status "confirmed" Fixtures.cancelled_booking)),
     mkWorld
       (mkDb [] [Booking.with_status "confirmed" Fixtures.cancelled_booking]
             [] Fixtures.no_uuid)
       [] [] []).
Proof. split; vm_compute; reflexivity. Qed.

(** C1, as the code has it: [update_booking_status] has no transition
    guard.  When the request goes through, every row with the given id
    takes the target status whatever its status was, the other rows are
    kept, the call succeeds (it answers the first updated row, nothing
    when no row has the id), and applying the same update again succeeds
    with the same answer and changes nothing. *)
Theorem update_booking_status_unguarded
        (booking_id status : string) (w : world) :
  db_script w = [] ->
  exists answer w',
    SupabaseService.update_booking_status booking_id status w
      = (Ok answer, w') /\
    (forall b, In b (bookings (db w)) -> Booking.id b = booking_id ->
               In (Booking.with_status status b) (bookings (db w'))) /\
    (forall b, In b (bookings (db w')) -> Booking.id b = booking_id ->
               Booking.status b = status) /\
    (forall b, Booking.id b <> booking_id ->
               (In b (bookings (db w')) <-> In b (bookings (db w)))) /\
    (answer = None <->
     forall b, In b (bookings (db w)) -> Booking.id b <> booking_id) /\
    SupabaseService.update_booking_status booking_id status w'
      = (Ok answer, w').
Proof.
  intros Hs.
  rewrite (update_booking_status_no_fault _ _ _ Hs).
  eexists. eexists. split; [reflexivity |]. simpl.
  repeat split.
  - intros b Hin Hid. apply in_map_iff. exists b. split; [| assumption].
    unfold SupabaseService.set_status_where_id, SupabaseService.has_id.
    apply String.eqb_eq in Hid. rewrite Hid. reflexivity.
  - intros b Hin Hid. apply in_map_iff in Hin as (b0 & Hb & _).
    subst b. rewrite set_status_where_id_id in Hid.
    unfold SupabaseService.set_status_where_id, SupabaseService.has_id.
    apply String.eqb_eq in Hid. rewrite Hid. reflexivity.
  - intros Hin. apply in_map_iff in Hin as (b0 & Hb & Hin).
    subst b. rewrite set_status_where_id_id in H.
    unfold SupabaseService.set_status_where_id, SupabaseService.has_id.
    apply String.eqb_neq in H. rewrite H. assumption.
  - intros Hin. apply in_map_iff. exists b. split; [| assumption].
    unfold SupabaseService.set_status_where_id, SupabaseService.has_id.
    apply String.eqb_neq in H. rewrite H. reflexivity.
  - intros Hnone b Hin Hid.
    assert (Hf : In (SupabaseService.set_status_where_id booking_id status b)
                    (filter (SupabaseService.has_id booking_id)
                       (map (SupabaseService.set_status_where_id
                               booking_id status) (bookings (db w))))).
    { apply filter_In. split.
      - apply in_map. assumption.
      - unfold SupabaseService.has_id.
        rewrite set_status_where_id_id. apply String.eqb_eq. assumption. }
    destruct (filter _ _); [destruct Hf | discriminate].
  - intros Hall.
    destruct (filter _ _) as [| b0 l] eqn:E; [reflexivity | exfalso].
    assert (Hf : In b0 (b0 :: l)) by (left; reflexivity).
    rewrite <- E in Hf. apply filter_In in Hf as (Hin & Hid).
    apply in_map_iff in Hin as (b1 & Hb & Hin). subst b0.
    unfold SupabaseService.has_id in Hid.
    rewrite set_status_where_id_id in Hid. apply String.eqb_eq in Hid.
    exact (Hall b1 Hin Hid).
  - rewrite update_booking_status_no_fault by reflexivity. simpl.
    rewrite map_map.
    rewrite (map_ext _ _ (set_status_where_id_idem booking_id status)).
    reflexivity.
Qed.

(** C1, the amended statement at a concrete ledger. *)
Lemma update_booking_status_unguarded_witness :
  exists answer w',
    SupabaseService.update_booking_status "b1" "confirmed"
      Fixtures.cancelled_ledger = (Ok answer, w') /\
    (forall b, In b (bookings (db Fixtures.cancelled_ledger)) ->
               Booking.id b = "b1" ->
               In (Booking.with_status "confirmed" b) (bookings (db w'))) /\
    (forall b, In b (bookings (db w')) -> Booking.id b = "b1" ->
               Booking.status b = "confirmed") /\
    (forall b, Booking.id b <> "b1" ->
               (In b (bookings (db w')) <->
                In b (bookings (db Fixtures.cancelled_ledger)))) /\
    (answer = None <->
     forall b, In b (bookings (db Fixtures.cancelled_ledger)) ->
               Booking.id b <> "b1") /\
    SupabaseService.update_booking_status "b1" "confirmed" w'
      = (Ok answer, w').
Proof.
  apply (update_booking_status_unguarded "b1" "confirmed"
           Fixtures.cancelled_ledger).
  reflexivity.
Defined.

(* ================================================================== *)
(** ** The availability check *)

Lemma blocks_iff space_id start_time end_time b :
  SupabaseService.blocks space_id start_time end_time b = true <->
  Booking.space_id b = space_id /\
  Booking.status b <> "cancelled" /\
  Booking.start_time b < end_time /\
  start_time < Booking.end_time b.
Proof.
  unfold SupabaseService.blocks.
  rewrite !andb_true_iff, negb_true_iff, String.eqb_eq, String.eqb_neq,
    Z.ltb_lt, Z.gtb_lt.
  tauto.
Qed.

Lemma check_space_availability_cases space_id start_time end_time w r w' :
  SupabaseService.check_space_availability space_id start_time end_time w
    = (r, w') ->
  untouched w w' /\
  ((exists e, r = Raise e) \/
   r = Ok (Nat.eqb
             (List.length
                (filter (SupabaseService.blocks space_id start_time end_time)
                        (bookings (db w))))
             0)).
Proof.
  unfold SupabaseService.check_space_availability. intros H.
  apply bind_inv in H as [(data & w1 & H1 & H2) | (e & H1 & ->)].
  - inversion H2; subst. apply execute_cases in H1 as (Hc & Ht & Hd).
    destruct Hd as [(e & He & _) | Hd]; [discriminate |].
    inversion Hd; subst. split; [repeat split; assumption |].
    right. reflexivity.
  - apply execute_cases in H1 as (Hc & Ht & Hd).
    destruct Hd as [(e' & _ & Hd) | Hd].
    + split; [repeat split; assumption | left; eauto].
    + inversion Hd.
Qed.

(** C2: the availability check answers [true] exactly when no booking of
    the space, other than cancelled ones, has an interval [[s1, e1)] with
    [s1 < end] and [start < e1].  With no database fault ahead it does
    answer, and it writes nothing.  In particular bookings that end at
    the requested start or start at the requested end do not block. *)
Theorem check_space_availability_iff
        (space_id : string) (start_time end_time : datetime) (w : world) :
  (db_script w = [] ->
   exists free,
     SupabaseService.check_space_availability space_id start_time end_time w
       = (Ok free, w)) /\
  (forall free w',
     SupabaseService.check_space_availability space_id start_time end_time w
       = (Ok free, w') ->
     untouched w w' /\
     (free = true <->
      ~ exists b, In b (bookings (db w)) /\
                  Booking.space_id b = space_id /\
                  Booking.status b <> "cancelled" /\
                  Booking.start_time b < end_time /\
                  start_time < Booking.end_time b) /\
     ((forall b, In b (bookings (db w)) ->
                 Booking.space_id b = space_id ->
                 Booking.status b <> "cancelled" ->
                 Booking.end_time b = start_time \/
                 Booking.start_time b = end_time) ->
      free = true)).
Proof.
  split.
  - intros Hs. destruct w as [d sc cs ts]. simpl in Hs. subst sc.
    eexists.
    unfold SupabaseService.check_space_availability, bind.
    rewrite execute_no_fault by reflexivity.
    unfold run_query, ret. simpl. reflexivity.
  - intros free w' H.
    apply check_space_availability_cases in H as (Hu & [(e & He) | Hr]);
      [discriminate |].
    inversion Hr as [Hfree]. clear Hr Hfree.
    assert (Hiff : Nat.eqb
                     (List.length
                        (filter (SupabaseService.blocks space_id start_time
                                                        end_time)
                                (bookings (db w)))) 0 = true <->
                   ~ exists b, In b (bookings (db w)) /\
                               Booking.space_id b = space_id /\
                               Booking.status b <> "cancelled" /\
                               Booking.start_time b < end_time /\
                               start_time < Booking.end_time b).
    { rewrite Nat.eqb_eq, length_zero_iff_nil. split.
      - intros Hnil (b & Hin & Hb).
        assert (Hf : In b (filter (SupabaseService.blocks space_id start_time
                                                          end_time)
                                  (bookings (db w)))).
        { apply filter_In. split; [assumption |].
          apply blocks_iff. assumption. }
        rewrite Hnil in Hf. destruct Hf.
      - intros Hno.
        destruct (filter _ _) as [| b l] eqn:E; [reflexivity | exfalso].
        assert (Hf : In b (b :: l)) by (left; reflexivity).
        rewrite <- E in Hf. apply filter_In in Hf as (Hin & Hb).
        apply blocks_iff in Hb. apply Hno. exists b. tauto. }
    split; [assumption |]. split; [exact Hiff |].
    intros Htouch. apply Hiff.
    intros (b & Hin & Hsp & Hst & Hlt1 & Hlt2).
    destruct (Htouch b Hin Hsp Hst); lia.
Qed.

(** C2, at a concrete ledger: the room is booked from 14:00 to 16:00
    and is free from 16:00 to 18:00. *)
Lemma check_space_availability_iff_witness :
  SupabaseService.check_space_availability
    "s1" (16 * Fixtures.hour) (18 * Fixtures.hour) Fixtures.pending_ledger
  = (Ok true, Fixtures.pending_ledger).
Proof.
  destruct (check_space_availability_iff
              "s1" (16 * Fixtures.hour) (18 * Fixtures.hour)
              Fixtures.pending_ledger) as (Htotal & Hspec).
  destruct (Htotal eq_refl) as (free & Hrun).
  destruct (Hspec free _ Hrun) as (_ & _ & Hback).
  rewrite Hrun. rewrite Hback; [reflexivity |].
  intros b [<- | []] _ _. left. reflexivity.
Defined.

(* ================================================================== *)
(** ** Booking creation: the first part *)

Lemma get_space_by_id_untouched space_id :
  stable untouched (SupabaseService.get_space_by_id space_id).
Proof. apply untouched_read. intros d. reflexivity. Qed.

Lemma check_space_availability_untouched space_id s e :
  stable untouched (SupabaseService.check_space_availability space_id s e).
Proof.
  intros w r w' H. apply check_space_availability_cases in H. tauto.
Qed.

Lemma insert_booking_cases
      user_id space_id start_time end_time duration_type total_amount
      attendees_count notes special w r w' :
  SupabaseService.create_booking user_id space_id start_time end_time
    duration_type total_amount attendees_count notes special w = (r, w') ->
  calls w' = calls w /\ tasks w' = tasks w /\
  ((exists e, r = Raise e /\ db w' = db w) \/
   (let row := Booking.mk (gen_random_uuid (db w)
                             (List.length (bookings (db w))))
                          user_id space_id start_time end_time
                          duration_type "pending" total_amount
                          attendees_count notes special in
    r = Ok (Some row) /\
    db w' = set_bookings (bookings (db w) ++ [row]) (db w))).
Proof.
  unfold SupabaseService.create_booking. intros H.
  apply bind_inv in H as [(data & w1 & H1 & H2) | (e & H1 & ->)];
    apply execute_cases in H1 as (Hc & Ht & Hd).
  - destruct Hd as [(e & He & _) | Hd]; [discriminate |].
    inversion Hd as [[Hdata Hdb]]. subst data.
    inversion H2; subst. repeat split; try assumption.
    right. simpl. split; [reflexivity | first [exact Hdb | reflexivity]].
  - repeat split; try assumption.
    destruct Hd as [(e' & _ & Hd) | Hd]; [| inversion Hd].
    left. eauto.
Qed.

(** The step of a proof by cases on a run at an early [return]: the run
    [H] stops there, in a world related to the first one by [Hu]. *)
Ltac early_return Hexit H Hu :=
  left; eapply Hexit; [first [exact Hu | apply Hu] | exact H].

Lemma create_pending_booking_cases
      e user_id space_id date start_time end_time duration_type
      attendees_count notes w r w' :
  BookingTool.create_pending_booking e user_id space_id date start_time
    end_time duration_type attendees_count notes w = (r, w') ->
  (((exists msg, r = Ok (inl (BookingTool.Error msg))) \/
    (exists x, r = Raise x)) /\ untouched w w') \/
  (exists p start_datetime end_datetime,
     r = Ok (inr p) /\
     valid_uuid e space_id = true /\ valid_uuid e user_id = true /\
     parse_datetime e date start_time = inr start_datetime /\
     parse_datetime e date end_time = inr end_datetime /\
     now e <= start_datetime /\ start_datetime < end_datetime /\
     BookingTool.p_duration_hours p
       = PrimFloat.div (total_seconds (end_datetime - start_datetime))
                       3600%float /\
     BookingTool.compute_total_amount (BookingTool.p_space p) duration_type
       (BookingTool.p_duration_hours p)
       = Some (BookingTool.p_total_amount p) /\
     BookingTool.p_booking p
       = Booking.mk (gen_random_uuid (db w) (List.length (bookings (db w))))
                    user_id space_id start_datetime end_datetime
                    duration_type "pending" (BookingTool.p_total_amount p)
                    attendees_count notes None /\
     db w' = set_bookings (bookings (db w) ++ [BookingTool.p_booking p])
                          (db w) /\
     calls w' = calls w /\ tasks w' = tasks w).
Proof.
  unfold BookingTool.create_pending_booking. intros H.
  assert (Hexit : forall (msg : string) w0,
            untouched w w0 ->
            ret (inl (BookingTool.Error msg)) w0 = (r, w') ->
            ((exists msg, r = Ok (inl (BookingTool.Error msg))) \/
             (exists x, r = Raise x)) /\ untouched w w').
  { intros msg w0 Hu Hx. inversion Hx; subst.
    split; [left; eauto | exact Hu]. }
  destruct (valid_uuid e space_id) eqn:Hsid; simpl in H;
    [| early_return Hexit H untouched_refl].
  destruct (valid_uuid e user_id) eqn:Huid; simpl in H;
    [| early_return Hexit H untouched_refl].
  destruct (parse_datetime e date start_time) as [m1 | start_datetime] eqn:Hp1;
    [early_return Hexit H untouched_refl |].
  destruct (parse_datetime e date end_time) as [m2 | end_datetime] eqn:Hp2;
    [early_return Hexit H untouched_refl |].
  destruct (start_datetime <? now e) eqn:Hpast;
    [early_return Hexit H untouched_refl |].
  destruct (end_datetime <=? start_datetime) eqn:Hend;
    [early_return Hexit H untouched_refl |].
  apply Z.ltb_ge in Hpast. apply Z.leb_gt in Hend.
  apply bind_inv in H as [(space & w1 & H1 & H) | (x & H1 & ->)];
    apply get_space_by_id_untouched in H1;
    [| left; split; [right; eauto | exact H1]].
  destruct space as [space |];
    [| early_return Hexit H H1].
  apply bind_inv in H as [(free & w2 & H2 & H) | (x & H2 & ->)];
    apply check_space_availability_untouched in H2;
    pose proof (untouched_trans _ _ _ H1 H2) as H12;
    [| left; split; [right; eauto | exact H12]].
  destruct free; simpl in H;
    [| early_return Hexit H H12].
  destruct (BookingTool.compute_total_amount space duration_type _)
    as [total_amount |] eqn:Hprice;
    [| early_return Hexit H H12].
  apply bind_inv in H as [(created & w3 & H3 & H) | (x & H3 & ->)].
  - apply try_except_inv in H3 as [(a & H3 & Ha) | (x & w4 & H3 & H4)].
    + inversion Ha; subst a; clear Ha.
      apply bind_inv in H3 as [(b & w4 & H3 & H4) | (x & H3 & Hx)];
        [| discriminate].
      inversion H4; subst. clear H4.
      apply insert_booking_cases in H3 as (Hc & Ht & Hd).
      destruct Hd as [(x & Hx & _) | (Hb & Hd)]; [discriminate |].
      inversion Hb; subst b. clear Hb. inversion H; subst. clear H.
      destruct H12 as (Hdb & Hcs & Hts).
      right. eexists. exists start_datetime, end_datetime. simpl.
      rewrite Hdb in Hd. rewrite Hdb.
      repeat split; try assumption; try reflexivity; try congruence.
    + inversion H4; subst. clear H4.
      apply bind_inv in H3 as [(b & w5 & H3 & H4) | (x' & H3 & Hx)];
        [inversion H4 |].
      apply insert_booking_cases in H3 as (Hc & Ht & Hd).
      destruct Hd as [(x'' & _ & Hd) | (Hb & _)]; [| discriminate].
      left. eapply Hexit; [| exact H].
      eapply untouched_trans; [exact H12 |]. repeat split; assumption.
  - apply try_except_inv in H3 as [(a & H3 & Ha) | (x' & w4 & H3 & H4)];
      [discriminate | inversion H4].
Qed.
(* ================================================================== *)
(** ** The payment step *)

Lemma provider_only_refl w : provider_only w w.
Proof. repeat split. Qed.

Lemma provider_only_trans w1 w2 w3 :
  provider_only w1 w2 -> provider_only w2 w3 -> provider_only w1 w3.
Proof.
  unfold provider_only. intros (a & b & c) (a' & b' & c').
  repeat split; congruence.
Qed.

Lemma provider_only_log_call c : stable provider_only (log_call c).
Proof.
  intros w r w' H. unfold log_call in H. inversion H; subst.
  repeat split.
Qed.

Lemma provider_only_await_reply {A} (x : Stripe.reply A) :
  stable provider_only (BookingTool.await_reply x).
Proof.
  destruct x; simpl;
    auto using stable_ret, stable_raise, provider_only_refl.
Qed.

Lemma create_payment_link_sync_frame e space sid uid booking total :
  stable provider_only
    (BookingTool._create_payment_link_sync e space sid uid booking total).
Proof.
  unfold BookingTool._create_payment_link_sync.
  repeat (first
    [ apply stable_bind; [apply provider_only_trans | | intros ?]
    | apply stable_lift_result, provider_only_refl
    | apply provider_only_log_call
    | apply provider_only_await_reply
    | apply stable_ret, provider_only_refl ]).
Qed.

Lemma insert_payment_cases
      user_id booking_id amount payment_status payment_provider
      transaction_id w r w' :
  SupabaseService.create_payment_record user_id booking_id amount
    payment_status payment_provider transaction_id w = (r, w') ->
  calls w' = calls w /\ tasks w' = tasks w /\
  ((exists e, r = Raise e /\ db w' = db w) \/
   (let row := Payment.mk user_id booking_id amount "MYR" payment_status
                          payment_provider transaction_id None None in
    r = Ok (Some row) /\
    db w' = set_payments (payments (db w) ++ [row]) (db w))).
Proof.
  unfold SupabaseService.create_payment_record. intros H.
  apply bind_inv in H as [(data & w1 & H1 & H2) | (e & H1 & ->)];
    apply execute_cases in H1 as (Hc & Ht & Hd).
  - destruct Hd as [(e & He & _) | Hd]; [discriminate |].
    inversion Hd as [[Hdata Hdb]]. subst data.
    inversion H2; subst. repeat split; try assumption.
    right. simpl. split; [reflexivity | first [exact Hdb | reflexivity]].
  - repeat split; try assumption.
    destruct Hd as [(e' & _ & Hd) | Hd]; [| inversion Hd].
    left. eauto.
Qed.

(** What the payment step does, case by case. *)
Lemma payment_step_cases e space sid uid booking total w r w' :
  BookingTool.payment_step e space sid uid booking total w = (r, w') ->
  tasks w' = tasks w /\
  ( (* no secret key: the provider is not asked *)
    (STRIPE_SECRET_KEY (settings e) = "" /\
     r = Ok (None, None, None) /\ w' = w)
    \/
    (* the payment-link request raised *)
    (exists exc w1,
       BookingTool._create_payment_link_sync e space sid uid booking total w
         = (Raise exc, w1) /\
       r = Ok (None,
               Some ("Failed to create payment link: " ++ exn_str exc)%string,
               None) /\
       w' = w1 /\ db w' = db w)
    \/
    (* the payment-link request went through *)
    (exists price link w1 cents,
       BookingTool._create_payment_link_sync e space sid uid booking total w
         = (Ok (price, link), w1) /\
       BookingTool.to_cents total = Ok cents /\
       r = Ok (Some (Stripe.PaymentLink.url link), None,
               Some (BookingTool.mkMeta (Stripe.PaymentLink.id link)
                       (Stripe.Price.id price) (Stripe.Price.product price)
                       cents "myr")) /\
       calls w' = calls w1 /\
       ( (* the insertion of the payment record failed *)
         db w' = db w
         \/
         db w' = set_payments
                   (payments (db w) ++
                    [Payment.mk uid (Booking.id booking) total "MYR"
                                "pending" "stripe"
                                (Some (Stripe.PaymentLink.id link))
                                None None])
                   (db w)))).
Proof.
  unfold BookingTool.payment_step. intros H.
  destruct (String.eqb (STRIPE_SECRET_KEY (settings e)) "") eqn:Hkey;
    simpl in H.
  { apply String.eqb_eq in Hkey. inversion H; subst.
    split; [reflexivity |]. left. auto. }
  apply try_except_inv in H as [(a & H & ->) | (exc & w1 & H & Hh)].
  - apply bind_inv in H as [([price link] & w1 & H1 & H) | (x & H1 & Hx)];
      [| discriminate].
    pose proof (create_payment_link_sync_frame _ _ _ _ _ _ _ _ _ H1)
      as (Hdb1 & Hts1 & _).
    apply bind_inv in H as [(cents & w2 & H2 & H) | (x & H2 & Hx)];
      [| discriminate].
    unfold lift_result in H2. inversion H2 as [[Hcents Hw2]]. subst w2.
    clear H2.
    apply bind_inv in H as [(u & w3 & H3 & H) | (x & H3 & Hx)];
      [| discriminate].
    inversion H; subst a w3. clear H.
    apply try_except_inv in H3 as [(u' & H3 & _) | (x & w4 & H3 & H4)].
    + apply bind_inv in H3 as [(rec & w4 & H3 & H4) | (x & H3 & Hx)];
        [| discriminate].
      inversion H4; subst w4. clear H4.
      apply insert_payment_cases in H3 as (Hc & Ht & Hd).
      split; [congruence |]. right. right.
      exists price, link, w1, cents.
      repeat split; try assumption.
      destruct Hd as [(x & Hx & _) | (_ & Hd)]; [discriminate |].
      right. rewrite Hd, Hdb1. reflexivity.
    + inversion H4; subst w4. clear H4.
      apply bind_inv in H3 as [(rec & w4 & H3 & H4) | (x' & H3 & Hx)];
        [inversion H4 |].
      apply insert_payment_cases in H3 as (Hc & Ht & Hd).
      split; [congruence |]. right. right.
      exists price, link, w1, cents.
      repeat split; try assumption.
      destruct Hd as [(x'' & _ & Hd) | (Hb & _)]; [| discriminate].
      left. congruence.
  - inversion Hh; subst. clear Hh.
    apply bind_inv in H as [([price link] & w2 & H1 & H) | (x & H1 & Hx)].
    + exfalso.
      apply bind_inv in H as [(cents & w3 & H2 & H) | (x & H2 & Hx)].
      * apply bind_inv in H as [(u & w4 & H3 & H) | (x & H3 & Hx)];
          [inversion H |].
        apply try_except_inv in H3 as [(u' & H3 & Hu) | (x' & w5 & H3 & H4)];
          [discriminate | inversion H4].
      * (* the second rounding cannot fail when the first went through *)
        unfold BookingTool._create_payment_link_sync in H1.
        apply bind_inv in H1 as [(c0 & w4 & H0 & _) | (x' & H0 & Hx')];
          [| discriminate].
        unfold lift_result in H0, H2. congruence.
    + inversion Hx; subst x. clear Hx.
      pose proof (create_payment_link_sync_frame _ _ _ _ _ _ _ _ _ H1)
        as (Hdb1 & Hts1 & _).
      split; [assumption |]. right. left. exists exc, w'. auto.
Qed.

(* ================================================================== *)
(** ** Booking creation *)

Lemma create_booking_cases
      e user_id space_id date start_time end_time duration_type
      attendees_count notes w r w' :
  BookingTool.create_booking e user_id space_id date start_time end_time
    duration_type attendees_count notes w = (r, w') ->
  (((exists msg, r = Ok (BookingTool.Error msg)) \/ (exists x, r = Raise x))
   /\ untouched w w') \/
  (exists pd w1 pay,
     BookingTool.create_pending_booking e user_id space_id date start_time
       end_time duration_type attendees_count notes w = (Ok (inr pd), w1) /\
     BookingTool.payment_step e (BookingTool.p_space pd) space_id user_id
       (BookingTool.p_booking pd) (BookingTool.p_total_amount pd) w1
       = (Ok pay, w') /\
     r = Ok (BookingTool.response_payload pd pay)).
Proof.
  unfold BookingTool.create_booking. intros H.
  apply bind_inv in H as [(a & w1 & H1 & H) | (x & H1 & ->)].
  - pose proof (create_pending_booking_cases _ _ _ _ _ _ _ _ _ _ _ _ H1)
      as [([(msg & Hm) | (x & Hx)] & Hu) | (pd & s0 & e0 & Hp & _)];
      try discriminate.
    + inversion Hm; subst a. inversion H; subst.
      left. split; [left; eauto | exact Hu].
    + inversion Hp; subst a.
      apply bind_inv in H as [(pay & w2 & H2 & H) | (x & H2 & ->)].
      * inversion H; subst. right. exists pd, w1, pay. auto.
      * pose proof (payment_step_cases _ _ _ _ _ _ _ _ _ H2)
          as (_ & [(_ & Hr & _) | [(? & ? & _ & Hr & _)
                                  | (? & ? & ? & ? & _ & _ & Hr & _)]]);
          discriminate.
  - pose proof (create_pending_booking_cases _ _ _ _ _ _ _ _ _ _ _ _ H1)
      as [(_ & Hu) | (pd & s0 & e0 & Hp & _)]; [| discriminate].
    left. split; [right; eauto | exact Hu].
Qed.

(** The payment step leaves the bookings alone. *)
Lemma payment_step_bookings e space sid uid booking total w r w' :
  BookingTool.payment_step e space sid uid booking total w = (r, w') ->
  bookings (db w') = bookings (db w).
Proof.
  intros H. apply payment_step_cases in H
    as (_ & [(_ & _ & ->) | [(? & ? & _ & _ & _ & Hd)
                            | (? & ? & ? & ? & _ & _ & _ & _ & [Hd | Hd])]]);
    try reflexivity; rewrite Hd; reflexivity.
Qed.

(** The space of a pending booking is the one row of the table that has
    the identifier of the request. *)
Lemma create_pending_booking_space
      e user_id space_id date start_time end_time duration_type
      attendees_count notes w pd w1 :
  BookingTool.create_pending_booking e user_id space_id date start_time
    end_time duration_type attendees_count notes w = (Ok (inr pd), w1) ->
  single (filter (fun s => String.eqb (Space.id s) space_id)
                 (spaces (db w)))
  = Ok (Some (BookingTool.p_space pd)).
Proof.
  unfold BookingTool.create_pending_booking. intros H.
  destruct (valid_uuid e space_id); simpl in H; [| discriminate].
  destruct (valid_uuid e user_id); simpl in H; [| discriminate].
  destruct (parse_datetime e date start_time) as [m1 | s0];
    [discriminate |].
  destruct (parse_datetime e date end_time) as [m2 | e0];
    [discriminate |].
  destruct (s0 <? now e); [discriminate |].
  destruct (e0 <=? s0); [discriminate |].
  apply bind_inv in H as [(space & w2 & H1 & H) | (x & _ & Hx)];
    [| discriminate].
  unfold SupabaseService.get_space_by_id in H1.
  apply execute_cases in H1 as (_ & _ & [(x & Hx & _) | Hq]);
    [discriminate |].
  injection Hq as Hsingle Hdb. rewrite <- Hsingle. f_equal.
  destruct space as [space |]; [| discriminate].
  apply bind_inv in H as [(free & w3 & _ & H) | (x & _ & Hx)];
    [| discriminate].
  destruct free; simpl in H; [| discriminate].
  destruct (BookingTool.compute_total_amount space duration_type _);
    [| discriminate].
  apply bind_inv in H as [(created & w4 & _ & H) | (x & _ & Hx)];
    [| discriminate].
  destruct created as [[booking |] |]; inversion H. reflexivity.
Qed.

(** The provider calls of the payment-link request: the price is asked
    for first, with the rounded amount and the identifier of the booking,
    and a request that went through has asked for it. *)
Lemma create_payment_link_sync_calls e space sid uid booking total w r w1 :
  BookingTool._create_payment_link_sync e space sid uid booking total w
  = (r, w1) ->
  exists made,
    calls w1 = made ++ calls w /\
    (forall n bid, In (PriceCreate n bid) made ->
                   BookingTool.to_cents total = Ok n /\
                   bid = Booking.id booking) /\
    (forall x n, r = Ok x -> BookingTool.to_cents total = Ok n ->
                 In (PriceCreate n (Booking.id booking)) made).
Proof.
  unfold BookingTool._create_payment_link_sync, bind, lift_result,
    log_call.
  destruct (BookingTool.to_cents total) as [n | x] eqn:Hcents.
  - simpl.
    destruct (Stripe.price_create (stripe e) n "myr" _ sid)
      as [price | |]; simpl.
    + destruct (Stripe.payment_link_create (stripe e) _ _ uid sid _)
        as [link | |]; simpl; unfold ret, raise; intros H;
        inversion H; subst; simpl;
        exists [PaymentLinkCreate (Stripe.Price.id price)
                                  (Booking.id booking) uid;
                PriceCreate n (Booking.id booking)];
        (split; [reflexivity |]); split;
        try (intros m bid [Hc | [Hc | []]]; inversion Hc; subst; auto);
        try (intros y m Hy Hm; inversion Hm; subst; right; left;
             reflexivity);
        try (intros y m Hy; discriminate Hy).
    + unfold raise. intros H. inversion H; subst. simpl.
      exists [PriceCreate n (Booking.id booking)].
      split; [reflexivity |]. split.
      * intros m bid [Hc | []]. inversion Hc; subst. auto.
      * intros y m Hy. discriminate Hy.
    + unfold raise. intros H. inversion H; subst. simpl.
      exists [PriceCreate n (Booking.id booking)].
      split; [reflexivity |]. split.
      * intros m bid [Hc | []]. inversion Hc; subst. auto.
      * intros y m Hy. discriminate Hy.
  - intros H. inversion H; subst. exists []. split; [reflexivity |].
    split; [intros m bid [] | intros y m Hy; discriminate Hy].
Qed.

Lemma payment_step_calls e space sid uid booking total w pay w' :
  BookingTool.payment_step e space sid uid booking total w = (Ok pay, w') ->
  exists made,
    calls w' = made ++ calls w /\
    (forall n bid, In (PriceCreate n bid) made ->
                   BookingTool.to_cents total = Ok n /\
                   bid = Booking.id booking) /\
    (forall md, snd pay = Some md ->
                In (PriceCreate (BookingTool.amount_cents md)
                                (Booking.id booking)) made).
Proof.
  intros H. apply payment_step_cases in H
    as (_ & [(_ & Hr & ->)
            | [(exc & w1 & Hlink & Hr & -> & _)
              | (price & link & w1 & cents & Hlink & Hc & Hr & Hcalls & _)]]);
    inversion Hr; subst pay; clear Hr; simpl.
  - exists []. split; [reflexivity |].
    split; [intros n bid [] | discriminate].
  - apply create_payment_link_sync_calls in Hlink
      as (made & Hmade & Honly & _).
    exists made. split; [exact Hmade |]. split; [exact Honly |].
    discriminate.
  - apply create_payment_link_sync_calls in Hlink
      as (made & Hmade & Honly & Hasked).
    exists made. split; [congruence |]. split; [exact Honly |].
    intros md Hmd. inversion Hmd; subst md. simpl.
    eapply Hasked; [reflexivity | exact Hc].
Qed.

(** C3, counterexample: at 14:00 sharp a booking that starts at 14:00,
    which is not strictly in the future, is created. *)
Lemma create_booking_at_current_instant :
  let e := Fixtures.env_at (14 * Fixtures.hour) Fixtures.provider in
  parse_datetime e "2030-01-01" "14:00" = inr (now e) /\
  exists p w',
    BookingTool.create_booking e "u1" "s1" "2030-01-01" "14:00" "16:00"
      "hourly" 1 None Fixtures.empty_ledger
    = (Ok (BookingTool.Success p), w') /\
    map Booking.status (bookings (db w')) = ["pending"] /\
    map Booking.start_time (bookings (db w')) = [now e].
Proof.
  split; [reflexivity |]. eexists. eexists.
  split; [vm_compute; reflexivity |]. split; reflexivity.
Qed.

(** C3, as the code has it: a request whose start instant is strictly
    before the reading of the clock is answered "Cannot book in the past"
    and nothing at all happens (no row, no request to the database or to
    the provider); and whenever a booking is created, or the answer is a
    success, the start is at or after the reading of the clock and the
    end is after the start. *)
Theorem create_booking_rejects_past
        (e : env) (user_id space_id date start_time end_time : string)
        (duration_type : string) (attendees_count : Z)
        (notes : option string) (w : world)
        (start_datetime end_datetime : datetime) :
  valid_uuid e space_id = true ->
  valid_uuid e user_id = true ->
  parse_datetime e date start_time = inr start_datetime ->
  parse_datetime e date end_time = inr end_datetime ->
  (start_datetime < now e ->
   BookingTool.create_booking e user_id space_id date start_time end_time
     duration_type attendees_count notes w
   = (Ok (BookingTool.Error "Cannot book in the past"), w)) /\
  (forall r w',
     BookingTool.create_booking e user_id space_id date start_time end_time
       duration_type attendees_count notes w = (r, w') ->
     (exists p, r = Ok (BookingTool.Success p)) \/
     bookings (db w') <> bookings (db w) ->
     now e <= start_datetime /\ start_datetime < end_datetime).
Proof.
  intros Hsid Huid Hp1 Hp2. split.
  - intros Hpast.
    unfold BookingTool.create_booking, BookingTool.create_pending_booking.
    rewrite Hsid, Huid, Hp1, Hp2. simpl.
    apply Z.ltb_lt in Hpast. rewrite Hpast. reflexivity.
  - intros r w' H Hcreated.
    apply create_booking_cases in H
      as [([(msg & ->) | (x & ->)] & Hu) | (pd & w1 & pay & H1 & H2 & ->)].
    + destruct Hcreated as [(p & Hp) | Hb]; [discriminate |].
      destruct Hu as (Hdb & _). rewrite Hdb in Hb. contradiction.
    + destruct Hcreated as [(p & Hp) | Hb]; [discriminate |].
      destruct Hu as (Hdb & _). rewrite Hdb in Hb. contradiction.
    + apply create_pending_booking_cases in H1
        as [([(msg & Hm) | (x & Hx)] & _)
           | (pd' & s0 & e0 & _ & _ & _ & Hs0 & He0 & Hnow & Hlt & _)];
        try discriminate.
      rewrite Hp1 in Hs0. rewrite Hp2 in He0.
      inversion Hs0; inversion He0; subst. split; assumption.
Qed.

(** C3, the amended statement at a concrete request: at 14:00 a booking
    for 13:00 is refused and the ledger is left as it was. *)
Lemma create_booking_rejects_past_witness :
  let e := Fixtures.env_at (14 * Fixtures.hour) Fixtures.provider in
  BookingTool.create_booking e "u1" "s1" "2030-01-01" "13:00" "16:00"
    "hourly" 1 None Fixtures.empty_ledger
  = (Ok (BookingTool.Error "Cannot book in the past"),
     Fixtures.empty_ledger).
Proof.
  intros e.
  apply (create_booking_rejects_past e "u1" "s1" "2030-01-01" "13:00"
           "16:00" "hourly" 1 None Fixtures.empty_ledger
           (13 * Fixtures.hour) (16 * Fixtures.hour));
    try reflexivity.
Defined.

(* ================================================================== *)
(** ** Amounts *)

Lemma round_half_even_dyadic_nearest m e :
  0 <= m ->
  0 <= round_half_even_dyadic m e /\
  (0 <= e -> round_half_even_dyadic m e = m * 2 ^ e) /\
  (e < 0 ->
   Z.abs (2 * (round_half_even_dyadic m e * 2 ^ (- e) - m)) <= 2 ^ (- e) /\
   (Z.abs (2 * (round_half_even_dyadic m e * 2 ^ (- e) - m)) = 2 ^ (- e) ->
    Z.even (round_half_even_dyadic m e) = true)).
Proof.
  intros Hm. unfold round_half_even_dyadic.
  destruct (0 <=? e) eqn:He.
  - apply Z.leb_le in He. split; [| split; [reflexivity | lia]].
    apply Z.mul_nonneg_nonneg; [assumption |].
    apply Z.pow_nonneg. lia.
  - apply Z.leb_gt in He.
    assert (Hd : 0 < 2 ^ (- e)) by (apply Z.pow_pos_nonneg; lia).
    set (d := 2 ^ (- e)) in *.
    pose proof (Z.div_mod m d ltac:(lia)) as Hdm.
    pose proof (Z.mod_pos_bound m d Hd) as Hr.
    assert (Hq : 0 <= m / d) by (apply Z.div_pos; lia).
    set (q := m / d) in *. set (r := m mod d) in *.
    destruct (2 * r ?= d) eqn:Hc.
    + apply Z.compare_eq in Hc.
      destruct (Z.even q) eqn:Hev.
      * split; [lia |]. split; [lia |]. intros _. split; [| auto].
        replace (2 * (q * d - m)) with (- (2 * r)) by lia. lia.
      * split; [lia |]. split; [lia |]. intros _. split.
        -- replace (2 * ((q + 1) * d - m)) with (2 * d - 2 * r) by lia. lia.
        -- intros _. rewrite Z.even_add, Hev. reflexivity.
    + rewrite Z.compare_lt_iff in Hc.
      split; [lia |]. split; [lia |]. intros _.
      replace (2 * (q * d - m)) with (- (2 * r)) by lia. split; lia.
    + rewrite Z.compare_gt_iff in Hc.
      split; [lia |]. split; [lia |]. intros _.
      replace (2 * ((q + 1) * d - m)) with (2 * d - 2 * r) by lia.
      split; lia.
Qed.

Lemma to_cents_nearest_even total n :
  BookingTool.to_cents total = Ok n ->
  match Prim2SF (PrimFloat.mul total 100%float) with
  | S754_zero _ => n = 0
  | S754_finite s m ex =>
      (if s then n <= 0 else 0 <= n) /\
      (0 <= ex -> Z.abs n = Z.pos m * 2 ^ ex) /\
      (ex < 0 ->
       Z.abs (2 * (Z.abs n * 2 ^ (- ex) - Z.pos m)) <= 2 ^ (- ex) /\
       (Z.abs (2 * (Z.abs n * 2 ^ (- ex) - Z.pos m)) = 2 ^ (- ex) ->
        Z.even n = true))
  | _ => False
  end.
Proof.
  unfold BookingTool.to_cents, py_round.
  destruct (Prim2SF (PrimFloat.mul total 100%float)) as [s | s | | s m ex];
    intros H; inversion H; subst; clear H; try reflexivity.
  pose proof (round_half_even_dyadic_nearest (Z.pos m) ex ltac:(lia))
    as (Hn & Hpos & Hneg).
  set (k := round_half_even_dyadic (Z.pos m) ex) in *.
  assert (Habs : Z.abs (if s then - k else k) = k)
    by (destruct s; lia).
  rewrite Habs. split; [destruct s; lia |]. split; [exact Hpos |].
  intros Hex. destruct (Hneg Hex) as (Hle & Heven). split; [exact Hle |].
  intros Heq. destruct s; [rewrite Z.even_opp |]; auto.
Qed.

(** C4, counterexample: a quarter of an hour at RM10.50 an hour.  The
    total that is stored and returned is 2.625, with three decimals, and
    the amount of the payment link is 262 cents: the half cent went down,
    to the even cent, not up to 263. *)
Lemma total_amount_unrounded_cents_half_even :
  let e := Fixtures.env_at (13 * Fixtures.hour) Fixtures.provider in
  exists p md w',
    BookingTool.create_booking e "u1" "s1" "2030-01-01" "14:00" "14:15"
      "hourly" 1 None Fixtures.empty_ledger
    = (Ok (BookingTool.Success p), w') /\
    BookingTool.total_amount p = 2.625%float /\
    map Booking.total_amount (bookings (db w')) = [2.625%float] /\
    BookingTool.payment_details p = Some md /\
    BookingTool.amount_cents md = 262 /\
    BookingTool.to_cents 2.625%float = Ok 262.
Proof.
  eexists. eexists. eexists.
  split; [vm_compute; reflexivity |].
  repeat split; vm_compute; reflexivity.
Qed.

(** C4, as the code has it: the total amount is a binary floating-point
    number.  It is what the pricing chain computes from the one space of
    the table that has the identifier of the request and from the
    duration between the two instants of the request; it is stored in
    the booking row and returned as it was computed, without rounding.
    The only rounding is that of the amount of the payment link,
    [int(round(total_amount * 100))] cents: every price that the run
    asks the provider for has that amount as its unit amount, the amount
    of cents of the answer is the same, and it is the integer nearest to
    [total_amount * 100] and, half-way between two integers, the even
    one. *)
Theorem total_amount_float_cents_nearest_even
        (e : env) (user_id space_id date start_time end_time : string)
        (duration_type : string) (attendees_count : Z)
        (notes : option string) (w w' : world) (p : BookingTool.payload) :
  BookingTool.create_booking e user_id space_id date start_time end_time
    duration_type attendees_count notes w
  = (Ok (BookingTool.Success p), w') ->
  (exists row space start_datetime end_datetime,
     filter (fun s => String.eqb (Space.id s) space_id) (spaces (db w))
     = [space] /\
     parse_datetime e date start_time = inr start_datetime /\
     parse_datetime e date end_time = inr end_datetime /\
     BookingTool.duration_hours p
     = hours_between start_datetime end_datetime /\
     BookingTool.compute_total_amount space duration_type
       (hours_between start_datetime end_datetime)
     = Some (BookingTool.total_amount p) /\
     bookings (db w') = bookings (db w) ++ [row] /\
     Booking.id row = BookingTool.booking_id p /\
     Booking.total_amount row = BookingTool.total_amount p) /\
  (exists made,
     calls w' = made ++ calls w /\
     (forall n bid, In (PriceCreate n bid) made ->
        BookingTool.to_cents (BookingTool.total_amount p) = Ok n /\
        bid = BookingTool.booking_id p) /\
     (forall md, BookingTool.payment_details p = Some md ->
        In (PriceCreate (BookingTool.amount_cents md)
                        (BookingTool.booking_id p)) made)) /\
  (forall md, BookingTool.payment_details p = Some md ->
     BookingTool.to_cents (BookingTool.total_amount p)
     = Ok (BookingTool.amount_cents md)) /\
  (forall n, BookingTool.to_cents (BookingTool.total_amount p) = Ok n ->
     match Prim2SF (PrimFloat.mul (BookingTool.total_amount p) 100%float) with
     | S754_zero _ => n = 0
     | S754_finite s m ex =>
         (if s then n <= 0 else 0 <= n) /\
         (0 <= ex -> Z.abs n = Z.pos m * 2 ^ ex) /\
         (ex < 0 ->
          Z.abs (2 * (Z.abs n * 2 ^ (- ex) - Z.pos m)) <= 2 ^ (- ex) /\
          (Z.abs (2 * (Z.abs n * 2 ^ (- ex) - Z.pos m)) = 2 ^ (- ex) ->
           Z.even n = true))
     | _ => False
     end).
Proof.
  intros H.
  apply create_booking_cases in H
    as [([(msg & Hm) | (x & Hx)] & _) | (pd & w1 & pay & H1 & H2 & Hr)];
    try discriminate.
  pose proof (payment_step_bookings _ _ _ _ _ _ _ _ _ H2) as Hb.
  pose proof (payment_step_calls _ _ _ _ _ _ _ _ _ H2)
    as (made & Hmade & Honly & Hasked).
  pose proof (create_pending_booking_space _ _ _ _ _ _ _ _ _ _ _ _ H1)
    as Hspace.
  apply create_pending_booking_cases in H1
    as [([(msg & Hm) | (x & Hx)] & _)
       | (pd' & s0 & e0 & Hpd & _ & _ & Hs0 & He0 & _ & _ & Hdh & Hprice
          & Hrow & Hdb & Hcalls & _)];
    try discriminate.
  inversion Hpd; subst pd'. clear Hpd.
  destruct pay as [[link err] meta].
  inversion Hr; subst p. clear Hr. simpl.
  split; [| split; [| split]].
  - exists (BookingTool.p_booking pd), (BookingTool.p_space pd), s0, e0.
    split.
    { destruct (filter (fun s => String.eqb (Space.id s) space_id)
                       (spaces (db w))) as [| s1 [| s2 l]];
        simpl in Hspace; inversion Hspace. reflexivity. }
    split; [exact Hs0 |]. split; [exact He0 |].
    split; [exact Hdh |].
    split; [unfold hours_between; rewrite <- Hdh; exact Hprice |].
    split; [rewrite Hb, Hdb; reflexivity |].
    split; [reflexivity | rewrite Hrow; reflexivity].
  - exists made. split; [rewrite Hmade, Hcalls; reflexivity |].
    split; [exact Honly |]. intros md Hmd. apply Hasked. exact Hmd.
  - intros md Hmd. subst meta.
    apply payment_step_cases in H2
      as (_ & [(_ & Hr & _) | [(? & ? & _ & Hr & _)
                              | (price & lnk & w2 & cents & _ & Hc & Hr & _)]]);
      inversion Hr; subst. simpl. exact Hc.
  - apply to_cents_nearest_even.
Qed.

(** C4, the amended statement at the quarter of an hour above: the price
    that was asked for is of 262 cents. *)
Lemma total_amount_float_cents_nearest_even_witness :
  exists p w' made,
    BookingTool.create_booking
      (Fixtures.env_at (13 * Fixtures.hour) Fixtures.provider)
      "u1" "s1" "2030-01-01" "14:00" "14:15" "hourly" 1 None
      Fixtures.empty_ledger
    = (Ok (BookingTool.Success p), w') /\
    calls w' = made ++ calls Fixtures.empty_ledger /\
    (forall n bid, In (PriceCreate n bid) made ->
       BookingTool.to_cents (BookingTool.total_amount p) = Ok n /\
       bid = BookingTool.booking_id p) /\
    In (PriceCreate 262 "b1") made.
Proof.
  destruct (BookingTool.create_booking
              (Fixtures.env_at (13 * Fixtures.hour) Fixtures.provider)
              "u1" "s1" "2030-01-01" "14:00" "14:15" "hourly" 1 None
              Fixtures.empty_ledger) as [r w'] eqn:Hrun.
  assert (Hr : exists p, r = Ok (BookingTool.Success p) /\
                         BookingTool.payment_details p
                         = Some (BookingTool.mkMeta "plink_1" "price_1"
                                   "prod_1" 262 "myr") /\
                         BookingTool.booking_id p = "b1")
    by (vm_compute in Hrun; inversion Hrun; eexists;
        split; [reflexivity |]; split; reflexivity).
  destruct Hr as (p & -> & Hmd & Hid).
  destruct (total_amount_float_cents_nearest_even
              (Fixtures.env_at (13 * Fixtures.hour) Fixtures.provider)
              "u1" "s1" "2030-01-01" "14:00" "14:15" "hourly" 1 None
              Fixtures.empty_ledger w' p Hrun)
    as (_ & (made & Hmade & Honly & Hasked) & _).
  exists p, w', made. split; [reflexivity |].
  split; [exact Hmade |]. split; [exact Honly |].
  specialize (Hasked _ Hmd). rewrite Hid in Hasked. exact Hasked.
Defined.

(* ================================================================== *)
(** ** Pricing *)

Lemma reaches_pricing_untouched
      e user_id space_id date start_time end_time w space s0 e0 w2 :
  reaches_pricing e user_id space_id date start_time end_time w space
                  s0 e0 w2 ->
  untouched w w2.
Proof.
  intros (_ & _ & _ & _ & _ & _ & w1 & H1 & H2).
  apply get_space_by_id_untouched in H1.
  apply check_space_availability_untouched in H2.
  eapply untouched_trans; eassumption.
Qed.

(** A request that reaches the price goes on with the insertion, or
    stops on the pricing error. *)
Lemma create_pending_booking_at_pricing
      e user_id space_id date start_time end_time duration_type
      attendees_count notes w space s0 e0 w2 :
  reaches_pricing e user_id space_id date start_time end_time w space
                  s0 e0 w2 ->
  BookingTool.create_pending_booking e user_id space_id date start_time
    end_time duration_type attendees_count notes w
  = match BookingTool.compute_total_amount space duration_type
            (hours_between s0 e0) with
    | None =>
        (Ok (inl (BookingTool.Error
           "Could not determine pricing for this space and duration type")),
         w2)
    | Some total_amount =>
        bind
          (try_except
             (b <- SupabaseService.create_booking
                     user_id space_id s0 e0 duration_type total_amount
                     attendees_count notes None ;;
              ret (Some b))
             (fun _ => ret None))
          (fun created =>
             match created with
             | None | Some None =>
                 ret (inl (BookingTool.Error "Failed to create booking"))
             | Some (Some booking) =>
                 ret (inr (BookingTool.mkPending space booking total_amount
                             (hours_between s0 e0)))
             end)
          w2
    end.
Proof.
  intros (Hsid & Huid & Hp1 & Hp2 & Hnow & Hlt & w1 & H1 & H2).
  unfold BookingTool.create_pending_booking.
  rewrite Hsid, Huid, Hp1, Hp2. simpl.
  apply Z.ltb_ge in Hnow. rewrite Hnow.
  apply Z.leb_gt in Hlt. rewrite Hlt.
  rewrite (bind_ok _ _ _ _ _ H1). rewrite (bind_ok _ _ _ _ _ H2). simpl.
  fold (hours_between s0 e0).
  destruct (BookingTool.compute_total_amount space duration_type
              (hours_between s0 e0)); reflexivity.
Qed.

Lemma insert_booking_no_fault
      user_id space_id start_time end_time duration_type total_amount
      attendees_count notes special w :
  db_script w = [] ->
  SupabaseService.create_booking user_id space_id start_time end_time
    duration_type total_amount attendees_count notes special w
  = let row := Booking.mk (gen_random_uuid (db w)
                             (List.length (bookings (db w))))
                          user_id space_id start_time end_time
                          duration_type "pending" total_amount
                          attendees_count notes special in
    (Ok (Some row),
     mkWorld (set_bookings (bookings (db w) ++ [row]) (db w))
             [] (calls w) (tasks w)).
Proof.
  intros Hs. unfold SupabaseService.create_booking, bind.
  rewrite execute_no_fault by assumption.
  unfold run_query, ret. simpl. rewrite Hs. reflexivity.
Qed.

Lemma compute_total_amount_default space duration_type duration_hours :
  (duration_type = "hourly" ->
   BookingTool.usable_rate (Space.hourly_rate space) = None) ->
  (duration_type = "daily" ->
   BookingTool.usable_rate (Space.daily_rate space) = None) ->
  (duration_type = "monthly" ->
   BookingTool.usable_rate (Space.monthly_rate space) = None) ->
  BookingTool.compute_total_amount space duration_type duration_hours
  = default_price space duration_hours.
Proof.
  intros Hh Hd Hm.
  unfold BookingTool.compute_total_amount, BookingTool.rate_when,
    default_price.
  destruct (String.eqb duration_type "hourly") eqn:E1.
  { apply String.eqb_eq in E1. rewrite (Hh E1). subst. simpl.
    destruct (BookingTool.usable_rate (Space.daily_rate space));
      reflexivity. }
  destruct (String.eqb duration_type "daily") eqn:E2.
  { apply String.eqb_eq in E2. rewrite (Hd E2). subst. simpl.
    reflexivity. }
  destruct (String.eqb duration_type "monthly") eqn:E3.
  { apply String.eqb_eq in E3. rewrite (Hm E3). reflexivity. }
  reflexivity.
Qed.

Lemma compute_total_amount_modes space duration_hours :
  (forall r, BookingTool.usable_rate (Space.hourly_rate space) = Some r ->
     BookingTool.compute_total_amount space "hourly" duration_hours
     = Some (PrimFloat.mul r duration_hours)) /\
  (forall r, BookingTool.usable_rate (Space.daily_rate space) = Some r ->
     BookingTool.compute_total_amount space "daily" duration_hours
     = Some r) /\
  (forall r, BookingTool.usable_rate (Space.monthly_rate space) = Some r ->
     BookingTool.compute_total_amount space "monthly" duration_hours
     = Some r).
Proof.
  unfold BookingTool.compute_total_amount, BookingTool.rate_when.
  repeat split; intros r Hr; simpl; rewrite Hr; reflexivity.
Qed.

(** The answer of a request that reaches the price and whose price is
    known carries that price. *)
Lemma create_booking_priced
      e user_id space_id date start_time end_time duration_type
      attendees_count notes w space s0 e0 w2 total r w' p :
  reaches_pricing e user_id space_id date start_time end_time w space
                  s0 e0 w2 ->
  BookingTool.compute_total_amount space duration_type (hours_between s0 e0)
  = Some total ->
  BookingTool.create_booking e user_id space_id date start_time end_time
    duration_type attendees_count notes w = (r, w') ->
  r = Ok (BookingTool.Success p) ->
  BookingTool.total_amount p = total /\
  BookingTool.duration_hours p = hours_between s0 e0.
Proof.
  intros Hreach Hprice H ->.
  apply create_booking_cases in H
    as [([(msg & Hm) | (x & Hx)] & _) | (pd & w1 & pay & H1 & _ & Hr)];
    try discriminate.
  rewrite (create_pending_booking_at_pricing _ _ _ _ _ _ _ _ _ _ _ _ _ _
             Hreach), Hprice in H1.
  apply bind_inv in H1 as [(created & w3 & _ & H1) | (x & _ & Hx)];
    [| discriminate].
  destruct created as [[booking |] |]; inversion H1; subst pd.
  destruct pay as [[link err] meta]. inversion Hr; subst p.
  simpl. split; reflexivity.
Qed.

(** C5, counterexample: a hall with an hourly rate of zero and a daily
    rate of RM200, booked for two hours in hourly mode, is priced RM200,
    not zero times two hours: a rate of zero counts as absent. *)
Lemma hourly_mode_zero_rate_priced_daily :
  exists p w',
    BookingTool.create_booking
      (Fixtures.env_at (13 * Fixtures.hour) Fixtures.provider)
      "u1" "s3" "2030-01-01" "14:00" "16:00" "hourly" 1 None
      Scenarios.zero_rate_ledger
    = (Ok (BookingTool.Success p), w') /\
    Space.hourly_rate Scenarios.zero_rate_hall = Some 0%float /\
    BookingTool.duration_hours p = 2%float /\
    PrimFloat.mul 0%float (BookingTool.duration_hours p) = 0%float /\
    BookingTool.total_amount p = 200%float /\
    map Booking.total_amount (bookings (db w')) = [200%float].
Proof.
  eexists. eexists.
  split; [vm_compute; reflexivity |].
  repeat split; vm_compute; reflexivity.
Qed.

(** C5: hourly mode is the hourly rate times the duration in hours,
    daily and monthly modes are the flat rate; when the rate of the
    requested mode is absent the price is the hourly rate times the
    duration if the space has an hourly rate, else the flat daily rate;
    and when there is neither, the answer is the pricing error and
    nothing was created.  A rate is absent when the space has none or it
    is zero. *)
Theorem pricing_modes_and_fallback
        (e : env) (user_id space_id date start_time end_time : string)
        (duration_type : string) (attendees_count : Z)
        (notes : option string) (w : world) (space : Space.t)
        (start_datetime end_datetime : datetime) (w2 : world) :
  reaches_pricing e user_id space_id date start_time end_time w space
                  start_datetime end_datetime w2 ->
  let duration_hours := hours_between start_datetime end_datetime in
  let price :=
    BookingTool.compute_total_amount space duration_type duration_hours in
  (forall r, duration_type = "hourly" ->
     BookingTool.usable_rate (Space.hourly_rate space) = Some r ->
     price = Some (PrimFloat.mul r duration_hours)) /\
  (forall r, duration_type = "daily" ->
     BookingTool.usable_rate (Space.daily_rate space) = Some r ->
     price = Some r) /\
  (forall r, duration_type = "monthly" ->
     BookingTool.usable_rate (Space.monthly_rate space) = Some r ->
     price = Some r) /\
  ((duration_type = "hourly" ->
    BookingTool.usable_rate (Space.hourly_rate space) = None) ->
   (duration_type = "daily" ->
    BookingTool.usable_rate (Space.daily_rate space) = None) ->
   (duration_type = "monthly" ->
    BookingTool.usable_rate (Space.monthly_rate space) = None) ->
   price = match BookingTool.usable_rate (Space.hourly_rate space) with
           | Some r => Some (PrimFloat.mul r duration_hours)
           | None => BookingTool.usable_rate (Space.daily_rate space)
           end) /\
  (price = None ->
   BookingTool.create_booking e user_id space_id date start_time end_time
     duration_type attendees_count notes w
   = (Ok (BookingTool.Error
        "Could not determine pricing for this space and duration type"),
      w2) /\
   untouched w w2) /\
  (forall total r w' p,
     price = Some total ->
     BookingTool.create_booking e user_id space_id date start_time end_time
       duration_type attendees_count notes w = (r, w') ->
     r = Ok (BookingTool.Success p) ->
     BookingTool.total_amount p = total).
Proof.
  intros Hreach duration_hours price.
  pose proof (compute_total_amount_modes space duration_hours)
    as (Hh & Hd & Hm).
  split; [intros r -> Hr; apply Hh; exact Hr |].
  split; [intros r -> Hr; apply Hd; exact Hr |].
  split; [intros r -> Hr; apply Hm; exact Hr |].
  split; [apply compute_total_amount_default |].
  split.
  - intros Hnone. split.
    + unfold BookingTool.create_booking.
      erewrite bind_ok.
      2:{ rewrite (create_pending_booking_at_pricing
                     _ _ _ _ _ _ _ _ _ _ _ _ _ _ Hreach).
          unfold price, duration_hours in Hnone. rewrite Hnone.
          reflexivity. }
      reflexivity.
    + eapply reaches_pricing_untouched. exact Hreach.
  - intros total r w' p Hprice H Hr.
    eapply create_booking_priced; eassumption.
Qed.

(** C5, at a concrete request: two hours of the hall at RM40 an hour are
    RM80. *)
Lemma pricing_modes_and_fallback_witness :
  BookingTool.compute_total_amount Fixtures.hall "hourly"
    (hours_between (14 * Fixtures.hour) (16 * Fixtures.hour))
  = Some 80%float.
Proof.
  refine (proj1 (pricing_modes_and_fallback
                   (Fixtures.env_at (13 * Fixtures.hour) Fixtures.provider)
                   "u1" "s2" "2030-01-01" "14:00" "16:00" "hourly" 1 None
                   Fixtures.empty_ledger Fixtures.hall
                   (14 * Fixtures.hour) (16 * Fixtures.hour)
                   Fixtures.empty_ledger _)
                40%float eq_refl eq_refl).
  repeat split; try reflexivity; try discriminate.
  exists Fixtures.empty_ledger. split; vm_compute; reflexivity.
Defined.

(** With no database fault ahead, a priced request is inserted and
    answered with a success. *)
Lemma create_booking_inserts
      e user_id space_id date start_time end_time duration_type
      attendees_count notes w space s0 e0 w2 total :
  reaches_pricing e user_id space_id date start_time end_time w space
                  s0 e0 w2 ->
  BookingTool.compute_total_amount space duration_type (hours_between s0 e0)
  = Some total ->
  db_script w2 = [] ->
  exists p w',
    BookingTool.create_booking e user_id space_id date start_time end_time
      duration_type attendees_count notes w = (Ok (BookingTool.Success p), w')
    /\ BookingTool.total_amount p = total
    /\ bookings (db w')
       = bookings (db w) ++
         [Booking.mk (gen_random_uuid (db w) (List.length (bookings (db w))))
                     user_id space_id s0 e0 duration_type "pending" total
                     attendees_count notes None].
Proof.
  intros Hreach Hprice Hs.
  pose proof (reaches_pricing_untouched _ _ _ _ _ _ _ _ _ _ _ Hreach)
    as (Hdb & _ & _).
  unfold BookingTool.create_booking.
  erewrite bind_ok.
  2:{ rewrite (create_pending_booking_at_pricing
                 _ _ _ _ _ _ _ _ _ _ _ _ _ _ Hreach), Hprice.
      unfold bind at 1, try_except, bind at 1.
      rewrite (insert_booking_no_fault _ _ _ _ _ _ _ _ _ _ Hs).
      simpl. reflexivity. }
  simpl.
  match goal with
  | |- context [bind (BookingTool.payment_step ?a ?b ?c ?d ?f ?g) _ ?w3] =>
      destruct (BookingTool.payment_step a b c d f g w3) as [r w'] eqn:Hpay
  end.
  pose proof (payment_step_bookings _ _ _ _ _ _ _ _ _ Hpay) as Hb.
  pose proof (payment_step_cases _ _ _ _ _ _ _ _ _ Hpay) as (_ & Hcases).
  assert (Hok : exists pay, r = Ok pay).
  { destruct Hcases as [(_ & Hr & _) | [(? & ? & _ & Hr & _)
                                      | (? & ? & ? & ? & _ & _ & Hr & _)]];
      rewrite Hr; eauto. }
  destruct Hok as ([[link err] meta] & ->).
  eexists. exists w'. unfold bind. rewrite Hpay. simpl.
  split; [reflexivity |]. split; [reflexivity |].
  rewrite Hb. simpl. rewrite Hdb. reflexivity.
Qed.

(** C6, counterexample: a request with the billing mode "weekly", which
    is none of hourly, daily and monthly, is not rejected: the booking is
    inserted with that mode, the provider is asked for a payment link and
    a payment record is written. *)
Lemma create_booking_unknown_mode_accepted :
  exists p w',
    BookingTool.create_booking
      (Fixtures.env_at (13 * Fixtures.hour) Fixtures.provider)
      "u1" "s1" "2030-01-01" "14:00" "16:00" "weekly" 1 None
      Fixtures.empty_ledger
    = (Ok (BookingTool.Success p), w') /\
    map Booking.duration_type (bookings (db w')) = ["weekly"] /\
    calls w' = [PaymentLinkCreate "price_1" "b1" "u1"; PriceCreate 2100 "b1"]
    /\ map Payment.booking_id (payments (db w')) = ["b1"].
Proof.
  eexists. eexists. split; [vm_compute; reflexivity |].
  repeat split.
Qed.

(** C6, as the code has it: a billing mode that is none of hourly, daily
    and monthly is not a validation error.  The request is priced by the
    default, the hourly rate times the duration or else the flat daily
    rate, and, the insertion going through, a pending booking is created
    with the mode as it was given; the request is refused, with the
    pricing error and nothing done, only when the space has neither
    rate. *)
Theorem unknown_mode_priced_by_default
        (e : env) (user_id space_id date start_time end_time : string)
        (duration_type : string) (attendees_count : Z)
        (notes : option string) (w : world) (space : Space.t)
        (start_datetime end_datetime : datetime) (w2 : world) :
  duration_type <> "hourly" ->
  duration_type <> "daily" ->
  duration_type <> "monthly" ->
  reaches_pricing e user_id space_id date start_time end_time w space
                  start_datetime end_datetime w2 ->
  let duration_hours := hours_between start_datetime end_datetime in
  BookingTool.compute_total_amount space duration_type duration_hours
  = default_price space duration_hours /\
  (default_price space duration_hours = None ->
   BookingTool.create_booking e user_id space_id date start_time end_time
     duration_type attendees_count notes w
   = (Ok (BookingTool.Error
        "Could not determine pricing for this space and duration type"),
      w2) /\
   untouched w w2) /\
  (forall total,
     default_price space duration_hours = Some total ->
     db_script w2 = [] ->
     exists p w',
       BookingTool.create_booking e user_id space_id date start_time
         end_time duration_type attendees_count notes w
       = (Ok (BookingTool.Success p), w') /\
       BookingTool.total_amount p = total /\
       bookings (db w')
       = bookings (db w) ++
         [Booking.mk (gen_random_uuid (db w) (List.length (bookings (db w))))
                     user_id space_id start_datetime end_datetime
                     duration_type "pending" total attendees_count notes
                     None]).
Proof.
  intros Hh Hd Hm Hreach duration_hours.
  assert (Hprice :
            BookingTool.compute_total_amount space duration_type
              duration_hours = default_price space duration_hours)
    by (apply compute_total_amount_default; intros; contradiction).
  split; [exact Hprice |]. split.
  - intros Hnone. split.
    + unfold BookingTool.create_booking.
      erewrite bind_ok.
      2:{ rewrite (create_pending_booking_at_pricing
                     _ _ _ _ _ _ _ _ _ _ _ _ _ _ Hreach).
          fold duration_hours. rewrite Hprice, Hnone. reflexivity. }
      reflexivity.
    + eapply reaches_pricing_untouched. exact Hreach.
  - intros total Htotal Hs.
    eapply create_booking_inserts; try eassumption.
    fold duration_hours. rewrite Hprice. exact Htotal.
Qed.

(** C6, the amended statement at the concrete request above: the price of
    two hours of the room under the mode "weekly" is the hourly one. *)
Lemma unknown_mode_priced_by_default_witness :
  BookingTool.compute_total_amount Fixtures.room "weekly"
    (hours_between (14 * Fixtures.hour) (16 * Fixtures.hour))
  = Some 21%float.
Proof.
  refine (proj1 (unknown_mode_priced_by_default
                   (Fixtures.env_at (13 * Fixtures.hour) Fixtures.provider)
                   "u1" "s1" "2030-01-01" "14:00" "16:00" "weekly" 1 None
                   Fixtures.empty_ledger Fixtures.room
                   (14 * Fixtures.hour) (16 * Fixtures.hour)
                   Fixtures.empty_ledger _ _ _ _)).
  - discriminate.
  - discriminate.
  - discriminate.
  - repeat split; try reflexivity; try discriminate.
    exists Fixtures.empty_ledger. split; vm_compute; reflexivity.
Defined.

(* ================================================================== *)
(** ** The webhook *)

(** Where the provider SDK is missing the handler answers 503 before it
    looks at the request. *)
Lemma stripe_webhook_sdk_missing e req w :
  STRIPE_AVAILABLE e = false ->
  Webhooks.stripe_webhook e req w
  = (Raise (HTTPException 503 "Stripe integration not available"), w).
Proof.
  intros H. unfold Webhooks.stripe_webhook. rewrite H. reflexivity.
Qed.

(** C7, counterexample: where the SDK of the provider could not be
    imported, a request with a forged signature is answered with the
    error 503, which is not a client error. *)
Lemma stripe_webhook_forged_without_sdk :
  unverifiable Scenarios.env_without_sdk Fixtures.forged_request /\
  Webhooks.stripe_webhook Scenarios.env_without_sdk Fixtures.forged_request
    Fixtures.pending_ledger
  = (Raise (HTTPException 503 "Stripe integration not available"),
     Fixtures.pending_ledger) /\
  is_client_error
    (http_status
       (fst (Webhooks.stripe_webhook Scenarios.env_without_sdk
               Fixtures.forged_request Fixtures.pending_ledger)))
  = false.
Proof.
  split; [simpl; right; right; reflexivity |].
  split; reflexivity.
Qed.

(** C7, as the code has it: a webhook request whose payload is malformed
    or whose signature is missing or does not verify is rejected by an
    [HTTPException] and by no other exception, and the world is exactly
    what it was: no row of a booking or of a payment is touched, no
    provider call is made and no task is spawned.  The status is the
    client error 400 where the SDK of the provider could be imported;
    where it could not, the handler answers 503 before it looks at the
    signature. *)
Theorem stripe_webhook_rejects_unverifiable
        (e : env) (req : Webhooks.request) (w : world) :
  unverifiable e req ->
  exists detail,
    Webhooks.stripe_webhook e req w
    = (Raise (HTTPException (if STRIPE_AVAILABLE e then 400 else 503)
                            detail), w) /\
    is_client_error (http_status (fst (Webhooks.stripe_webhook e req w)))
    = STRIPE_AVAILABLE e.
Proof.
  intros Hbad.
  destruct (STRIPE_AVAILABLE e) eqn:Hsdk.
  2:{ rewrite (stripe_webhook_sdk_missing e req w Hsdk).
      eexists. split; reflexivity. }
  unfold Webhooks.stripe_webhook, unverifiable in *.
  rewrite Hsdk. simpl.
  destruct (Webhooks.stripe_signature req) as [signature |];
    [| eexists; split; reflexivity].
  destruct (String.eqb signature "") eqn:Hsig;
    [eexists; split; reflexivity |].
  destruct Hbad as [Hempty | [Hbad | Hbad]].
  - apply String.eqb_neq in Hsig. contradiction.
  - rewrite Hbad. eexists; split; reflexivity.
  - rewrite Hbad. eexists; split; reflexivity.
Qed.

(** C7, at a concrete request: a forged signature, where the SDK is
    there. *)
Lemma stripe_webhook_rejects_unverifiable_witness :
  exists detail,
    Webhooks.stripe_webhook
      (Fixtures.env_at (13 * Fixtures.hour) Fixtures.signing_provider)
      Fixtures.forged_request Fixtures.pending_ledger
    = (Raise (HTTPException 400 detail), Fixtures.pending_ledger) /\
    is_client_error
      (http_status
         (fst (Webhooks.stripe_webhook
                 (Fixtures.env_at (13 * Fixtures.hour)
                                  Fixtures.signing_provider)
                 Fixtures.forged_request Fixtures.pending_ledger)))
    = true.
Proof.
  apply (stripe_webhook_rejects_unverifiable
           (Fixtures.env_at (13 * Fixtures.hour) Fixtures.signing_provider)
           Fixtures.forged_request Fixtures.pending_ledger).
  simpl. right. right. reflexivity.
Defined.

Lemma try_except_ret_total {A} (c : M A) (a : A) w :
  exists x w', try_except c (fun _ => ret a) w = (Ok x, w').
Proof.
  unfold try_except, ret. destruct (c w) as [[x | x] w']; eauto.
Qed.

Lemma resolve_booking_id_total e session w :
  exists booking_id w1,
    Webhooks.resolve_booking_id e session w = (Ok booking_id, w1) /\
    provider_only w w1.
Proof.
  unfold Webhooks.resolve_booking_id.
  destruct (negb (truthy_str (Stripe.Object.metadata_booking_id session))
            && truthy_str (Stripe.Object.payment_intent session));
    [| do 2 eexists; split; [reflexivity | apply provider_only_refl]].
  destruct (Stripe.Object.payment_intent session) as [pid |];
    [| do 2 eexists; split; [reflexivity | apply provider_only_refl]].
  unfold try_except, bind, log_call, ret, raise.
  destruct (Stripe.payment_intent_retrieve (stripe e) pid);
    do 2 eexists; (split; [reflexivity | repeat split]).
Qed.

(** A status update that raises leaves the tables and the tasks as they
    were. *)
Lemma update_booking_status_raise booking_id status w x w' :
  SupabaseService.update_booking_status booking_id status w = (Raise x, w')
  -> db w' = db w /\ tasks w' = tasks w /\ calls w' = calls w.
Proof.
  unfold SupabaseService.update_booking_status. intros H.
  apply bind_inv in H as [(data & w1 & _ & H) | (x' & H & _)];
    [inversion H |].
  apply execute_cases in H as (Hc & Ht & [(x'' & _ & Hd) | Hd]);
    [auto | inversion Hd].
Qed.

(** C10: whatever the database does, a verified
    [checkout.session.completed] event is answered 200 with the status
    "success" and the booking reference that was resolved.  In
    particular, when the reference is resolved and the update of the
    booking status raises, the exception is swallowed: the answer is the
    same, while no table has changed and no confirmation task has been
    spawned, so the confirmation is lost without the provider being
    told. *)
Theorem checkout_completed_always_acknowledged
        (e : env) (req : Webhooks.request) (event : Stripe.Event.t)
        (w : world) :
  STRIPE_AVAILABLE e = true ->
  verified_as e req event ->
  Stripe.Event.type event = "checkout.session.completed" ->
  exists booking_id w1 w',
    Webhooks.resolve_booking_id e (Stripe.Event.data_object event) w
    = (Ok booking_id, w1) /\
    Webhooks.stripe_webhook e req w
    = (Ok [("status", Some "success"); ("booking_id", booking_id)], w') /\
    http_status (fst (Webhooks.stripe_webhook e req w)) = 200 /\
    (forall bid x w2,
       booking_id = Some bid -> bid <> "" ->
       SupabaseService.update_booking_status bid "confirmed" w1
       = (Raise x, w2) ->
       db w' = db w1 /\ tasks w' = tasks w1).
Proof.
  intros Hsdk (signature & Hsig & Hne & Hev) Htype.
  destruct (resolve_booking_id_total e (Stripe.Event.data_object event) w)
    as (booking_id & w1 & Hres & _).
  exists booking_id, w1.
  cut (exists w',
         Webhooks.stripe_webhook e req w
         = (Ok [("status", Some "success"); ("booking_id", booking_id)], w')
         /\
         (forall bid x w2,
            booking_id = Some bid -> bid <> "" ->
            SupabaseService.update_booking_status bid "confirmed" w1
            = (Raise x, w2) ->
            db w' = db w1 /\ tasks w' = tasks w1)).
  { intros (w' & Hrun & Hlost). exists w'.
    split; [exact Hres |]. split; [exact Hrun |].
    split; [rewrite Hrun; reflexivity | exact Hlost]. }
  unfold Webhooks.stripe_webhook.
  rewrite Hsdk, Hsig. simpl.
  apply String.eqb_neq in Hne. rewrite Hne, Hev, Htype. simpl.
  unfold Webhooks.on_checkout_session_completed.
  rewrite (bind_ok _ _ _ _ _ Hres).
  destruct booking_id as [bid |]; simpl.
  - destruct (String.eqb bid "") eqn:Hbid; simpl.
    + eexists. split; [reflexivity |].
      intros bid' exc w2 Hb Hnon. inversion Hb; subst bid'.
      apply String.eqb_neq in Hnon. congruence.
    + unfold bind at 1, try_except.
      destruct (bind (SupabaseService.update_booking_status bid "confirmed")
                     _ w1) as [[u | x0] w3] eqn:Hblock.
      * eexists. split; [reflexivity |].
        intros bid' exc w2 Hb _ Hup. inversion Hb; subst bid'.
        rewrite (bind_raise _ _ _ _ _ Hup) in Hblock. discriminate.
      * eexists. split; [reflexivity |].
        intros bid' exc w2 Hb _ Hup. inversion Hb; subst bid'.
        rewrite (bind_raise _ _ _ _ _ Hup) in Hblock.
        inversion Hblock; subst. simpl.
        apply update_booking_status_raise in Hup. tauto.
  - eexists. split; [reflexivity |].
    intros bid exc w2 Hb. discriminate.
Qed.

(** C10, at a concrete delivery: the session of booking b1 completes
    while the database request is going to time out. The answer is the
    success acknowledgement and the booking is still pending. *)
Lemma checkout_completed_always_acknowledged_witness :
  exists w',
    Webhooks.stripe_webhook
      (Fixtures.env_at (13 * Fixtures.hour) Fixtures.signing_provider)
      Fixtures.genuine_request Fixtures.failing_ledger
    = (Ok [("status", Some "success"); ("booking_id", Some "b1")], w') /\
    db w' = db Fixtures.failing_ledger /\
    tasks w' = [].
Proof.
  destruct (checkout_completed_always_acknowledged
              (Fixtures.env_at (13 * Fixtures.hour)
                               Fixtures.signing_provider)
              Fixtures.genuine_request Fixtures.checkout_completed
              Fixtures.failing_ledger)
    as (booking_id & w1 & w' & Hres & Hrun & _ & Hlost).
  - reflexivity.
  - exists "t=1,v1=good". repeat split. discriminate.
  - reflexivity.
  - vm_compute in Hres. inversion Hres; subst booking_id w1.
    exists w'. split; [exact Hrun |].
    eapply (Hlost "b1"); [reflexivity | discriminate |].
    vm_compute. reflexivity.
Defined.

(* ================================================================== *)
(** ** Reconciliation, pull path *)

Lemma get_booking_by_id_untouched booking_id :
  stable untouched (SupabaseService.get_booking_by_id booking_id).
Proof. apply untouched_read. intros d. reflexivity. Qed.

Lemma get_payment_by_booking_untouched booking_id :
  stable untouched (SupabaseService.get_payment_by_booking booking_id).
Proof.
  unfold SupabaseService.get_payment_by_booking.
  apply stable_bind.
  - apply untouched_trans.
  - apply untouched_read. intros d. reflexivity.
  - intros a. apply stable_ret, untouched_refl.
Qed.

Lemma payment_intent_of_link_cases e payment_link_id w r w1 :
  BookingsApi.payment_intent_of_link e payment_link_id w = (r, w1) ->
  provider_only w w1 /\
  exists o, r = Ok o /\
    forall pid, o = Some pid ->
      exists link_id sessions s,
        Stripe.checkout_session_list (stripe e) link_id = Some sessions /\
        In s sessions /\
        BookingsApi.is_paid_session s = true /\
        Stripe.Session.payment_intent s = Some pid.
Proof.
  unfold BookingsApi.payment_intent_of_link.
  assert (Hnone : forall w0, provider_only w w0 ->
            ret (@None string) w0 = (r, w1) ->
            provider_only w w1 /\
            exists o, r = Ok o /\
              forall pid, o = Some pid ->
                exists link_id sessions s,
                  Stripe.checkout_session_list (stripe e) link_id
                  = Some sessions /\
                  In s sessions /\
                  BookingsApi.is_paid_session s = true /\
                  Stripe.Session.payment_intent s = Some pid).
  { intros w0 Hp H. inversion H; subst. split; [exact Hp |].
    exists None. split; [reflexivity | discriminate]. }
  destruct (truthy_str payment_link_id);
    [| intros H; eapply Hnone; [apply provider_only_refl | exact H]].
  destruct payment_link_id as [link_id |];
    [| intros H; eapply Hnone; [apply provider_only_refl | exact H]].
  unfold try_except, bind, log_call.
  destruct (Stripe.checkout_session_list (stripe e) link_id)
    as [sessions |] eqn:Hlist; simpl.
  - destruct (find BookingsApi.is_paid_session sessions) as [s |] eqn:Hfind.
    + unfold ret. intros H. inversion H; subst.
      split; [repeat split |].
      exists (Stripe.Session.payment_intent s). split; [reflexivity |].
      intros pid Hpid. apply find_some in Hfind as (Hin & Hpaid).
      exists link_id, sessions, s. auto.
    + intros H; eapply Hnone; [| exact H]. repeat split.
  - intros H; eapply Hnone; [| exact H]. repeat split.
Qed.

Lemma retrieve_intent_cases e payment_intent_id w r w1 :
  BookingsApi.retrieve_intent e payment_intent_id w = (r, w1) ->
  provider_only w w1 /\
  exists o, r = Ok o /\
    forall pi, o = Some pi ->
      exists pid, payment_intent_id = Some pid /\
                  Stripe.payment_intent_retrieve (stripe e) pid = Some pi.
Proof.
  unfold BookingsApi.retrieve_intent.
  assert (Hnone : forall w0, provider_only w w0 ->
            ret (@None Stripe.PaymentIntent.t) w0 = (r, w1) ->
            provider_only w w1 /\
            exists o, r = Ok o /\
              forall pi, o = Some pi ->
                exists pid, payment_intent_id = Some pid /\
                  Stripe.payment_intent_retrieve (stripe e) pid = Some pi).
  { intros w0 Hp H. inversion H; subst. split; [exact Hp |].
    exists None. split; [reflexivity | discriminate]. }
  destruct (truthy_str payment_intent_id);
    [| intros H; eapply Hnone; [apply provider_only_refl | exact H]].
  destruct payment_intent_id as [pid |];
    [| intros H; eapply Hnone; [apply provider_only_refl | exact H]].
  unfold try_except, bind, log_call.
  destruct (Stripe.payment_intent_retrieve (stripe e) pid) as [pi |] eqn:Hr;
    simpl.
  - unfold ret. intros H. inversion H; subst.
    split; [repeat split |].
    exists (Some pi). split; [reflexivity |].
    intros pi' Hpi. inversion Hpi; subst. exists pid. auto.
  - intros H; eapply Hnone; [| exact H]. repeat split.
Qed.

Lemma search_intent_cases e booking_id w r w1 :
  BookingsApi.search_intent e booking_id w = (r, w1) ->
  provider_only w w1 /\
  ((exists detail, r = Raise (HTTPException 502 detail) /\
                   Stripe.payment_intent_search (stripe e) booking_id = None)
   \/
   (exists results,
      Stripe.payment_intent_search (stripe e) booking_id = Some results /\
      r = Ok (find BookingsApi.has_succeeded results))).
Proof.
  unfold BookingsApi.search_intent, try_except, bind, log_call.
  destruct (Stripe.payment_intent_search (stripe e) booking_id)
    as [results |]; simpl; unfold ret, raise; intros H;
    inversion H; subst; (split; [repeat split |]).
  - right. exists results. auto.
  - left. eexists. auto.
Qed.

(** The payment intent that the first try answers is the one of the
    first paid session of the link that was given. *)
Lemma payment_intent_of_link_own e payment_link_id w pid w1 :
  BookingsApi.payment_intent_of_link e payment_link_id w
  = (Ok (Some pid), w1) ->
  exists link_id sessions s,
    payment_link_id = Some link_id /\ link_id <> "" /\
    Stripe.checkout_session_list (stripe e) link_id = Some sessions /\
    find BookingsApi.is_paid_session sessions = Some s /\
    Stripe.Session.payment_intent s = Some pid.
Proof.
  unfold BookingsApi.payment_intent_of_link.
  destruct payment_link_id as [link_id |]; simpl; [| discriminate].
  destruct (String.eqb link_id "") eqn:Hlink; simpl; [discriminate |].
  apply String.eqb_neq in Hlink.
  unfold try_except, bind, log_call.
  destruct (Stripe.checkout_session_list (stripe e) link_id)
    as [sessions |] eqn:Hlist; simpl; [| discriminate].
  destruct (find BookingsApi.is_paid_session sessions) as [s |] eqn:Hfind;
    [| discriminate].
  unfold ret. intros H. inversion H.
  exists link_id, sessions, s. auto.
Qed.

(** The payment record that is read is the first one of the booking. *)
Lemma get_payment_by_booking_reads booking_id w pr w1 :
  SupabaseService.get_payment_by_booking booking_id w = (Ok pr, w1) ->
  pr = first_or_none (filter (SupabaseService.for_booking booking_id)
                             (payments (db w))).
Proof.
  unfold SupabaseService.get_payment_by_booking. intros H.
  apply bind_inv in H as [(data & w2 & H1 & H2) | (x & _ & Hx)];
    [| discriminate].
  apply execute_cases in H1 as (_ & _ & [(x & Hx & _) | Hq]);
    [discriminate |].
  injection Hq as Hdata _. subst data. inversion H2.
  destruct (filter _ _); reflexivity.
Qed.

(** Every run of the reconciliation either writes nothing, spawns
    nothing and does not answer that it confirmed the booking, or the
    provider holds the proof of a payment and the answer is neither
    "pending" nor the short-circuit. *)
Lemma reconcile_cases e booking_id w r w' :
  BookingsApi.reconcile_booking_payment e booking_id w = (r, w') ->
  (db w' = db w /\ tasks w' = tasks w /\
   forall b pid, r <> Ok (BookingsApi.Confirmed b pid)) \/
  (proven_payment e w booking_id /\
   (forall msg, r <> Ok (BookingsApi.Pending msg)) /\
   (forall b, r <> Ok (BookingsApi.AlreadyConfirmed b))).
Proof.
  unfold BookingsApi.reconcile_booking_payment. intros H.
  apply bind_inv in H as [(booking & w1 & H1 & H) | (x & H1 & ->)];
    apply get_booking_by_id_untouched in H1; destruct H1 as (Hd1 & _ & Ht1);
    [| left; repeat split; auto; discriminate].
  destruct booking as [b |];
    [| inversion H; subst; left; repeat split; auto; discriminate].
  destruct (String.eqb (Booking.status b) "confirmed");
    [inversion H; subst; left; repeat split; auto; discriminate |].
  destruct (negb (STRIPE_AVAILABLE e));
    [inversion H; subst; left; repeat split; auto; discriminate |].
  apply bind_inv in H as [(pr & w2 & H2 & H) | (x & H2 & ->)];
    [pose proof (get_payment_by_booking_reads _ _ _ _ H2) as Hpr;
     rewrite Hd1 in Hpr |];
    apply get_payment_by_booking_untouched in H2;
    destruct H2 as (Hd2 & _ & Ht2);
    [| left; repeat split; try congruence; discriminate].
  apply bind_inv in H as [(pid & w3 & H3 & H) | (x & H3 & ->)];
    [pose proof (fun pid' (Hp : pid = Some pid') =>
       payment_intent_of_link_own e _ w2 pid' w3
         (eq_trans H3 (f_equal (fun o => (Ok o, w3)) Hp))) as Hown |];
    apply payment_intent_of_link_cases in H3
      as ((Hd3 & Ht3 & _) & o3 & Ho3 & Hlink);
    [| discriminate].
  inversion Ho3; subst o3; clear Ho3.
  apply bind_inv in H as [(ci0 & w4 & H4 & H) | (x & H4 & ->)];
    apply retrieve_intent_cases in H4
      as ((Hd4 & Ht4 & _) & o4 & Ho4 & Hretr);
    [| discriminate].
  inversion Ho4; subst o4; clear Ho4.
  apply bind_inv in H as [(ci & w5 & H5 & H) | (x & H5 & ->)].
  - assert (Hfound : db w5 = db w /\ tasks w5 = tasks w /\
                     (ci = None \/ proven_payment e w booking_id)).
    { destruct ci0 as [pi |].
      - inversion H5; subst.
        split; [congruence |]. split; [congruence |]. right. left.
        destruct (Hretr pi eq_refl) as (pid' & -> & Hr).
        destruct (Hown pid' eq_refl)
          as (link_id & sessions & s & Hl & Hne & Hlist & Hfind & Hpid).
        destruct (first_or_none
                    (filter (SupabaseService.for_booking booking_id)
                            (payments (db w)))) as [p |] eqn:Hfirst;
          [| discriminate].
        exists p, link_id, sessions, s, pid', pi. auto 10.
      - apply search_intent_cases in H5
          as ((Hd5 & Ht5 & _) & [(detail & Hx & _) | (results & Hs & Hr)]);
          [discriminate |].
        split; [congruence |]. split; [congruence |].
        inversion Hr as [Hci].
        destruct (find BookingsApi.has_succeeded results) as [pi |] eqn:Hf;
          [| left; reflexivity].
        right. right. apply find_some in Hf as (Hin & Hok).
        exists results, pi. auto. }
    destruct Hfound as (Hd5 & Ht5 & Hci).
    destruct ci as [confirmed_intent |].
    + destruct Hci as [Hci | Hproof]; [discriminate |].
      right. split; [exact Hproof |].
      apply bind_inv in H as [(bk & w6 & _ & H) | (x & _ & ->)];
        [inversion H; subst |]; split; discriminate.
    + inversion H; subst. left. repeat split; auto. discriminate.
  - left. destruct ci0 as [pi |]; [inversion H5 |].
    apply search_intent_cases in H5 as ((Hd5 & Ht5 & _) & _).
    split; [congruence |]. split; [congruence |]. discriminate.
Qed.





(* ================================================================== *)
(** ** The payment link of a new booking *)

Lemma insert_payment_no_fault
      user_id booking_id amount payment_status payment_provider
      transaction_id w :
  db_script w = [] ->
  SupabaseService.create_payment_record user_id booking_id amount
    payment_status payment_provider transaction_id w
  = let row := Payment.mk user_id booking_id amount "MYR" payment_status
                          payment_provider transaction_id None None in
    (Ok (Some row),
     mkWorld (set_payments (payments (db w) ++ [row]) (db w))
             [] (calls w) (tasks w)).
Proof.
  intros Hs. unfold SupabaseService.create_payment_record, bind.
  rewrite execute_no_fault by assumption.
  unfold run_query, ret. simpl. rewrite Hs. reflexivity.
Qed.

(** With no database fault ahead, a payment link that was made is
    recorded. *)
Lemma payment_step_records e space sid uid booking total w price link w1 :
  STRIPE_SECRET_KEY (settings e) <> "" ->
  BookingTool._create_payment_link_sync e space sid uid booking total w
  = (Ok (price, link), w1) ->
  db_script w = [] ->
  exists r w',
    BookingTool.payment_step e space sid uid booking total w = (r, w') /\
    db w' = set_payments
              (payments (db w) ++
               [Payment.mk uid (Booking.id booking) total "MYR" "pending"
                           "stripe" (Some (Stripe.PaymentLink.id link))
                           None None])
              (db w).
Proof.
  intros Hkey Hlink Hs.
  pose proof (create_payment_link_sync_frame _ _ _ _ _ _ _ _ _ Hlink)
    as (Hdb & Hts & Hsc).
  assert (Hcents : exists cents, BookingTool.to_cents total = Ok cents).
  { unfold BookingTool._create_payment_link_sync in Hlink.
    apply bind_inv in Hlink as [(c & w2 & Hc & _) | (x & _ & Hx)];
      [| discriminate].
    unfold lift_result in Hc. inversion Hc. eauto. }
  destruct Hcents as (cents & Hcents).
  unfold BookingTool.payment_step.
  apply String.eqb_neq in Hkey. rewrite Hkey. simpl.
  unfold try_except at 1, bind at 1. rewrite Hlink.
  unfold bind at 1, lift_result at 1. rewrite Hcents.
  unfold bind at 1, try_except, bind at 1.
  rewrite insert_payment_no_fault by congruence.
  simpl. do 2 eexists. split; [reflexivity |]. simpl.
  rewrite Hdb. reflexivity.
Qed.

(** C9, counterexample: the payment link is made, but the insertion of
    the payment record times out.  The answer is a success that carries
    the link and no payment error, and there is no payment record. *)
Lemma payment_link_without_payment_record :
  exists p w',
    BookingTool.create_booking
      (Fixtures.env_at (13 * Fixtures.hour) Fixtures.provider)
      "u1" "s1" "2030-01-01" "14:00" "16:00" "hourly" 1 None
      Fixtures.flaky_ledger
    = (Ok (BookingTool.Success p), w') /\
    BookingTool.payment_link p = Some "https://pay/plink_1" /\
    BookingTool.payment_error p = None /\
    map Booking.status (bookings (db w')) = ["pending"] /\
    payments (db w') = [].
Proof.
  eexists. eexists. split; [vm_compute; reflexivity |].
  repeat split.
Qed.

(** C9, as the code has it: once the booking row is inserted the answer
    is a success, and the row stays, pending, whatever the payment step
    does.  When the payment-link request raises, by the 12-second
    timeout or by an error of the provider, the answer carries no link
    and an explicit payment error, and no table has changed, so there is
    no payment record.  When the payment-link request goes through, the
    answer carries the link and no error, and at most one payment record,
    pending, is appended: exactly one when the insertion goes through,
    none when it fails, the failure being only logged. *)
Theorem payment_link_failure_keeps_booking
        (e : env) (user_id space_id date start_time end_time : string)
        (duration_type : string) (attendees_count : Z)
        (notes : option string) (w w1 w' : world)
        (pd : BookingTool.pending) (r : result BookingTool.response) :
  BookingTool.create_pending_booking e user_id space_id date start_time
    end_time duration_type attendees_count notes w = (Ok (inr pd), w1) ->
  BookingTool.create_booking e user_id space_id date start_time end_time
    duration_type attendees_count notes w = (r, w') ->
  let link_request :=
    BookingTool._create_payment_link_sync e (BookingTool.p_space pd)
      space_id user_id (BookingTool.p_booking pd)
      (BookingTool.p_total_amount pd) w1 in
  let record link :=
    Payment.mk user_id (Booking.id (BookingTool.p_booking pd))
               (BookingTool.p_total_amount pd) "MYR" "pending" "stripe"
               (Some (Stripe.PaymentLink.id link)) None None in
  10 <= BookingTool.payment_link_timeout <= 15 /\
  exists p,
    r = Ok (BookingTool.Success p) /\
    BookingTool.status p = "pending" /\
    Booking.status (BookingTool.p_booking pd) = "pending" /\
    In (BookingTool.p_booking pd) (bookings (db w')) /\
    bookings (db w') = bookings (db w1) /\
    (forall exc w2,
       STRIPE_SECRET_KEY (settings e) <> "" ->
       link_request = (Raise exc, w2) ->
       BookingTool.payment_link p = None /\
       BookingTool.payment_error p
       = Some ("Failed to create payment link: " ++ exn_str exc)%string /\
       db w' = db w1) /\
    (forall price link w2,
       STRIPE_SECRET_KEY (settings e) <> "" ->
       link_request = (Ok (price, link), w2) ->
       BookingTool.payment_link p = Some (Stripe.PaymentLink.url link) /\
       BookingTool.payment_error p = None /\
       (payments (db w') = payments (db w1) ++ [record link] \/
        payments (db w') = payments (db w1)) /\
       (db_script w1 = [] ->
        payments (db w') = payments (db w1) ++ [record link])).
Proof.
  intros Hpending Hrun link_request record.
  split; [unfold BookingTool.payment_link_timeout; lia |].
  pose proof (create_pending_booking_cases _ _ _ _ _ _ _ _ _ _ _ _ Hpending)
    as [([(msg & Hm) | (x & Hx)] & _)
       | (pd' & s0 & e0 & Hpd & _ & _ & _ & _ & _ & _ & _ & _ & Hrow & Hdb
          & _)];
    try discriminate.
  inversion Hpd; subst pd'. clear Hpd.
  unfold BookingTool.create_booking in Hrun.
  rewrite (bind_ok _ _ _ _ _ Hpending) in Hrun. simpl in Hrun.
  apply bind_inv in Hrun as [(pay & w2 & Hpay & Hrun) | (x & Hpay & _)].
  2:{ apply payment_step_cases in Hpay
        as (_ & [(_ & Hr & _) | [(? & ? & _ & Hr & _)
                                | (? & ? & ? & ? & _ & _ & Hr & _)]]);
        discriminate. }
  inversion Hrun; subst r w2. clear Hrun.
  pose proof (payment_step_bookings _ _ _ _ _ _ _ _ _ Hpay) as Hb.
  destruct pay as [[plink perr] pmeta]. eexists.
  split; [reflexivity |]. simpl.
  split; [reflexivity |].
  split; [rewrite Hrow; reflexivity |].
  split; [rewrite Hb, Hdb; simpl; apply in_or_app; right; left; reflexivity |].
  split; [exact Hb |].
  pose proof (payment_step_cases _ _ _ _ _ _ _ _ _ Hpay) as (_ & Hcases).
  split.
  - intros exc w2 Hkey Hlink. unfold link_request in Hlink.
    destruct Hcases as [(Hk & _) | [(exc' & w3 & Hl & Hr & _ & Hd)
                                   | (? & ? & ? & ? & Hl & _)]];
      [contradiction | | congruence].
    rewrite Hlink in Hl. inversion Hl; subst exc' w3.
    inversion Hr; subst. auto.
  - intros price link w2 Hkey Hlink. unfold link_request in Hlink.
    destruct Hcases as [(Hk & _) | [(exc' & w3 & Hl & _)
                                   | (price' & link' & w3 & cents & Hl & _
                                      & Hr & _ & Hd)]];
      [contradiction | congruence |].
    rewrite Hlink in Hl. inversion Hl; subst price' link' w3.
    inversion Hr; subst.
    split; [reflexivity |]. split; [reflexivity |]. split.
    + destruct Hd as [Hd | Hd]; rewrite Hd; [right | left]; reflexivity.
    + intros Hs.
      destruct (payment_step_records _ _ _ _ _ _ _ _ _ _ Hkey Hlink Hs)
        as (r0 & w0 & Hstep & Hd0).
      rewrite Hpay in Hstep. inversion Hstep; subst r0 w0.
      rewrite Hd0. reflexivity.
Qed.

(** C9, at a concrete creation: the provider does not answer within the
    timeout; the booking is there, pending, with an explicit payment
    error, and no payment record. *)
Lemma payment_link_failure_keeps_booking_witness :
  exists p w',
    BookingTool.create_booking
      (Fixtures.env_at (13 * Fixtures.hour) Fixtures.silent_provider)
      "u1" "s1" "2030-01-01" "14:00" "16:00" "hourly" 1 None
      Fixtures.empty_ledger
    = (Ok (BookingTool.Success p), w') /\
    BookingTool.payment_link p = None /\
    BookingTool.payment_error p = Some "Failed to create payment link: " /\
    map Booking.status (bookings (db w')) = ["pending"] /\
    payments (db w') = [].
Proof.
  edestruct (payment_link_failure_keeps_booking
               (Fixtures.env_at (13 * Fixtures.hour)
                                Fixtures.silent_provider)
               "u1" "s1" "2030-01-01" "14:00" "16:00" "hourly" 1 None
               Fixtures.empty_ledger)
    as (_ & p & Hr & _ & _ & _ & Hb & Hfail & _).
  - vm_compute. reflexivity.
  - vm_compute. reflexivity.
  - inversion Hr; subst p. clear Hr.
    edestruct (Hfail AsyncioTimeoutError) as (Hlink & Herr & Hdb).
    + discriminate.
    + vm_compute. reflexivity.
    + do 2 eexists. split; [vm_compute; reflexivity |].
      split; [exact Hlink |]. split; [exact Herr |].
      split; [rewrite Hb; reflexivity | rewrite Hdb; reflexivity].
Defined.

(* ================================================================== *)
(** * Further properties of the code *)

(** ** The database client: retries *)

(** The world with the outcomes that are left. *)
Lemma execute_script_cases {A} (q : query A) d o rest cs ts :
  SupabaseService._execute q (mkWorld d (o :: rest) cs ts)
  = match o with
    | DbOk => run_query q (mkWorld d rest cs ts)
    | DbTimeout =>
        (Raise (TimeoutError "Supabase request timed out"),
         mkWorld d rest cs ts)
    | DbFailure => (Raise APIError, mkWorld d rest cs ts)
    | DbRemoteProtocolError =>
        match rest with
        | [] | DbOk :: _ => run_query q (mkWorld d (tl rest) cs ts)
        | DbTimeout :: rest' =>
            (Raise (TimeoutError "Supabase request timed out"),
             mkWorld d rest' cs ts)
        | DbRemoteProtocolError :: rest' =>
            (Raise RemoteProtocolError, mkWorld d rest' cs ts)
        | DbFailure :: rest' => (Raise APIError, mkWorld d rest' cs ts)
        end
    end.
Proof.
  destruct o; try reflexivity.
  destruct rest as [| [] rest']; reflexivity.
Qed.

Lemma run_query_script {A} (q : query A) w r w' :
  run_query q w = (r, w') -> db_script w' = db_script w.
Proof.
  unfold run_query. destruct (q (db w)). intros H. inversion H. reflexivity.
Qed.

(** The step that closes a case of the analysis of the script: the used
    outcomes are given, the facts about them are read off. *)
Ltac close_in H :=
  simpl in H; repeat (destruct H as [H | H]);
  try discriminate H; try contradiction; try (split; reflexivity).

Ltac in_used H :=
  simpl in H; repeat (destruct H as [H | H]);
  try discriminate H; try contradiction; try reflexivity.

Ltac used_case :=
  split; [reflexivity |];
  split; [simpl; lia |];
  split; [simpl; intros Hlen; first [reflexivity | discriminate Hlen] |];
  split; [intros Hin; in_used Hin |];
  split; [intros Hin; in_used Hin |];
  simpl; intros Hlen Hall; try discriminate Hlen; try reflexivity;
  exfalso;
  first
    [ assert (Hbad : DbOk = DbRemoteProtocolError)
        by (apply Hall; simpl; auto); discriminate Hbad
    | assert (Hbad : DbTimeout = DbRemoteProtocolError)
        by (apply Hall; simpl; auto); discriminate Hbad
    | assert (Hbad : DbFailure = DbRemoteProtocolError)
        by (apply Hall; simpl; auto); discriminate Hbad ].

(** X1: [_execute] makes at most two attempts.  The outcomes it uses up
    are a prefix of the script of at most two; a second attempt is made
    only after a connection error; a timeout is never retried, the
    request raises [TimeoutError]; another error of the client is raised
    as it is; and after two connection errors the second one is
    raised. *)
Theorem execute_at_most_two_attempts
        {A} (q : query A) (w : world) (r : result A) (w' : world) :
  SupabaseService._execute q w = (r, w') ->
  exists used,
    db_script w = used ++ db_script w' /\
    (List.length used <= 2)%nat /\
    (List.length used = 2%nat ->
     hd DbOk used = DbRemoteProtocolError) /\
    (In DbTimeout used ->
     r = Raise (TimeoutError "Supabase request timed out")) /\
    (In DbFailure used -> r = Raise APIError) /\
    (List.length used = 2%nat ->
     (forall o, In o used -> o = DbRemoteProtocolError) ->
     r = Raise RemoteProtocolError).
Proof.
  destruct w as [d sc cs ts].
  destruct sc as [| o rest].
  - rewrite execute_no_fault by reflexivity. intros H.
    apply run_query_script in H. simpl in H.
    exists []. simpl. rewrite H. used_case.
  - rewrite execute_script_cases.
    destruct o.
    + intros H. apply run_query_script in H. simpl in H.
      exists [DbOk]. simpl. rewrite H. used_case.
    + intros H. inversion H; subst. exists [DbTimeout]. simpl. used_case.
    + destruct rest as [| o2 rest'].
      * intros H. apply run_query_script in H. simpl in H.
        exists [DbRemoteProtocolError]. simpl. rewrite H. used_case.
      * destruct o2.
        -- intros H. apply run_query_script in H. simpl in H.
           exists [DbRemoteProtocolError; DbOk]. simpl. rewrite H.
           used_case.
        -- intros H. inversion H; subst.
           exists [DbRemoteProtocolError; DbTimeout]. simpl. used_case.
        -- intros H. inversion H; subst.
           exists [DbRemoteProtocolError; DbRemoteProtocolError]. simpl.
           used_case.
        -- intros H. inversion H; subst.
           exists [DbRemoteProtocolError; DbFailure]. simpl. used_case.
    + intros H. inversion H; subst. exists [DbFailure]. simpl. used_case.
Qed.

(** X1, at a concrete request: the lookup of a booking on a ledger whose
    coming request times out. *)
Lemma execute_at_most_two_attempts_witness :
  fst (SupabaseService.get_booking_by_id "b1" Fixtures.failing_ledger)
  = Raise (TimeoutError "Supabase request timed out").
Proof.
  destruct (SupabaseService.get_booking_by_id "b1" Fixtures.failing_ledger)
    as [r w'] eqn:Hrun.
  destruct (execute_at_most_two_attempts _ _ _ _ Hrun)
    as (used & Hused & _ & _ & Htimeout & _).
  simpl. apply Htimeout.
  vm_compute in Hrun. inversion Hrun; subst. simpl in Hused.
  destruct used as [| o used']; [discriminate |].
  inversion Hused; subst. left. reflexivity.
Defined.

(** ** The ledger: what is written can be read *)

Lemma filter_none {A} (f : A -> bool) (l : list A) :
  (forall x, In x l -> f x = false) -> filter f l = [].
Proof.
  induction l as [| a l IH]; intros H; [reflexivity |]. simpl.
  rewrite (H a (or_introl eq_refl)). apply IH.
  intros x Hx. apply H. right. exact Hx.
Qed.

Lemma get_booking_by_id_no_fault booking_id w :
  db_script w = [] ->
  SupabaseService.get_booking_by_id booking_id w
  = (single (filter (SupabaseService.has_id booking_id) (bookings (db w))),
     w).
Proof.
  intros Hs. unfold SupabaseService.get_booking_by_id.
  rewrite execute_no_fault by assumption. unfold run_query.
  destruct w as [d sc cs ts]. simpl in *. subst sc. reflexivity.
Qed.

(** X2: a booking that was inserted is found by its identifier.  With no
    database fault, and the identifier the database gives being new,
    [get_booking_by_id] answers the very row that [create_booking]
    returned: a pending booking with the fields of the request. *)
Theorem created_booking_is_found
        (user_id space_id : string) (start_time end_time : datetime)
        (duration_type : string) (total_amount : float)
        (attendees_count : Z) (notes special : option string) (w : world) :
  db_script w = [] ->
  (forall b, In b (bookings (db w)) ->
     Booking.id b
     <> gen_random_uuid (db w) (List.length (bookings (db w)))) ->
  exists row w1,
    SupabaseService.create_booking user_id space_id start_time end_time
      duration_type total_amount attendees_count notes special w
    = (Ok (Some row), w1) /\
    SupabaseService.get_booking_by_id (Booking.id row) w1
    = (Ok (Some row), w1) /\
    Booking.status row = "pending" /\
    Booking.user_id row = user_id /\
    Booking.space_id row = space_id /\
    Booking.start_time row = start_time /\
    Booking.end_time row = end_time /\
    Booking.total_amount row = total_amount.
Proof.
  intros Hs Hfresh.
  rewrite (insert_booking_no_fault _ _ _ _ _ _ _ _ _ _ Hs). simpl.
  do 2 eexists. split; [reflexivity |].
  split; [| repeat split].
  rewrite get_booking_by_id_no_fault by reflexivity. simpl.
  rewrite filter_app. simpl.
  unfold SupabaseService.has_id at 2. simpl. rewrite String.eqb_refl.
  rewrite filter_none; [reflexivity |].
  intros b Hb. unfold SupabaseService.has_id.
  apply String.eqb_neq. apply Hfresh. exact Hb.
Qed.

(** X2, on the empty ledger. *)
Lemma created_booking_is_found_witness :
  exists row w1,
    SupabaseService.create_booking "u1" "s1" (14 * Fixtures.hour)
      (16 * Fixtures.hour) "hourly" 21%float 1 None None
      Fixtures.empty_ledger
    = (Ok (Some row), w1) /\
    SupabaseService.get_booking_by_id (Booking.id row) w1
    = (Ok (Some row), w1).
Proof.
  destruct (created_booking_is_found "u1" "s1" (14 * Fixtures.hour)
              (16 * Fixtures.hour) "hourly" 21%float 1 None None
              Fixtures.empty_ledger)
    as (row & w1 & Hc & Hg & _).
  - reflexivity.
  - intros b [].
  - exists row, w1. split; assumption.
Defined.

Lemma get_payment_by_booking_no_fault booking_id w :
  db_script w = [] ->
  SupabaseService.get_payment_by_booking booking_id w
  = (Ok (first_or_none
           (firstn 1 (filter (SupabaseService.for_booking booking_id)
                             (payments (db w))))),
     w).
Proof.
  intros Hs. unfold SupabaseService.get_payment_by_booking, bind.
  rewrite execute_no_fault by assumption. unfold run_query, ret.
  destruct w as [d sc cs ts]. simpl in *. subst sc. reflexivity.
Qed.

(** X3: a payment record that was inserted is found by its booking.  With
    no database fault, [get_payment_by_booking] answers a record of that
    booking after [create_payment_record], and the inserted one when the
    booking had none before. *)
Theorem recorded_payment_is_found
        (user_id booking_id : string) (amount : float)
        (payment_status payment_provider : string)
        (transaction_id : option string) (w : world) :
  db_script w = [] ->
  exists row w1 found,
    SupabaseService.create_payment_record user_id booking_id amount
      payment_status payment_provider transaction_id w
    = (Ok (Some row), w1) /\
    SupabaseService.get_payment_by_booking booking_id w1
    = (Ok (Some found), w1) /\
    Payment.booking_id found = booking_id /\
    Payment.payment_status row = payment_status /\
    Payment.transaction_id row = transaction_id /\
    Payment.receipt_url row = None /\
    ((forall p, In p (payments (db w)) -> Payment.booking_id p <> booking_id)
     -> found = row).
Proof.
  intros Hs.
  rewrite (insert_payment_no_fault _ _ _ _ _ _ _ Hs). simpl.
  set (row := Payment.mk user_id booking_id amount "MYR" payment_status
                         payment_provider transaction_id None None).
  set (w1 := mkWorld (set_payments (payments (db w) ++ [row]) (db w))
                     [] (calls w) (tasks w)).
  assert (Hget : SupabaseService.get_payment_by_booking booking_id w1
                 = (Ok (first_or_none
                          (firstn 1
                             (filter (SupabaseService.for_booking booking_id)
                                     (payments (db w)) ++ [row]))),
                    w1)).
  { rewrite get_payment_by_booking_no_fault by reflexivity. simpl.
    rewrite filter_app. simpl.
    unfold SupabaseService.for_booking at 2. simpl.
    rewrite String.eqb_refl. reflexivity. }
  destruct (filter (SupabaseService.for_booking booking_id)
                   (payments (db w))) as [| p0 l] eqn:Hf; simpl in Hget.
  - exists row, w1, row. split; [reflexivity |]. split; [exact Hget |].
    repeat split.
  - exists row, w1, p0. split; [reflexivity |]. split; [exact Hget |].
    assert (Hin : In p0 (filter (SupabaseService.for_booking booking_id)
                                (payments (db w))))
      by (rewrite Hf; left; reflexivity).
    apply filter_In in Hin as (Hin & Hp0).
    unfold SupabaseService.for_booking in Hp0.
    apply String.eqb_eq in Hp0.
    split; [exact Hp0 |]. repeat split.
    intros Hnone. exfalso. exact (Hnone p0 Hin Hp0).
Qed.

(** X3, on the empty ledger. *)
Lemma recorded_payment_is_found_witness :
  exists row w1,
    SupabaseService.create_payment_record "u1" "b1" 21%float "pending"
      "stripe" (Some "plink_1") Fixtures.empty_ledger
    = (Ok (Some row), w1) /\
    SupabaseService.get_payment_by_booking "b1" w1 = (Ok (Some row), w1).
Proof.
  destruct (recorded_payment_is_found "u1" "b1" 21%float "pending" "stripe"
              (Some "plink_1") Fixtures.empty_ledger eq_refl)
    as (row & w1 & found & Hc & Hg & _ & _ & _ & _ & Hsame).
  exists row, w1. split; [exact Hc |].
  rewrite <- Hsame; [exact Hg |]. intros p [].
Defined.

(** ** Booking creation: the slot is taken *)

(** A request that inserted a booking found its space in the catalog. *)
Lemma payment_step_spaces e space sid uid booking total w r w' :
  BookingTool.payment_step e space sid uid booking total w = (r, w') ->
  spaces (db w') = spaces (db w).
Proof.
  intros H. apply payment_step_cases in H
    as (_ & [(_ & _ & ->) | [(? & ? & _ & _ & _ & Hd)
                            | (? & ? & ? & ? & _ & _ & _ & _ & [Hd | Hd])]]);
    try reflexivity; rewrite Hd; reflexivity.
Qed.

Lemma get_space_by_id_no_fault space_id w :
  db_script w = [] ->
  SupabaseService.get_space_by_id space_id w
  = (single (filter (fun s => String.eqb (Space.id s) space_id)
                    (spaces (db w))),
     w).
Proof.
  intros Hs. unfold SupabaseService.get_space_by_id.
  rewrite execute_no_fault by assumption. unfold run_query.
  destruct w as [d sc cs ts]. simpl in *. subst sc. reflexivity.
Qed.

Lemma check_space_availability_no_fault space_id s e w :
  db_script w = [] ->
  SupabaseService.check_space_availability space_id s e w
  = (Ok (Nat.eqb
           (List.length (filter (SupabaseService.blocks space_id s e)
                                (bookings (db w))))
           0),
     w).
Proof.
  intros Hs. unfold SupabaseService.check_space_availability, bind.
  rewrite execute_no_fault by assumption. unfold run_query, ret.
  destruct w as [d sc cs ts]. simpl in *. subst sc. reflexivity.
Qed.

Lemma blocked_when_member space_id s e b l :
  In b l -> SupabaseService.blocks space_id s e b = true ->
  Nat.eqb (List.length (filter (SupabaseService.blocks space_id s e) l)) 0
  = false.
Proof.
  intros Hin Hb.
  assert (Hf : In b (filter (SupabaseService.blocks space_id s e) l))
    by (apply filter_In; auto).
  destruct (filter _ l); [destruct Hf | reflexivity].
Qed.

(** X4: no double booking by repetition.  When a request was answered
    with a success, the same request made again, under the same clock and
    with no database fault, is refused because the space is not
    available, and it changes nothing. *)
Theorem repeated_request_is_refused
        (e : env) (user_id space_id date start_time end_time : string)
        (duration_type : string) (attendees_count : Z)
        (notes : option string) (w w' : world) (p : BookingTool.payload) :
  BookingTool.create_booking e user_id space_id date start_time end_time
    duration_type attendees_count notes w
  = (Ok (BookingTool.Success p), w') ->
  db_script w' = [] ->
  BookingTool.create_booking e user_id space_id date start_time end_time
    duration_type attendees_count notes w'
  = (Ok (BookingTool.Error
       "Space is not available for the requested time slot"),
     w').
Proof.
  intros Hrun Hs.
  apply create_booking_cases in Hrun
    as [([(msg & Hm) | (x & Hx)] & _) | (pd & w1 & pay & H1 & H2 & _)];
    try discriminate.
  pose proof (create_pending_booking_space _ _ _ _ _ _ _ _ _ _ _ _ H1)
    as Hspace.
  pose proof (create_pending_booking_cases _ _ _ _ _ _ _ _ _ _ _ _ H1)
    as [([(msg & Hm) | (x & Hx)] & _)
       | (pd' & s0 & e0 & Hpd & Hsid & Huid & Hp1 & Hp2 & Hnow & Hlt & _ & _
          & Hrow & Hdb & _)];
    try discriminate.
  inversion Hpd; subst pd'. clear Hpd.
  pose proof (payment_step_bookings _ _ _ _ _ _ _ _ _ H2) as Hb.
  pose proof (payment_step_spaces _ _ _ _ _ _ _ _ _ H2) as Hsp.
  rewrite Hdb in Hb, Hsp. simpl in Hb, Hsp.
  unfold BookingTool.create_booking, BookingTool.create_pending_booking.
  rewrite Hsid, Huid, Hp1, Hp2. simpl.
  apply Z.ltb_ge in Hnow. rewrite Hnow.
  pose proof Hlt as Hlt'. apply Z.leb_gt in Hlt'. rewrite Hlt'.
  erewrite bind_ok.
  2:{ erewrite bind_ok.
      2:{ rewrite get_space_by_id_no_fault by assumption.
          rewrite Hsp, Hspace. reflexivity. }
      simpl. erewrite bind_ok.
      2:{ rewrite check_space_availability_no_fault by assumption.
          rewrite (blocked_when_member _ _ _ (BookingTool.p_booking pd)).
          - reflexivity.
          - rewrite Hb. apply in_or_app. right. left. reflexivity.
          - rewrite Hrow. unfold SupabaseService.blocks. simpl.
            rewrite String.eqb_refl. simpl.
            apply andb_true_iff. split; [apply Z.ltb_lt | apply Z.gtb_lt]; lia. }
      simpl. reflexivity. }
  reflexivity.
Qed.

(** X4, at a concrete request: the room from 14:00 to 16:00, twice. *)
Lemma repeated_request_is_refused_witness :
  exists p w',
    BookingTool.create_booking
      (Fixtures.env_at (13 * Fixtures.hour) Fixtures.provider)
      "u1" "s1" "2030-01-01" "14:00" "16:00" "hourly" 1 None
      Fixtures.empty_ledger
    = (Ok (BookingTool.Success p), w') /\
    BookingTool.create_booking
      (Fixtures.env_at (13 * Fixtures.hour) Fixtures.provider)
      "u1" "s1" "2030-01-01" "14:00" "16:00" "hourly" 1 None w'
    = (Ok (BookingTool.Error
         "Space is not available for the requested time slot"),
       w').
Proof.
  eexists. eexists. split; [vm_compute; reflexivity |].
  eapply (repeated_request_is_refused
            (Fixtures.env_at (13 * Fixtures.hour) Fixtures.provider)
            "u1" "s1" "2030-01-01" "14:00" "16:00" "hourly" 1 None
            Fixtures.empty_ledger).
  - vm_compute. reflexivity.
  - reflexivity.
Defined.

(** ** Payment records: a status update keeps the other columns *)

Lemma update_payment_status_no_fault
      booking_id payment_status transaction_id paid_at receipt_url w :
  db_script w = [] ->
  SupabaseService.update_payment_status booking_id payment_status
    transaction_id paid_at receipt_url w
  = let upd p :=
      if SupabaseService.for_booking booking_id p
      then SupabaseService.apply_payment_update payment_status
             transaction_id paid_at receipt_url p
      else p in
    (Ok (first_or_none
           (filter (SupabaseService.for_booking booking_id)
                   (map upd (payments (db w))))),
     mkWorld (set_payments (map upd (payments (db w))) (db w))
             [] (calls w) (tasks w)).
Proof.
  intros Hs. unfold SupabaseService.update_payment_status, bind.
  rewrite execute_no_fault by assumption. unfold run_query, ret. simpl.
  rewrite Hs. reflexivity.
Qed.

(** X5: an update of the payment status that gives no transaction
    reference, no payment instant and no receipt (the update of a failed
    payment) changes the status of the payment records of the booking and
    nothing else: each of the eight other columns of those records (user,
    booking, amount, currency, provider, transaction reference, payment
    instant, receipt), the records of other bookings, their number and
    order, and the bookings are kept. *)
Theorem update_payment_status_keeps_columns
        (booking_id payment_status : string) (w : world) :
  db_script w = [] ->
  exists answer w',
    SupabaseService.update_payment_status booking_id payment_status
      None None None w = (Ok answer, w') /\
    bookings (db w') = bookings (db w) /\
    List.length (payments (db w')) = List.length (payments (db w)) /\
    forall i p,
      nth_error (payments (db w)) i = Some p ->
      exists p',
        nth_error (payments (db w')) i = Some p' /\
        Payment.user_id p' = Payment.user_id p /\
        Payment.booking_id p' = Payment.booking_id p /\
        Payment.amount p' = Payment.amount p /\
        Payment.currency p' = Payment.currency p /\
        Payment.payment_provider p' = Payment.payment_provider p /\
        Payment.transaction_id p' = Payment.transaction_id p /\
        Payment.paid_at p' = Payment.paid_at p /\
        Payment.receipt_url p' = Payment.receipt_url p /\
        Payment.payment_status p'
        = if String.eqb (Payment.booking_id p) booking_id
          then payment_status else Payment.payment_status p.
Proof.
  intros Hs. rewrite update_payment_status_no_fault by assumption.
  simpl. do 2 eexists. split; [reflexivity |]. simpl.
  split; [reflexivity |]. split; [apply length_map |].
  intros i p Hp. eexists. split.
  - rewrite nth_error_map, Hp. reflexivity.
  - unfold SupabaseService.for_booking.
    destruct (String.eqb (Payment.booking_id p) booking_id);
      simpl; repeat split.
Qed.

(** X5, on the ledger of the pending booking. *)
Lemma update_payment_status_keeps_columns_witness :
  exists answer w',
    SupabaseService.update_payment_status "b1" "failed" None None None
      Fixtures.pending_ledger = (Ok answer, w') /\
    map Payment.transaction_id (payments (db w')) = [Some "plink_1"] /\
    map Payment.payment_status (payments (db w')) = ["failed"].
Proof.
  destruct (update_payment_status_keeps_columns "b1" "failed"
              Fixtures.pending_ledger eq_refl)
    as (answer & w' & Hrun & _ & Hlen & Hcols).
  exists answer, w'. split; [exact Hrun |].
  destruct (Hcols 0%nat Fixtures.pending_payment eq_refl)
    as (p' & Hnth & _ & _ & _ & _ & _ & Htid & _ & _ & Hst).
  destruct (payments (db w')) as [| p0 [| p1 l]]; try discriminate.
  simpl in Hnth. inversion Hnth; subst p0. simpl.
  rewrite Htid, Hst. split; reflexivity.
Defined.

(** ** Cancellation *)

Lemma cancel_where_owned_id booking_id user_id b :
  Booking.id (SupabaseServiceExt.cancel_where_owned booking_id user_id b)
  = Booking.id b /\
  Booking.user_id (SupabaseServiceExt.cancel_where_owned booking_id user_id b)
  = Booking.user_id b.
Proof.
  unfold SupabaseServiceExt.cancel_where_owned.
  destruct (SupabaseServiceExt.owned booking_id user_id b); split;
    reflexivity.
Qed.

Lemma owned_cancel_where_owned booking_id user_id b :
  SupabaseServiceExt.owned booking_id user_id
    (SupabaseServiceExt.cancel_where_owned booking_id user_id b)
  = SupabaseServiceExt.owned booking_id user_id b.
Proof.
  unfold SupabaseServiceExt.owned at 1, SupabaseService.has_id.
  destruct (cancel_where_owned_id booking_id user_id b) as (-> & ->).
  reflexivity.
Qed.

Lemma cancel_nobody booking_id user_id l :
  filter (SupabaseServiceExt.owned booking_id user_id)
         (map (SupabaseServiceExt.cancel_where_owned booking_id user_id) l)
  = [] ->
  map (SupabaseServiceExt.cancel_where_owned booking_id user_id) l = l.
Proof.
  induction l as [| b l IH]; intros H; [reflexivity |]. simpl in *.
  rewrite owned_cancel_where_owned in H.
  destruct (SupabaseServiceExt.owned booking_id user_id b) eqn:Ho;
    [discriminate |].
  rewrite (IH H). f_equal.
  unfold SupabaseServiceExt.cancel_where_owned. rewrite Ho. reflexivity.
Qed.

Lemma cancel_service_cases booking_id user_id w r w' :
  SupabaseServiceExt.cancel_booking booking_id user_id w = (r, w') ->
  calls w' = calls w /\ tasks w' = tasks w /\
  ((exists x, r = Raise x /\ db w' = db w) \/
   (r = Ok (Nat.ltb 0
              (List.length
                 (filter (SupabaseServiceExt.owned booking_id user_id)
                    (map (SupabaseServiceExt.cancel_where_owned
                            booking_id user_id) (bookings (db w)))))) /\
    db w' = set_bookings
              (map (SupabaseServiceExt.cancel_where_owned booking_id user_id)
                   (bookings (db w)))
              (db w))).
Proof.
  unfold SupabaseServiceExt.cancel_booking. intros H.
  apply bind_inv in H as [(data & w1 & H1 & H2) | (x & H1 & ->)];
    apply execute_cases in H1 as (Hc & Ht & Hd).
  - destruct Hd as [(x & Hx & _) | Hd]; [discriminate |].
    injection Hd as Hdata Hdb. subst data.
    inversion H2; subst. repeat split; try assumption.
    right. split; [reflexivity | exact Hdb].
  - repeat split; try assumption.
    destruct Hd as [(x' & _ & Hd) | Hd]; [| inversion Hd].
    left. eauto.
Qed.

(** The step of a case analysis at a [return] that changes nothing. *)
Ltac quiet_exit Hquiet Hu Heq :=
  eapply Hquiet; [ | | exact Heq];
  [exact Hu | intros ? Hd; discriminate Hd].

(** The runs of the cancellation, in the model of the database
    client. *)
Lemma cancel_tool_cases
        (booking_id user_id : string) (w : world)
        (r : result CancelTool.response) (w' : world) :
  CancelTool.cancel_booking booking_id user_id w = (r, w') ->
  payments (db w') = payments (db w) /\
  calls w' = calls w /\ tasks w' = tasks w /\
  (forall b, In b (bookings (db w)) ->
     Booking.id b <> booking_id \/ Booking.user_id b <> user_id ->
     In b (bookings (db w'))) /\
  ((forall id, r <> Ok (CancelTool.Cancelled id)) -> db w' = db w) /\
  (forall id, r = Ok (CancelTool.Cancelled id) ->
     id = booking_id /\
     exists b, In b (bookings (db w)) /\
               Booking.id b = booking_id /\
               Booking.user_id b = user_id /\
               Booking.status b <> "cancelled" /\
               Booking.status b <> "completed").
Proof.
  unfold CancelTool.cancel_booking. intros H.
  assert (Hquiet : forall w0 (x : result CancelTool.response),
            untouched w w0 -> (forall id, x <> Ok (CancelTool.Cancelled id))
            -> (x, w0) = (r, w') ->
            payments (db w') = payments (db w) /\
            calls w' = calls w /\ tasks w' = tasks w /\
            (forall b, In b (bookings (db w)) ->
               Booking.id b <> booking_id \/ Booking.user_id b <> user_id ->
               In b (bookings (db w'))) /\
            ((forall id, r <> Ok (CancelTool.Cancelled id)) ->
             db w' = db w) /\
            (forall id, r = Ok (CancelTool.Cancelled id) ->
               id = booking_id /\
               exists b, In b (bookings (db w)) /\
                         Booking.id b = booking_id /\
                         Booking.user_id b = user_id /\
                         Booking.status b <> "cancelled" /\
                         Booking.status b <> "completed")).
  { intros w0 x (Hdb & Hcs & Hts) Hx Heq. inversion Heq; subst.
    split; [rewrite Hdb; reflexivity |].
    split; [assumption |]. split; [assumption |].
    split; [intros b Hb _; rewrite Hdb; exact Hb |].
    split; [intros _; exact Hdb |].
    intros id Hid. exfalso. exact (Hx id Hid). }
  apply bind_inv in H as [(booking & w1 & H1 & H) | (x & H1 & ->)].
  2:{ apply get_booking_by_id_untouched in H1.
      quiet_exit Hquiet H1 (@eq_refl _ (@Raise CancelTool.response x, w')). }
  pose proof (get_booking_by_id_untouched _ _ _ _ H1) as Hu1.
  destruct booking as [b |];
    [| quiet_exit Hquiet Hu1 H].
  destruct (negb (String.eqb (Booking.user_id b) user_id)) eqn:Howner;
    [quiet_exit Hquiet Hu1 H |].
  destruct (String.eqb (Booking.status b) "cancelled") eqn:Hcancelled;
    [quiet_exit Hquiet Hu1 H |].
  destruct (String.eqb (Booking.status b) "completed") eqn:Hcompleted;
    [quiet_exit Hquiet Hu1 H |].
  (* the booking that was read is in the table *)
  assert (Hb : In b (bookings (db w)) /\ Booking.id b = booking_id).
  { unfold SupabaseService.get_booking_by_id in H1.
    apply execute_cases in H1 as (_ & _ & [(x & Hx & _) | Hq]);
      [discriminate |].
    injection Hq as Hsingle _.
    destruct (filter (SupabaseService.has_id booking_id) (bookings (db w)))
      as [| b0 [| b1 l]] eqn:Hf; simpl in Hsingle; try discriminate.
    inversion Hsingle; subst b0.
    assert (Hin : In b (filter (SupabaseService.has_id booking_id)
                               (bookings (db w))))
      by (rewrite Hf; left; reflexivity).
    apply filter_In in Hin as (Hin & Hid).
    split; [exact Hin | apply String.eqb_eq; exact Hid]. }
  apply negb_false_iff, String.eqb_eq in Howner.
  apply String.eqb_neq in Hcancelled. apply String.eqb_neq in Hcompleted.
  destruct Hu1 as (Hdb1 & Hcs1 & Hts1).
  apply bind_inv in H as [(success & w2 & H2 & H) | (x & H2 & ->)];
    apply cancel_service_cases in H2 as (Hcs2 & Hts2 & Hd2).
  2:{ destruct Hd2 as [(x' & _ & Hd2) | (Hx & _)]; [| discriminate].
      eapply Hquiet; [| | reflexivity];
        [repeat split; congruence | intros ? Hd; discriminate Hd]. }
  destruct Hd2 as [(x' & Hx & _) | (Hsucc & Hd2)]; [discriminate |].
  inversion Hsucc as [Hsuccess]. clear Hsucc.
  rewrite Hdb1 in Hd2. rewrite Hdb1 in Hsuccess.
  destruct success.
  - inversion H; subst r w2. clear H.
    split; [rewrite Hd2; reflexivity |].
    split; [congruence |]. split; [congruence |].
    split.
    + intros b' Hin Hother. rewrite Hd2. simpl.
      apply in_map_iff. exists b'. split; [| exact Hin].
      unfold SupabaseServiceExt.cancel_where_owned,
        SupabaseServiceExt.owned, SupabaseService.has_id.
      destruct Hother as [Hid | Huser].
      * apply String.eqb_neq in Hid. rewrite Hid. reflexivity.
      * apply String.eqb_neq in Huser. rewrite Huser.
        rewrite andb_false_r. reflexivity.
    + split.
      * intros Hno. exfalso. exact (Hno booking_id eq_refl).
      * intros id Hid. inversion Hid; subst id. split; [reflexivity |].
        exists b. destruct Hb as (Hin & Hidb). auto.
  - symmetry in Hsuccess. apply Nat.ltb_ge in Hsuccess.
    apply Nat.le_0_r, length_zero_iff_nil in Hsuccess.
    apply cancel_nobody in Hsuccess.
    eapply Hquiet; [| | exact H]; [| intros ? Hd; discriminate Hd].
    repeat split; try congruence.
    rewrite Hd2, Hsuccess. destruct (db w); reflexivity.
Qed.

(** A table that is what it was, or what it was under a row-wise
    update: row by row. *)
Lemma rows_kept_or (f : Booking.t -> Booking.t) (l l' : list Booking.t) :
  l' = l \/ l' = map f l ->
  List.length l' = List.length l /\
  forall i b, nth_error l i = Some b ->
              exists b', nth_error l' i = Some b' /\ (b' = b \/ b' = f b).
Proof.
  intros [-> | ->].
  - split; [reflexivity |]. intros i b Hb. exists b. auto.
  - split; [apply length_map |]. intros i b Hb. exists (f b).
    rewrite nth_error_map, Hb. auto.
Qed.

(** What the cancellation can do to the bookings. *)
Lemma cancel_tool_rows booking_id user_id w r w' :
  CancelTool.cancel_booking booking_id user_id w = (r, w') ->
  bookings (db w') = bookings (db w) \/
  bookings (db w')
  = map (SupabaseServiceExt.cancel_where_owned booking_id user_id)
        (bookings (db w)).
Proof.
  unfold CancelTool.cancel_booking. intros H.
  apply bind_inv in H as [(booking & w1 & H1 & H) | (x & H1 & ->)];
    apply get_booking_by_id_untouched in H1 as (Hd1 & _);
    [| left; rewrite Hd1; reflexivity].
  destruct booking as [b |];
    [| inversion H; subst; left; rewrite Hd1; reflexivity].
  destruct (negb (String.eqb (Booking.user_id b) user_id));
    [inversion H; subst; left; rewrite Hd1; reflexivity |].
  destruct (String.eqb (Booking.status b) "cancelled");
    [inversion H; subst; left; rewrite Hd1; reflexivity |].
  destruct (String.eqb (Booking.status b) "completed");
    [inversion H; subst; left; rewrite Hd1; reflexivity |].
  assert (Hend : forall w2 : world,
            db w2 = db w1 \/
            db w2 = set_bookings
                      (map (SupabaseServiceExt.cancel_where_owned
                              booking_id user_id) (bookings (db w1)))
                      (db w1) ->
            bookings (db w2) = bookings (db w) \/
            bookings (db w2)
            = map (SupabaseServiceExt.cancel_where_owned booking_id user_id)
                  (bookings (db w))).
  { intros w2 [Hd | Hd]; rewrite Hd, Hd1; [left | right]; reflexivity. }
  apply bind_inv in H as [(success & w2 & H2 & H) | (x & H2 & ->)];
    apply cancel_service_cases in H2 as (_ & _ & Hd2).
  - assert (Hw : w' = w2) by (destruct success; inversion H; reflexivity).
    subst w'. apply Hend.
    destruct Hd2 as [(x & _ & Hd2) | (_ & Hd2)]; auto.
  - apply Hend.
    destruct Hd2 as [(x' & _ & Hd2) | (_ & Hd2)]; auto.
Qed.

(** X6: cancellation is for the owner only and never silent.  Whatever
    the run, the payment records, the provider and the tasks are left
    alone; the bookings are as many as they were, and each of them is as
    it was or, being the booking of the request and of the requesting
    user, has become cancelled; a refusal that is answered has changed no
    table; and the confirmation of the cancellation is given only for a
    booking of the requesting user that was neither cancelled nor
    completed. *)
Theorem cancel_only_by_owner
        (booking_id user_id : string) (w : world)
        (r : result CancelTool.response) (w' : world) :
  CancelTool.cancel_booking booking_id user_id w = (r, w') ->
  payments (db w') = payments (db w) /\
  calls w' = calls w /\ tasks w' = tasks w /\
  List.length (bookings (db w')) = List.length (bookings (db w)) /\
  (forall i b,
     nth_error (bookings (db w)) i = Some b ->
     exists b',
       nth_error (bookings (db w')) i = Some b' /\
       (b' = b \/
        (Booking.id b = booking_id /\ Booking.user_id b = user_id /\
         b' = Booking.with_status "cancelled" b))) /\
  (forall error, r = Ok (CancelTool.Refused error) -> db w' = db w) /\
  (forall id, r = Ok (CancelTool.Cancelled id) ->
     id = booking_id /\
     exists b, In b (bookings (db w)) /\
               Booking.id b = booking_id /\
               Booking.user_id b = user_id /\
               Booking.status b <> "cancelled" /\
               Booking.status b <> "completed").
Proof.
  intros H.
  pose proof (cancel_tool_rows _ _ _ _ _ H) as Hrows.
  apply (rows_kept_or
           (SupabaseServiceExt.cancel_where_owned booking_id user_id))
    in Hrows as (Hlen & Hrows).
  apply cancel_tool_cases in H as (Hp & Hc & Ht & _ & Hquiet & Hdone).
  split; [exact Hp |]. split; [exact Hc |]. split; [exact Ht |].
  split; [exact Hlen |]. split; [| split; [| exact Hdone]].
  - intros i b Hb. destruct (Hrows i b Hb) as (b' & Hb' & [-> | ->]).
    + exists b. auto.
    + exists (SupabaseServiceExt.cancel_where_owned booking_id user_id b).
      split; [exact Hb' |].
      unfold SupabaseServiceExt.cancel_where_owned,
        SupabaseServiceExt.owned, SupabaseService.has_id.
      destruct (String.eqb (Booking.id b) booking_id) eqn:Hid;
        simpl; [| left; reflexivity].
      destruct (String.eqb (Booking.user_id b) user_id) eqn:Huser;
        simpl; [| left; reflexivity].
      apply String.eqb_eq in Hid. apply String.eqb_eq in Huser.
      right. auto.
  - intros error Hr. apply Hquiet. intros id Hid. rewrite Hr in Hid.
    discriminate.
Qed.

(** X6, at a concrete call: another user asks to cancel the pending
    booking; no table changes. *)
Lemma cancel_only_by_owner_witness :
  db (snd (CancelTool.cancel_booking "b1" "u2" Fixtures.pending_ledger))
  = db Fixtures.pending_ledger.
Proof.
  destruct (CancelTool.cancel_booking "b1" "u2" Fixtures.pending_ledger)
    as [r w'] eqn:Hrun.
  destruct (cancel_only_by_owner "b1" "u2" Fixtures.pending_ledger r w' Hrun)
    as (_ & _ & _ & _ & _ & Hquiet & _).
  simpl. eapply Hquiet.
  vm_compute in Hrun. inversion Hrun; subst. reflexivity.
Defined.

Lemma cancel_service_no_fault booking_id user_id w :
  db_script w = [] ->
  SupabaseServiceExt.cancel_booking booking_id user_id w
  = let rows := map (SupabaseServiceExt.cancel_where_owned booking_id
                       user_id) (bookings (db w)) in
    (Ok (Nat.ltb 0
           (List.length
              (filter (SupabaseServiceExt.owned booking_id user_id) rows))),
     mkWorld (set_bookings rows (db w)) [] (calls w) (tasks w)).
Proof.
  intros Hs. unfold SupabaseServiceExt.cancel_booking, bind.
  rewrite execute_no_fault by assumption. unfold run_query, ret. simpl.
  rewrite Hs. reflexivity.
Qed.

(** X7: cancelling frees the slot.  With no database fault, the owner of
    a booking that is neither cancelled nor completed gets it cancelled:
    every row of that identifier now has the status cancelled, and any
    interval that only this booking was blocking is available again. *)
Theorem cancel_frees_the_slot
        (booking_id user_id : string) (w : world) (b : Booking.t) :
  db_script w = [] ->
  filter (SupabaseService.has_id booking_id) (bookings (db w)) = [b] ->
  Booking.user_id b = user_id ->
  Booking.status b <> "cancelled" ->
  Booking.status b <> "completed" ->
  exists w',
    CancelTool.cancel_booking booking_id user_id w
    = (Ok (CancelTool.Cancelled booking_id), w') /\
    (forall b', In b' (bookings (db w')) -> Booking.id b' = booking_id ->
                Booking.status b' = "cancelled") /\
    (forall space_id s e,
       (forall b', In b' (bookings (db w)) ->
                   SupabaseService.blocks space_id s e b' = true ->
                   Booking.id b' = booking_id) ->
       SupabaseService.check_space_availability space_id s e w'
       = (Ok true, w')).
Proof.
  intros Hs Hunique Howner Hnc Hnd.
  assert (Hin : In b (bookings (db w)) /\ Booking.id b = booking_id).
  { assert (Hf : In b (filter (SupabaseService.has_id booking_id)
                              (bookings (db w))))
      by (rewrite Hunique; left; reflexivity).
    apply filter_In in Hf as (Hf & Hid).
    split; [exact Hf | apply String.eqb_eq; exact Hid]. }
  destruct Hin as (Hin & Hid).
  assert (Hown : forall b', In b' (bookings (db w)) ->
            Booking.id b' = booking_id ->
            SupabaseServiceExt.owned booking_id user_id b' = true).
  { intros b' Hb' Hid'.
    assert (Hf : In b' (filter (SupabaseService.has_id booking_id)
                               (bookings (db w)))).
    { apply filter_In. split; [exact Hb' |].
      apply String.eqb_eq. exact Hid'. }
    rewrite Hunique in Hf. destruct Hf as [Heq | []]. subst b'.
    unfold SupabaseServiceExt.owned, SupabaseService.has_id.
    rewrite Hid, Howner, !String.eqb_refl. reflexivity. }
  set (rows := map (SupabaseServiceExt.cancel_where_owned booking_id user_id)
                   (bookings (db w))).
  exists (mkWorld (set_bookings rows (db w)) [] (calls w) (tasks w)).
  split; [| split].
  - unfold CancelTool.cancel_booking.
    erewrite bind_ok.
    2:{ rewrite get_booking_by_id_no_fault by assumption.
        rewrite Hunique. reflexivity. }
    cbv beta iota. rewrite Howner, String.eqb_refl. simpl.
    apply String.eqb_neq in Hnc. apply String.eqb_neq in Hnd.
    rewrite Hnc, Hnd.
    erewrite bind_ok.
    2:{ rewrite cancel_service_no_fault by assumption. reflexivity. }
    cbv beta iota zeta. fold rows.
    assert (Hpos : Nat.ltb 0
              (List.length
                 (filter (SupabaseServiceExt.owned booking_id user_id) rows))
              = true).
    { assert (Hf : In (SupabaseServiceExt.cancel_where_owned
                         booking_id user_id b)
                      (filter (SupabaseServiceExt.owned booking_id user_id)
                              rows)).
      { apply filter_In. split; [apply in_map; exact Hin |].
        rewrite owned_cancel_where_owned. apply Hown; assumption. }
      destruct (filter _ rows); [destruct Hf | reflexivity]. }
    rewrite Hpos. destruct w as [d sc cs ts]. simpl in *. subst sc.
    reflexivity.
  - simpl. intros b' Hb' Hid'.
    apply in_map_iff in Hb' as (b0 & <- & Hb0).
    destruct (cancel_where_owned_id booking_id user_id b0) as (Hi & _).
    rewrite Hi in Hid'.
    unfold SupabaseServiceExt.cancel_where_owned.
    rewrite (Hown b0 Hb0 Hid'). reflexivity.
  - intros space_id s e Honly.
    rewrite check_space_availability_no_fault by reflexivity. simpl.
    rewrite filter_none; [reflexivity |].
    intros b' Hb'. apply in_map_iff in Hb' as (b0 & <- & Hb0).
    destruct (SupabaseService.blocks space_id s e b0) eqn:Hblocks.
    + pose proof (Hown b0 Hb0 (Honly b0 Hb0 Hblocks)) as Ho.
      unfold SupabaseServiceExt.cancel_where_owned. rewrite Ho.
      unfold SupabaseService.blocks. simpl.
      rewrite andb_false_r. reflexivity.
    + unfold SupabaseServiceExt.cancel_where_owned.
      destruct (SupabaseServiceExt.owned booking_id user_id b0);
        [| exact Hblocks].
      unfold SupabaseService.blocks. simpl.
      rewrite andb_false_r. reflexivity.
Qed.

(** X7, on the ledger of the pending booking: its owner cancels it and
    the room is free again from 14:00 to 16:00. *)
Lemma cancel_frees_the_slot_witness :
  exists w',
    CancelTool.cancel_booking "b1" "u1" Fixtures.pending_ledger
    = (Ok (CancelTool.Cancelled "b1"), w') /\
    SupabaseService.check_space_availability
      "s1" (14 * Fixtures.hour) (16 * Fixtures.hour) w'
    = (Ok true, w').
Proof.
  destruct (cancel_frees_the_slot "b1" "u1" Fixtures.pending_ledger
              Fixtures.pending_booking)
    as (w' & Hrun & _ & Hfree); try reflexivity; try discriminate.
  exists w'. split; [exact Hrun |]. apply Hfree.
  intros b' [<- | []] _. reflexivity.
Defined.

(** ** The webhook: the other events *)

(** A verified request gets past the signature check. *)
Lemma stripe_webhook_verified e req event w :
  STRIPE_AVAILABLE e = true ->
  verified_as e req event ->
  Webhooks.stripe_webhook e req w
  = (let event_type := Stripe.Event.type event in
     let event_data := Stripe.Event.data_object event in
     if String.eqb event_type "checkout.session.completed" then
       Webhooks.on_checkout_session_completed e event_data
     else if String.eqb event_type "payment_intent.succeeded" then
       Webhooks.on_payment_intent_succeeded event_data
     else if String.eqb event_type "payment_intent.payment_failed" then
       Webhooks.on_payment_intent_payment_failed event_data
     else if String.eqb event_type "customer.created" then
       ret [("status", Some "success");
            ("customer_id", Stripe.Object.id event_data)]
     else
       ret [("status", Some "ignored"); ("event_type", Some event_type)]) w.
Proof.
  intros Hsdk (signature & Hsig & Hne & Hev).
  unfold Webhooks.stripe_webhook. rewrite Hsdk, Hsig. simpl.
  apply String.eqb_neq in Hne. rewrite Hne, Hev. reflexivity.
Qed.

(** X8: events that are not about a payment do nothing.  A verified
    event whose type is none of [checkout.session.completed],
    [payment_intent.succeeded] and [payment_intent.payment_failed] is
    answered 200 and the world is exactly what it was; the answer is the
    customer identifier for [customer.created] and "ignored" with the
    type otherwise. *)
Theorem other_events_change_nothing
        (e : env) (req : Webhooks.request) (event : Stripe.Event.t)
        (w : world) :
  STRIPE_AVAILABLE e = true ->
  verified_as e req event ->
  Stripe.Event.type event <> "checkout.session.completed" ->
  Stripe.Event.type event <> "payment_intent.succeeded" ->
  Stripe.Event.type event <> "payment_intent.payment_failed" ->
  Webhooks.stripe_webhook e req w
  = (Ok (if String.eqb (Stripe.Event.type event) "customer.created" then
           [("status", Some "success");
            ("customer_id",
             Stripe.Object.id (Stripe.Event.data_object event))]
         else
           [("status", Some "ignored");
            ("event_type", Some (Stripe.Event.type event))]),
     w).
Proof.
  intros Hsdk Hver H1 H2 H3.
  rewrite (stripe_webhook_verified _ _ _ _ Hsdk Hver). cbv zeta.
  apply String.eqb_neq in H1. apply String.eqb_neq in H2.
  apply String.eqb_neq in H3. rewrite H1, H2, H3.
  destruct (String.eqb (Stripe.Event.type event) "customer.created");
    reflexivity.
Qed.

Lemma payment_failed_block_cases bid w r w' :
  try_except
    (SupabaseService.update_payment_status bid "failed" None None None ;;;
     ret tt)
    (fun _ => ret tt) w = (r, w') ->
  r = Ok tt /\ calls w' = calls w /\ tasks w' = tasks w /\
  bookings (db w') = bookings (db w).
Proof.
  intros H.
  apply try_except_inv in H as [(a & H & ->) | (x & w1 & H & Hh)].
  - destruct a.
    apply bind_inv in H as [(p & w1 & H1 & H2) | (x & _ & Hx)];
      [| discriminate].
    inversion H2; subst w1. clear H2.
    unfold SupabaseService.update_payment_status in H1.
    apply bind_inv in H1 as [(data & w2 & H1 & H2) | (x & _ & Hx)];
      [| discriminate].
    inversion H2; subst w2. clear H2.
    apply execute_cases in H1 as (Hc & Ht & [(x & Hx & _) | Hq]);
      [discriminate |].
    injection Hq as _ Hdb. rewrite Hdb. auto.
  - inversion Hh; subst. clear Hh.
    apply bind_inv in H as [(p & w2 & _ & H2) | (x' & H1 & _)];
      [inversion H2 |].
    unfold SupabaseService.update_payment_status in H1.
    apply bind_inv in H1 as [(data & w2 & _ & H2) | (x'' & H1 & _)];
      [inversion H2 |].
    apply execute_cases in H1 as (Hc & Ht & [(y & _ & Hdb) | Hq]);
      [| inversion Hq].
    rewrite Hdb. auto.
Qed.

(** X9: a failed payment never touches the booking.  A verified
    [payment_intent.payment_failed] event is answered 200 with the status
    "failed" and the message of the provider ("Unknown error" when there
    is none); whatever the database does, the bookings are what they
    were (the booking stays as it is, for a retry), no provider call is
    made and no task is spawned. *)
Theorem payment_failed_keeps_booking
        (e : env) (req : Webhooks.request) (event : Stripe.Event.t)
        (w : world) :
  STRIPE_AVAILABLE e = true ->
  verified_as e req event ->
  Stripe.Event.type event = "payment_intent.payment_failed" ->
  exists w',
    Webhooks.stripe_webhook e req w
    = (Ok [("status", Some "failed");
           ("message",
            Some (match Stripe.Object.last_payment_error_message
                          (Stripe.Event.data_object event) with
                  | Some m => m
                  | None => "Unknown error"
                  end))],
       w') /\
    bookings (db w') = bookings (db w) /\
    calls w' = calls w /\ tasks w' = tasks w.
Proof.
  intros Hsdk Hver Htype.
  rewrite (stripe_webhook_verified _ _ _ _ Hsdk Hver). cbv zeta.
  rewrite Htype. simpl.
  unfold Webhooks.on_payment_intent_payment_failed.
  destruct (Stripe.Object.metadata_booking_id
              (Stripe.Event.data_object event)) as [bid |]; simpl.
  - destruct (String.eqb bid ""); simpl.
    + eexists. split; [reflexivity |]. auto.
    + unfold bind at 1.
      destruct (try_except _ _ w) as [r w'] eqn:Hblock.
      apply payment_failed_block_cases in Hblock as (-> & Hc & Ht & Hb).
      eexists. split; [reflexivity |]. auto.
  - eexists. split; [reflexivity |]. auto.
Qed.

(** X8, at a concrete delivery: a new customer. *)
Lemma other_events_change_nothing_witness :
  Webhooks.stripe_webhook
    (Scenarios.env_delivering Scenarios.customer_created)
    Fixtures.genuine_request Fixtures.pending_ledger
  = (Ok [("status", Some "success"); ("customer_id", Some "cus_1")],
     Fixtures.pending_ledger).
Proof.
  apply (other_events_change_nothing
           (Scenarios.env_delivering Scenarios.customer_created)
           Fixtures.genuine_request Scenarios.customer_created
           Fixtures.pending_ledger);
    try reflexivity; try discriminate.
  exists "t=1,v1=good". repeat split. discriminate.
Defined.

(** X9, at a concrete delivery: the card of booking b1 is declined. *)
Lemma payment_failed_keeps_booking_witness :
  exists w',
    Webhooks.stripe_webhook
      (Scenarios.env_delivering Scenarios.payment_failed)
      Fixtures.genuine_request Fixtures.pending_ledger
    = (Ok [("status", Some "failed");
           ("message", Some "Your card was declined.")], w') /\
    bookings (db w') = [Fixtures.pending_booking].
Proof.
  destruct (payment_failed_keeps_booking
              (Scenarios.env_delivering Scenarios.payment_failed)
              Fixtures.genuine_request Scenarios.payment_failed
              Fixtures.pending_ledger)
    as (w' & Hrun & Hb & _); try reflexivity.
  - exists "t=1,v1=good". repeat split. discriminate.
  - exists w'. split; [exact Hrun | exact Hb].
Defined.

Lemma update_booking_status_frame booking_id status w r w' :
  SupabaseService.update_booking_status booking_id status w = (r, w') ->
  calls w' = calls w /\ tasks w' = tasks w /\
  payments (db w') = payments (db w) /\
  ((exists x, r = Raise x /\ db w' = db w) \/
   (exists row, r = Ok row) /\
   bookings (db w')
   = map (SupabaseService.set_status_where_id booking_id status)
         (bookings (db w))).
Proof.
  unfold SupabaseService.update_booking_status. intros H.
  apply bind_inv in H as [(data & w1 & H1 & H2) | (x & H1 & ->)];
    apply execute_cases in H1 as (Hc & Ht & Hd).
  - inversion H2; subst. clear H2.
    destruct Hd as [(x & Hx & _) | Hq]; [discriminate |].
    injection Hq as _ Hdb. rewrite Hdb. simpl.
    repeat split; try assumption. right. split; [eauto | reflexivity].
  - destruct Hd as [(x' & _ & Hdb) | Hq]; [| inversion Hq].
    rewrite Hdb. repeat split; try assumption. left. eauto.
Qed.

Lemma set_status_rows booking_id status (l l' : list Booking.t) :
  l' = l \/ l' = map (SupabaseService.set_status_where_id booking_id status)
                     l ->
  forall i b, nth_error l i = Some b ->
    exists b', nth_error l' i = Some b' /\
               (b' = b \/
                (Booking.id b = booking_id /\
                 b' = Booking.with_status status b)).
Proof.
  intros H i b Hb.
  apply rows_kept_or in H as (_ & H).
  destruct (H i b Hb) as (b' & Hb' & [-> | ->]).
  - exists b. auto.
  - eexists. split; [exact Hb' |].
    unfold SupabaseService.set_status_where_id, SupabaseService.has_id.
    destruct (String.eqb (Booking.id b) booking_id) eqn:Hid;
      [| left; reflexivity].
    apply String.eqb_eq in Hid. right. auto.
Qed.

(** X10: [payment_intent.succeeded] confirms the booking and nothing
    else.  A verified event of that type is always answered 200 with the
    status "success"; the payment records are what they were, no provider
    call is made and no confirmation task is spawned; the bookings are as
    many as they were and each of them is as it was or, having the
    identifier of the event, is the same booking with the status
    confirmed; and with no database fault the bookings of that
    identifier are confirmed. *)
Theorem payment_succeeded_confirms_only
        (e : env) (req : Webhooks.request) (event : Stripe.Event.t)
        (w : world) :
  STRIPE_AVAILABLE e = true ->
  verified_as e req event ->
  Stripe.Event.type event = "payment_intent.succeeded" ->
  exists w',
    Webhooks.stripe_webhook e req w = (Ok [("status", Some "success")], w')
    /\
    payments (db w') = payments (db w) /\
    calls w' = calls w /\ tasks w' = tasks w /\
    List.length (bookings (db w')) = List.length (bookings (db w)) /\
    (forall i b,
       nth_error (bookings (db w)) i = Some b ->
       exists b',
         nth_error (bookings (db w')) i = Some b' /\
         (b' = b \/
          (Stripe.Object.metadata_booking_id (Stripe.Event.data_object event)
           = Some (Booking.id b) /\
           b' = Booking.with_status "confirmed" b))) /\
    (forall bid,
       Stripe.Object.metadata_booking_id (Stripe.Event.data_object event)
       = Some bid ->
       bid <> "" -> db_script w = [] ->
       forall b, In b (bookings (db w')) -> Booking.id b = bid ->
                 Booking.status b = "confirmed").
Proof.
  intros Hsdk Hver Htype.
  rewrite (stripe_webhook_verified _ _ _ _ Hsdk Hver). cbv zeta.
  rewrite Htype. simpl.
  unfold Webhooks.on_payment_intent_succeeded.
  destruct (Stripe.Object.metadata_booking_id
              (Stripe.Event.data_object event)) as [bid |]; simpl.
  - destruct (String.eqb bid "") eqn:Hbid; simpl.
    + eexists. split; [reflexivity |].
      repeat (split; [reflexivity |]).
      split; [intros i b0 Hb0; exists b0; auto |].
      intros bid' Hb Hne. inversion Hb; subst bid'.
      apply String.eqb_neq in Hne. congruence.
    + unfold bind at 1.
      destruct (try_except _ _ w) as [r w'] eqn:Hblock.
      apply try_except_inv in Hblock
        as [(a & Hrun & ->) | (x & w1 & Hrun & Hh)].
      * apply bind_inv in Hrun as [(row & w1 & H1 & H2) | (x & _ & Hx)];
          [| discriminate].
        inversion H2; subst a w1. clear H2.
        pose proof (update_booking_status_frame _ _ _ _ _ H1)
          as (Hc & Ht & Hp & [(x & Hx & _) | (_ & Hb)]);
          [discriminate |].
        exists w'. split; [reflexivity |].
        split; [exact Hp |]. split; [exact Hc |]. split; [exact Ht |].
        split; [rewrite Hb; apply length_map |].
        split.
        { intros i b0 Hb0.
          destruct (set_status_rows bid "confirmed" _ _ (or_intror Hb)
                      i b0 Hb0) as (b' & Hb' & [-> | (Hid & ->)]).
          - exists b0. auto.
          - eexists. split; [exact Hb' |]. right. rewrite Hid. auto. }
        intros bid' Hmeta _ _ b Hin Hid. injection Hmeta as Hm.
        rewrite <- Hm in Hid. clear Hm.
        rewrite Hb in Hin. apply in_map_iff in Hin as (b0 & <- & _).
        rewrite set_status_where_id_id in Hid.
        unfold SupabaseService.set_status_where_id, SupabaseService.has_id.
        apply String.eqb_eq in Hid. rewrite Hid. reflexivity.
      * inversion Hh; subst r w1. clear Hh.
        apply bind_inv in Hrun as [(row & w1 & _ & H2) | (x' & H1 & _)];
          [inversion H2 |].
        pose proof (update_booking_status_frame _ _ _ _ _ H1)
          as (Hc & Ht & Hp & [(y & _ & Hdb) | ((row & Hrow) & _)]);
          [| discriminate].
        exists w'. split; [reflexivity |].
        split; [exact Hp |]. split; [exact Hc |]. split; [exact Ht |].
        split; [rewrite Hdb; reflexivity |].
        split; [rewrite Hdb; intros i b0 Hb0; exists b0; auto |].
        intros bid' Hmeta _ Hs. exfalso.
        rewrite (update_booking_status_no_fault _ _ _ Hs) in H1.
        discriminate.
  - eexists. split; [reflexivity |].
    repeat (split; [reflexivity |]).
    split; [intros i b0 Hb0; exists b0; auto |].
    intros bid Hb. discriminate.
Qed.

(** X10, at a concrete delivery for booking b1. *)
Lemma payment_succeeded_confirms_only_witness :
  exists w',
    Webhooks.stripe_webhook
      (Scenarios.env_delivering Scenarios.payment_succeeded)
      Fixtures.genuine_request Fixtures.pending_ledger
    = (Ok [("status", Some "success")], w') /\
    payments (db w') = [Fixtures.pending_payment] /\
    tasks w' = [].
Proof.
  destruct (payment_succeeded_confirms_only
              (Scenarios.env_delivering Scenarios.payment_succeeded)
              Fixtures.genuine_request Scenarios.payment_succeeded
              Fixtures.pending_ledger)
    as (w' & Hrun & Hp & _ & Ht & _); try reflexivity.
  - exists "t=1,v1=good". repeat split. discriminate.
  - exists w'. split; [exact Hrun |]. split; [exact Hp | exact Ht].
Defined.

(** X11: a completed session without a booking reference is
    acknowledged and changes nothing.  When the reference that is
    resolved is missing or empty, the answer is 200 with the status
    "success", and the tables and the tasks are what they were. *)
Theorem unresolved_session_changes_nothing
        (e : env) (req : Webhooks.request) (event : Stripe.Event.t)
        (w w1 : world) (reference : option string) :
  STRIPE_AVAILABLE e = true ->
  verified_as e req event ->
  Stripe.Event.type event = "checkout.session.completed" ->
  Webhooks.resolve_booking_id e (Stripe.Event.data_object event) w
  = (Ok reference, w1) ->
  truthy_str reference = false ->
  Webhooks.stripe_webhook e req w
  = (Ok [("status", Some "success"); ("booking_id", reference)], w1) /\
  db w1 = db w /\ tasks w1 = tasks w.
Proof.
  intros Hsdk Hver Htype Hres Hfalsy.
  rewrite (stripe_webhook_verified _ _ _ _ Hsdk Hver). cbv zeta.
  rewrite Htype. simpl.
  unfold Webhooks.on_checkout_session_completed.
  rewrite (bind_ok _ _ _ _ _ Hres). rewrite Hfalsy.
  split; [reflexivity |].
  destruct (resolve_booking_id_total e (Stripe.Event.data_object event) w)
    as (b' & w1' & Hres' & Hd & Ht & _).
  rewrite Hres in Hres'. inversion Hres'; subst. auto.
Qed.

(** X11, at a concrete delivery: a session with no metadata and no
    payment intent. *)
Lemma unresolved_session_changes_nothing_witness :
  Webhooks.stripe_webhook
    (Scenarios.env_delivering Scenarios.orphan_completed)
    Fixtures.genuine_request Fixtures.pending_ledger
  = (Ok [("status", Some "success"); ("booking_id", None)],
     Fixtures.pending_ledger).
Proof.
  apply (unresolved_session_changes_nothing
           (Scenarios.env_delivering Scenarios.orphan_completed)
           Fixtures.genuine_request Scenarios.orphan_completed
           Fixtures.pending_ledger Fixtures.pending_ledger None);
    try reflexivity.
  exists "t=1,v1=good". repeat split. discriminate.
Defined.

(** ** The webhook: a completed session *)


(** With its booking reference in the metadata and no database fault, a
    completed session runs the whole confirmation. *)
Lemma checkout_completed_no_fault e req event w bid :
  STRIPE_AVAILABLE e = true ->
  verified_as e req event ->
  Stripe.Event.type event = "checkout.session.completed" ->
  Stripe.Object.metadata_booking_id (Stripe.Event.data_object event)
  = Some bid ->
  bid <> "" ->
  db_script w = [] ->
  Webhooks.stripe_webhook e req w
  = (Ok [("status", Some "success"); ("booking_id", Some bid)],
     mkWorld
       (set_payments
          (map (fun p =>
                  if SupabaseService.for_booking bid p
                  then SupabaseService.apply_payment_update "completed"
                         (Stripe.Object.payment_intent
                            (Stripe.Event.data_object event))
                         (Some (now e)) None p
                  else p)
               (payments (db w)))
          (set_bookings
             (map (SupabaseService.set_status_where_id bid "confirmed")
                  (bookings (db w)))
             (db w)))
       []
       (calls w)
       (SendBookingConfirmationEmail bid
          (Stripe.Object.customer_email (Stripe.Event.data_object event))
        :: tasks w)).
Proof.
  intros Hsdk Hver Htype Hmeta Hne Hs.
  rewrite (stripe_webhook_verified _ _ _ _ Hsdk Hver). cbv zeta.
  rewrite Htype. simpl.
  unfold Webhooks.on_checkout_session_completed.
  apply String.eqb_neq in Hne.
  assert (Hres : Webhooks.resolve_booking_id e
                   (Stripe.Event.data_object event) w = (Ok (Some bid), w)).
  { unfold Webhooks.resolve_booking_id. rewrite Hmeta. simpl.
    rewrite Hne. reflexivity. }
  cbv zeta. rewrite (bind_ok _ _ _ _ _ Hres). simpl. rewrite Hne. simpl.
  unfold bind at 1, try_except, bind at 1.
  rewrite (update_booking_status_no_fault _ _ _ Hs).
  unfold bind at 1.
  rewrite update_payment_status_no_fault by reflexivity.
  reflexivity.
Qed.

(** X12: a completed session confirms the booking, completes its payment
    and asks for one confirmation.  With the booking reference in the
    metadata of the session and no database fault, the answer is 200 with
    that reference; afterwards every booking of that identifier is
    confirmed, every payment record of the booking is completed and paid
    at the reading of the clock, the rows of other bookings are kept, and
    exactly one confirmation task, for that booking and the e-mail
    address of the session, has been spawned. *)
Theorem checkout_completed_confirms
        (e : env) (req : Webhooks.request) (event : Stripe.Event.t)
        (w : world) (bid : string) :
  STRIPE_AVAILABLE e = true ->
  verified_as e req event ->
  Stripe.Event.type event = "checkout.session.completed" ->
  Stripe.Object.metadata_booking_id (Stripe.Event.data_object event)
  = Some bid ->
  bid <> "" ->
  db_script w = [] ->
  exists w',
    Webhooks.stripe_webhook e req w
    = (Ok [("status", Some "success"); ("booking_id", Some bid)], w') /\
    (forall b, In b (bookings (db w')) -> Booking.id b = bid ->
               Booking.status b = "confirmed") /\
    (forall p, In p (payments (db w')) -> Payment.booking_id p = bid ->
               Payment.payment_status p = "completed" /\
               Payment.paid_at p = Some (now e)) /\
    (forall b, Booking.id b <> bid ->
               (In b (bookings (db w')) <-> In b (bookings (db w)))) /\
    (forall p, Payment.booking_id p <> bid ->
               (In p (payments (db w')) <-> In p (payments (db w)))) /\
    tasks w'
    = SendBookingConfirmationEmail bid
        (Stripe.Object.customer_email (Stripe.Event.data_object event))
      :: tasks w.
Proof.
  intros Hsdk Hver Htype Hmeta Hne Hs.
  rewrite (checkout_completed_no_fault _ _ _ _ _ Hsdk Hver Htype Hmeta Hne Hs).
  eexists. split; [reflexivity |]. simpl.
  split; [| split; [| split; [| split; [| reflexivity]]]].
  - intros b Hin Hid. apply in_map_iff in Hin as (b0 & Hb0 & _).
    subst b. rewrite set_status_where_id_id in Hid.
    unfold SupabaseService.set_status_where_id, SupabaseService.has_id.
    apply String.eqb_eq in Hid. rewrite Hid. reflexivity.
  - intros p Hin Hid. apply in_map_iff in Hin as (p0 & Hp0 & _).
    subst p. unfold SupabaseService.for_booking in *.
    destruct (String.eqb (Payment.booking_id p0) bid) eqn:E.
    + split; reflexivity.
    + apply String.eqb_neq in E. contradiction.
  - intros b Hid. split; intros Hin.
    + apply in_map_iff in Hin as (b0 & Hb0 & Hin). subst b.
      rewrite set_status_where_id_id in Hid.
      unfold SupabaseService.set_status_where_id, SupabaseService.has_id.
      apply String.eqb_neq in Hid. rewrite Hid. exact Hin.
    + apply in_map_iff. exists b. split; [| exact Hin].
      unfold SupabaseService.set_status_where_id, SupabaseService.has_id.
      apply String.eqb_neq in Hid. rewrite Hid. reflexivity.
  - intros p Hid. split; intros Hin.
    + apply in_map_iff in Hin as (p0 & Hp0 & Hin). subst p.
      unfold SupabaseService.for_booking in *.
      destruct (String.eqb (Payment.booking_id p0) bid) eqn:E;
        [| exact Hin].
      exfalso. apply Hid. simpl. apply String.eqb_eq. exact E.
    + apply in_map_iff. exists p. split; [| exact Hin].
      unfold SupabaseService.for_booking.
      apply String.eqb_neq in Hid. rewrite Hid. reflexivity.
Qed.

(** X12, at the delivery for booking b1. *)
Lemma checkout_completed_confirms_witness :
  exists w',
    Webhooks.stripe_webhook
      (Scenarios.env_delivering Fixtures.checkout_completed)
      Fixtures.genuine_request Fixtures.pending_ledger
    = (Ok [("status", Some "success"); ("booking_id", Some "b1")], w') /\
    tasks w' = [SendBookingConfirmationEmail "b1" (Some "u1@example.com")].
Proof.
  destruct (checkout_completed_confirms
              (Scenarios.env_delivering Fixtures.checkout_completed)
              Fixtures.genuine_request Fixtures.checkout_completed
              Fixtures.pending_ledger "b1")
    as (w' & Hrun & _ & _ & _ & _ & Ht);
    try reflexivity; try discriminate.
  - exists "t=1,v1=good". repeat split. discriminate.
  - exists w'. split; [exact Hrun | exact Ht].
Defined.



(** ** Reconciliation: the payment that is found *)

(** No paid session is known to the provider, for any payment link. *)
Lemma no_paid_session_no_intent e payment_link_id w r w1 :
  (forall link_id sessions,
     Stripe.checkout_session_list (stripe e) link_id = Some sessions ->
     find BookingsApi.is_paid_session sessions = None) ->
  BookingsApi.payment_intent_of_link e payment_link_id w = (r, w1) ->
  r = Ok None /\ provider_only w w1.
Proof.
  intros Hnone H.
  apply payment_intent_of_link_cases in H as (Hp & o & -> & Hlink).
  split; [| exact Hp]. destruct o as [pid |]; [| reflexivity].
  exfalso.
  destruct (Hlink pid eq_refl) as (link_id & sessions & s & Hl & Hin & Hs & _).
  specialize (Hnone link_id sessions Hl).
  apply (find_none _ _ Hnone) in Hin. congruence.
Qed.

Lemma filter_has_id_set_status booking_id status l :
  filter (SupabaseService.has_id booking_id)
         (map (SupabaseService.set_status_where_id booking_id status) l)
  = map (Booking.with_status status)
        (filter (SupabaseService.has_id booking_id) l).
Proof.
  induction l as [| b l IH]; [reflexivity |]. simpl.
  assert (Hid : SupabaseService.has_id booking_id
                  (SupabaseService.set_status_where_id booking_id status b)
                = SupabaseService.has_id booking_id b).
  { unfold SupabaseService.has_id. rewrite set_status_where_id_id.
    reflexivity. }
  rewrite Hid. destruct (SupabaseService.has_id booking_id b) eqn:E; simpl.
  - rewrite IH. f_equal.
    unfold SupabaseService.set_status_where_id. rewrite E. reflexivity.
  - exact IH.
Qed.

(** The run of the reconciliation up to the payment that the search
    finds, when the booking is there, not confirmed, and no paid session
    is known. *)
Lemma reconcile_reaches_update e booking_id w b pi results :
  db_script w = [] ->
  filter (SupabaseService.has_id booking_id) (bookings (db w)) = [b] ->
  Booking.status b <> "confirmed" ->
  STRIPE_AVAILABLE e = true ->
  (forall link_id sessions,
     Stripe.checkout_session_list (stripe e) link_id = Some sessions ->
     find BookingsApi.is_paid_session sessions = None) ->
  Stripe.payment_intent_search (stripe e) booking_id = Some results ->
  find BookingsApi.has_succeeded results = Some pi ->
  exists w4,
    db w4 = db w /\ tasks w4 = tasks w /\ db_script w4 = [] /\
    BookingsApi.reconcile_booking_payment e booking_id w
    = bind
        (try_except
           (SupabaseService.update_booking_status booking_id "confirmed" ;;;
            SupabaseService.update_payment_status
              booking_id "completed" (Some (Stripe.PaymentIntent.id pi))
              (Some (now e)) None ;;;
            booking <- SupabaseService.get_booking_by_id booking_id ;;
            fallback_email <- lift_result (BookingsApi.fallback_email_of pi) ;;
            create_task (SendBookingConfirmationEmail booking_id
                                                      fallback_email) ;;;
            ret booking)
           (fun exc =>
              raise (HTTPException 500
                ("Failed to update booking/payment: " ++ exn_str exc)%string)))
        (fun booking =>
           ret (BookingsApi.Confirmed booking (Stripe.PaymentIntent.id pi)))
        w4.
Proof.
  intros Hs Hunique Hst Hsdk Hnone Hsearch Hfind.
  unfold BookingsApi.reconcile_booking_payment.
  erewrite bind_ok.
  2:{ rewrite get_booking_by_id_no_fault by assumption.
      rewrite Hunique. reflexivity. }
  cbv beta iota. apply String.eqb_neq in Hst. rewrite Hst, Hsdk. simpl.
  erewrite bind_ok.
  2:{ apply get_payment_by_booking_no_fault. assumption. }
  cbv beta zeta.
  match goal with
  | |- context [BookingsApi.payment_intent_of_link e ?l] =>
      destruct (BookingsApi.payment_intent_of_link e l w) as [r3 w3] eqn:H3
  end.
  destruct (no_paid_session_no_intent _ _ _ _ _ Hnone H3)
    as (-> & Hd3 & Ht3 & Hs3).
  rewrite (bind_ok _ _ _ _ _ H3).
  assert (H4 : BookingsApi.retrieve_intent e None w3 = (Ok None, w3))
    by reflexivity.
  rewrite (bind_ok _ _ _ _ _ H4).
  set (w4 := mkWorld (db w3) (db_script w3)
                     (PaymentIntentSearch booking_id :: calls w3)
                     (tasks w3)).
  assert (H5 : BookingsApi.search_intent e booking_id w3 = (Ok (Some pi), w4)).
  { unfold BookingsApi.search_intent, try_except, bind, log_call.
    simpl. rewrite Hsearch. simpl. unfold ret. rewrite Hfind.
    reflexivity. }
  rewrite (bind_ok _ _ _ _ _ H5). cbv beta iota.
  exists w4. unfold w4. simpl.
  split; [exact Hd3 |]. split; [exact Ht3 |].
  split; [congruence | reflexivity].
Qed.

(** X14: the pull path confirms once.  When the booking is there and not
    confirmed, no paid session is known, the search finds a succeeded
    payment intent, the receipt address of that intent can be read (it
    has a receipt e-mail, or its list of charges is absent or not empty),
    and the database does not fail, the booking is confirmed, its payment
    records are completed with the identifier of the intent, one
    confirmation task is spawned for that address, and the answer carries
    the confirmed booking and the identifier.  A second call then
    returns at once, with the same booking, and changes nothing. *)
Theorem reconcile_confirms_once
        (e : env) (booking_id : string) (w : world) (b : Booking.t)
        (pi : Stripe.PaymentIntent.t) (results : list Stripe.PaymentIntent.t)
        (fallback_email : option string) :
  db_script w = [] ->
  filter (SupabaseService.has_id booking_id) (bookings (db w)) = [b] ->
  Booking.status b <> "confirmed" ->
  STRIPE_AVAILABLE e = true ->
  (forall link_id sessions,
     Stripe.checkout_session_list (stripe e) link_id = Some sessions ->
     find BookingsApi.is_paid_session sessions = None) ->
  Stripe.payment_intent_search (stripe e) booking_id = Some results ->
  find BookingsApi.has_succeeded results = Some pi ->
  BookingsApi.fallback_email_of pi = Ok fallback_email ->
  exists w',
    BookingsApi.reconcile_booking_payment e booking_id w
    = (Ok (BookingsApi.Confirmed
             (Some (Booking.with_status "confirmed" b))
             (Stripe.PaymentIntent.id pi)), w') /\
    (forall p, In p (payments (db w')) -> Payment.booking_id p = booking_id ->
               Payment.payment_status p = "completed" /\
               Payment.transaction_id p
               = (if String.eqb (Stripe.PaymentIntent.id pi) ""
                  then Payment.transaction_id p
                  else Some (Stripe.PaymentIntent.id pi))) /\
    tasks w' = SendBookingConfirmationEmail booking_id fallback_email
               :: tasks w /\
    BookingsApi.reconcile_booking_payment e booking_id w'
    = (Ok (BookingsApi.AlreadyConfirmed (Booking.with_status "confirmed" b)),
       w').
Proof.
  intros Hs Hunique Hst Hsdk Hnone Hsearch Hfind Hmail.
  destruct (reconcile_reaches_update _ _ _ _ _ _ Hs Hunique Hst Hsdk Hnone
              Hsearch Hfind) as (w4 & Hd4 & Ht4 & Hs4 & ->).
  unfold bind at 1, try_except, bind at 1.
  rewrite (update_booking_status_no_fault _ _ _ Hs4).
  unfold bind at 1.
  rewrite update_payment_status_no_fault by reflexivity.
  cbv zeta. unfold bind at 1.
  rewrite get_booking_by_id_no_fault by reflexivity.
  simpl. rewrite filter_has_id_set_status. rewrite Hd4, Hunique. simpl.
  unfold bind at 1, lift_result at 1. rewrite Hmail.
  unfold bind at 1, create_task, ret. simpl.
  eexists. split; [reflexivity |]. simpl.
  split; [| split; [rewrite Ht4; reflexivity |]].
  - intros p Hin Hid. apply in_map_iff in Hin as (p0 & Hp0 & _).
    subst p. unfold SupabaseService.for_booking in *.
    destruct (String.eqb (Payment.booking_id p0) booking_id) eqn:E.
    + simpl. split; [reflexivity |].
      destruct (String.eqb (Stripe.PaymentIntent.id pi) ""); reflexivity.
    + apply String.eqb_neq in E. contradiction.
  - unfold BookingsApi.reconcile_booking_payment.
    erewrite bind_ok.
    2:{ rewrite get_booking_by_id_no_fault by reflexivity. simpl.
        rewrite filter_has_id_set_status, Hunique. reflexivity. }
    reflexivity.
Qed.

(** X14, for the pending booking b1 and a provider that knows its
    payment. *)
Lemma reconcile_confirms_once_witness :
  exists w',
    BookingsApi.reconcile_booking_payment
      (Scenarios.env_paid Scenarios.paid_intent) "b1" Fixtures.pending_ledger
    = (Ok (BookingsApi.Confirmed
             (Some (Booking.with_status "confirmed" Fixtures.pending_booking))
             "pi_1"), w') /\
    BookingsApi.reconcile_booking_payment
      (Scenarios.env_paid Scenarios.paid_intent) "b1" w'
    = (Ok (BookingsApi.AlreadyConfirmed
             (Booking.with_status "confirmed" Fixtures.pending_booking)),
       w').
Proof.
  destruct (reconcile_confirms_once
              (Scenarios.env_paid Scenarios.paid_intent) "b1"
              Fixtures.pending_ledger Fixtures.pending_booking
              Scenarios.paid_intent [Scenarios.paid_intent]
              (Some "u1@example.com"))
    as (w' & Hrun & _ & _ & Hagain);
    try reflexivity; try discriminate.
  - intros link_id sessions Hl. inversion Hl. reflexivity.
  - exists w'. split; assumption.
Defined.

(** X15: a confirmation can be written without being announced.  In the
    situation of the pull path that confirms, when the payment intent
    that is found has no receipt address and an empty list of charges,
    looking up the address raises [IndexError] after the two updates:
    the answer is the error 500, yet the booking is confirmed and no
    confirmation task has been spawned; the next call returns at once,
    so the pull path never spawns the task for this booking. *)
Theorem reconcile_confirms_without_task
        (e : env) (booking_id : string) (w : world) (b : Booking.t)
        (pi : Stripe.PaymentIntent.t)
        (results : list Stripe.PaymentIntent.t) :
  db_script w = [] ->
  filter (SupabaseService.has_id booking_id) (bookings (db w)) = [b] ->
  Booking.status b <> "confirmed" ->
  STRIPE_AVAILABLE e = true ->
  (forall link_id sessions,
     Stripe.checkout_session_list (stripe e) link_id = Some sessions ->
     find BookingsApi.is_paid_session sessions = None) ->
  Stripe.payment_intent_search (stripe e) booking_id = Some results ->
  find BookingsApi.has_succeeded results = Some pi ->
  truthy_str (Stripe.PaymentIntent.receipt_email pi) = false ->
  Stripe.PaymentIntent.charges_data pi = Some [] ->
  exists w',
    BookingsApi.reconcile_booking_payment e booking_id w
    = (Raise (HTTPException 500
         "Failed to update booking/payment: list index out of range"), w')
    /\
    (forall b', In b' (bookings (db w')) -> Booking.id b' = booking_id ->
                Booking.status b' = "confirmed") /\
    tasks w' = tasks w /\
    BookingsApi.reconcile_booking_payment e booking_id w'
    = (Ok (BookingsApi.AlreadyConfirmed (Booking.with_status "confirmed" b)),
       w').
Proof.
  intros Hs Hunique Hst Hsdk Hnone Hsearch Hfind Hmail Hcharges.
  destruct (reconcile_reaches_update _ _ _ _ _ _ Hs Hunique Hst Hsdk Hnone
              Hsearch Hfind) as (w4 & Hd4 & Ht4 & Hs4 & ->).
  assert (Hraise : BookingsApi.fallback_email_of pi = Raise IndexError).
  { unfold BookingsApi.fallback_email_of. rewrite Hmail, Hcharges.
    reflexivity. }
  unfold bind at 1, try_except, bind at 1.
  rewrite (update_booking_status_no_fault _ _ _ Hs4).
  unfold bind at 1.
  rewrite update_payment_status_no_fault by reflexivity.
  cbv zeta. unfold bind at 1.
  rewrite get_booking_by_id_no_fault by reflexivity.
  simpl. rewrite filter_has_id_set_status. rewrite Hd4, Hunique. simpl.
  unfold bind at 1, lift_result at 1. rewrite Hraise.
  unfold raise. simpl.
  eexists. split; [reflexivity |]. simpl.
  split; [| split; [exact Ht4 |]].
  - intros b' Hin Hid. apply in_map_iff in Hin as (b0 & Hb0 & _).
    subst b'. rewrite set_status_where_id_id in Hid.
    unfold SupabaseService.set_status_where_id, SupabaseService.has_id.
    apply String.eqb_eq in Hid. rewrite Hid. reflexivity.
  - unfold BookingsApi.reconcile_booking_payment.
    erewrite bind_ok.
    2:{ rewrite get_booking_by_id_no_fault by reflexivity. simpl.
        rewrite filter_has_id_set_status, Hunique. reflexivity. }
    reflexivity.
Qed.

(** X15, for the pending booking b1 and a payment intent without
    charges. *)
Lemma reconcile_confirms_without_task_witness :
  exists w',
    BookingsApi.reconcile_booking_payment
      (Scenarios.env_paid Scenarios.paid_intent_without_charge) "b1"
      Fixtures.pending_ledger
    = (Raise (HTTPException 500
         "Failed to update booking/payment: list index out of range"), w')
    /\
    map Booking.status (bookings (db w')) = ["confirmed"] /\
    tasks w' = [].
Proof.
  destruct (reconcile_confirms_without_task
              (Scenarios.env_paid Scenarios.paid_intent_without_charge) "b1"
              Fixtures.pending_ledger Fixtures.pending_booking
              Scenarios.paid_intent_without_charge
              [Scenarios.paid_intent_without_charge])
    as (w' & Hrun & _ & Ht & _);
    try reflexivity; try discriminate.
  - intros link_id sessions Hl. inversion Hl. reflexivity.
  - exists w'. split; [exact Hrun |]. split; [| exact Ht].
    vm_compute in Hrun. inversion Hrun. reflexivity.
Defined.

(** X16: a failing search is an error of the gateway and writes nothing.
    When the booking is there and not confirmed, the provider holds no
    proof of a payment for this booking and its search raises, the answer
    is the error 502, and the tables and the tasks are what they were. *)
Theorem reconcile_search_failure
        (e : env) (booking_id : string) (w w1 w2 : world) (b : Booking.t)
        (pr : option Payment.t) :
  SupabaseService.get_booking_by_id booking_id w = (Ok (Some b), w1) ->
  Booking.status b <> "confirmed" ->
  STRIPE_AVAILABLE e = true ->
  SupabaseService.get_payment_by_booking booking_id w1 = (Ok pr, w2) ->
  Stripe.payment_intent_search (stripe e) booking_id = None ->
  ~ proven_payment e w booking_id ->
  exists w',
    BookingsApi.reconcile_booking_payment e booking_id w
    = (Raise (HTTPException 502 "Stripe search failed: StripeError"), w') /\
    db w' = db w /\ tasks w' = tasks w.
Proof.
  intros H1 Hst Hsdk H2 Hsearch Hnone.
  destruct (BookingsApi.reconcile_booking_payment e booking_id w)
    as [r w'] eqn:Hrun.
  exists w'.
  pose proof (reconcile_cases _ _ _ _ _ Hrun)
    as [(Hdb & Hts & _) | (Hproof & _)]; [| contradiction].
  split; [| split; assumption]. f_equal.
  unfold BookingsApi.reconcile_booking_payment in Hrun.
  rewrite (bind_ok _ _ _ _ _ H1) in Hrun.
  apply String.eqb_neq in Hst. rewrite Hst, Hsdk in Hrun. simpl in Hrun.
  rewrite (bind_ok _ _ _ _ _ H2) in Hrun.
  pose proof (get_payment_by_booking_reads _ _ _ _ H2) as Hpr.
  rewrite (proj1 (get_booking_by_id_untouched _ _ _ _ H1)) in Hpr.
  apply bind_inv in Hrun as [(pid & w3 & H3 & Hrun) | (x & H3 & _)];
    [pose proof (fun pid' (Hp : pid = Some pid') =>
       payment_intent_of_link_own e _ w2 pid' w3
         (eq_trans H3 (f_equal (fun o => (Ok o, w3)) Hp))) as Hown |];
    apply payment_intent_of_link_cases in H3 as (_ & o3 & Ho3 & Hlink);
    [| discriminate].
  inversion Ho3; subst o3; clear Ho3.
  apply bind_inv in Hrun as [(ci0 & w4 & H4 & Hrun) | (x & H4 & _)];
    apply retrieve_intent_cases in H4 as (_ & o4 & Ho4 & Hretr);
    [| discriminate].
  inversion Ho4; subst o4; clear Ho4.
  destruct ci0 as [pi |].
  { exfalso. apply Hnone. left.
    destruct (Hretr pi eq_refl) as (pid' & -> & Hr).
    destruct (Hown pid' eq_refl)
      as (link_id & sessions & s & Hl & Hne & Hlist & Hfind & Hpid).
    destruct (first_or_none
                (filter (SupabaseService.for_booking booking_id)
                        (payments (db w)))) as [p |] eqn:Hfirst;
      [| subst pr; discriminate].
    subst pr. exists p, link_id, sessions, s, pid', pi. auto 10. }
  apply bind_inv in Hrun as [(ci & w5 & H5 & Hrun) | (x & H5 & Hx)].
  - apply search_intent_cases in H5
      as (_ & [(detail & Hd & _) | (results & Hs & _)]); congruence.
  - subst r.
    unfold BookingsApi.search_intent, try_except, bind, log_call in H5.
    simpl in H5. rewrite Hsearch in H5. simpl in H5.
    unfold raise in H5. inversion H5. reflexivity.
Qed.

(** X16, for the pending booking b1 and a provider whose requests all
    fail. *)
Lemma reconcile_search_failure_witness :
  exists w',
    BookingsApi.reconcile_booking_payment
      (Fixtures.env_at (17 * Fixtures.hour) Fixtures.provider) "b1"
      Fixtures.pending_ledger
    = (Raise (HTTPException 502 "Stripe search failed: StripeError"), w') /\
    db w' = db Fixtures.pending_ledger.
Proof.
  destruct (reconcile_search_failure
              (Fixtures.env_at (17 * Fixtures.hour) Fixtures.provider) "b1"
              Fixtures.pending_ledger Fixtures.pending_ledger
              Fixtures.pending_ledger Fixtures.pending_booking
              (Some Fixtures.pending_payment))
    as (w' & Hrun & Hdb & _); try reflexivity; try discriminate.
  - intros [(p & link_id & sessions & s & pid & pi & Hp & Hl & _ & Hlist & _)
           | (results & pi & Hs & _)]; [| discriminate].
    simpl in Hp. inversion Hp; subst p. simpl in Hl.
    inversion Hl; subst link_id. discriminate.
  - exists w'. split; assumption.
Defined.

(** ** Looking a booking up: the 404 that is never sent *)

Lemma get_booking_by_id_never_none booking_id w r w' :
  SupabaseService.get_booking_by_id booking_id w = (r, w') ->
  r <> Ok None.
Proof.
  unfold SupabaseService.get_booking_by_id. intros H.
  apply execute_cases in H as (_ & _ & [(x & -> & _) | Hq]);
    [discriminate |].
  injection Hq as Hr _. rewrite Hr. unfold single.
  destruct (filter _ _) as [| b0 [| b1 l]]; discriminate.
Qed.

(** The exceptions a request can raise are those of the database
    client. *)
Lemma execute_attempts_raises {A} (q : query A) n w x w' :
  (forall d y, fst (q d) = Raise y -> y = APIError) ->
  SupabaseService.execute_attempts n q w = (Raise x, w') ->
  x = TimeoutError "Supabase request timed out" \/
  x = RemoteProtocolError \/ x = APIError.
Proof.
  intros Hq. revert w.
  assert (Hrun : forall w0, run_query q w0 = (Raise x, w') -> x = APIError).
  { intros w0. unfold run_query.
    destruct (q (db w0)) as [r0 d0] eqn:E. intros H. inversion H; subst.
    apply (Hq (db w0)). rewrite E. reflexivity. }
  induction n as [| n IH]; intros [d sc cs ts]; simpl;
    unfold bind at 1, next_db_outcome; simpl;
    (destruct sc as [| [] rest]; simpl; intros H;
     [ apply Hrun in H; auto
     | apply Hrun in H; auto
     | inversion H; auto
     | idtac
     | inversion H; auto ]).
  - inversion H; auto.
  - apply IH in H. exact H.
Qed.

Lemma get_booking_by_id_raises booking_id w x w' :
  SupabaseService.get_booking_by_id booking_id w = (Raise x, w') ->
  forall code detail, x <> HTTPException code detail.
Proof.
  unfold SupabaseService.get_booking_by_id, SupabaseService._execute.
  intros H code detail.
  apply execute_attempts_raises in H as [-> | [-> | ->]];
    try discriminate.
  intros d y. simpl. unfold single.
  destruct (filter _ _) as [| b0 [| b1 l]]; intros Hy; inversion Hy;
    reflexivity.
Qed.

Lemma get_payment_by_booking_raises booking_id w x w' :
  SupabaseService.get_payment_by_booking booking_id w = (Raise x, w') ->
  forall code detail, x <> HTTPException code detail.
Proof.
  unfold SupabaseService.get_payment_by_booking. intros H code detail.
  apply bind_inv in H as [(data & w1 & _ & H) | (y & H & Hy)];
    [inversion H |].
  inversion Hy; subst y.
  unfold SupabaseService._execute in H.
  apply execute_attempts_raises in H as [-> | [-> | ->]];
    try discriminate.
Qed.

(** X17: an unknown booking is not answered 404.  [get_booking_by_id]
    asks for a single row, so the request fails when no row has the
    identifier and never answers "no booking": no run of [get_booking]
    or of the reconciliation ends on the 404, and with no database fault
    an identifier that no booking has makes both raise the error of the
    database client, which the endpoint turns into 500. *)
Theorem unknown_booking_is_not_404
        (e : env) (booking_id : string) (w : world) :
  (forall r w' detail,
     BookingsApiExt.get_booking booking_id w = (r, w') ->
     r <> Raise (HTTPException 404 detail)) /\
  (forall r w' detail,
     BookingsApi.reconcile_booking_payment e booking_id w = (r, w') ->
     r <> Raise (HTTPException 404 detail)) /\
  (db_script w = [] ->
   (forall b, In b (bookings (db w)) -> Booking.id b <> booking_id) ->
   BookingsApiExt.get_booking booking_id w = (Raise APIError, w) /\
   BookingsApi.reconcile_booking_payment e booking_id w
   = (Raise APIError, w) /\
   http_status (fst (BookingsApiExt.get_booking booking_id w)) = 500).
Proof.
  split; [| split].
  - intros r w' detail H. unfold BookingsApiExt.get_booking in H.
    apply bind_inv in H as [(booking & w1 & H1 & H) | (x & H1 & ->)].
    + destruct booking as [b |].
      * inversion H. discriminate.
      * apply get_booking_by_id_never_none in H1. contradiction.
    + intros Hc. inversion Hc; subst x.
      exact (get_booking_by_id_raises _ _ _ _ H1 404 detail eq_refl).
  - intros r w' detail H.
    unfold BookingsApi.reconcile_booking_payment in H.
    apply bind_inv in H as [(booking & w1 & H1 & H) | (x & H1 & ->)].
    2:{ intros Hc. inversion Hc; subst x.
        exact (get_booking_by_id_raises _ _ _ _ H1 404 detail eq_refl). }
    destruct booking as [b |];
      [| apply get_booking_by_id_never_none in H1; contradiction].
    destruct (String.eqb (Booking.status b) "confirmed");
      [inversion H; discriminate |].
    destruct (negb (STRIPE_AVAILABLE e)); [inversion H; discriminate |].
    apply bind_inv in H as [(pr & w2 & H2 & H) | (x & H2 & ->)].
    2:{ intros Hc. inversion Hc; subst x.
        exact (get_payment_by_booking_raises _ _ _ _ H2 404 detail eq_refl). }
    apply bind_inv in H as [(pid & w3 & H3 & H) | (x & H3 & ->)];
      apply payment_intent_of_link_cases in H3 as (_ & o3 & Ho3 & _);
      [| discriminate].
    apply bind_inv in H as [(ci0 & w4 & H4 & H) | (x & H4 & ->)];
      apply retrieve_intent_cases in H4 as (_ & o4 & Ho4 & _);
      [| discriminate].
    apply bind_inv in H as [(ci & w5 & H5 & H) | (x & H5 & ->)].
    + destruct ci as [confirmed_intent |]; [| inversion H; discriminate].
      apply bind_inv in H as [(bk & w6 & _ & H) | (x & H6 & ->)];
        [inversion H; discriminate |].
      apply try_except_inv in H6 as [(a & _ & Ha) | (y & w6 & _ & Hh)];
        [discriminate |].
      inversion Hh. discriminate.
    + destruct ci0 as [pi |]; [inversion H5 |].
      apply search_intent_cases in H5
        as (_ & [(d502 & Hx & _) | (results & _ & Hr)]);
        [| discriminate].
      injection Hx as Hx. intros Hc. injection Hc as Hc. congruence.
  - intros Hs Hnone.
    assert (Hget : SupabaseService.get_booking_by_id booking_id w
                   = (Raise APIError, w)).
    { rewrite get_booking_by_id_no_fault by assumption.
      rewrite filter_none; [reflexivity |].
      intros b Hb. unfold SupabaseService.has_id.
      apply String.eqb_neq. apply Hnone. exact Hb. }
    assert (Hendpoint : BookingsApiExt.get_booking booking_id w
                        = (Raise APIError, w)).
    { unfold BookingsApiExt.get_booking.
      rewrite (bind_raise _ _ _ _ _ Hget). reflexivity. }
    split; [exact Hendpoint |]. split.
    + unfold BookingsApi.reconcile_booking_payment.
      rewrite (bind_raise _ _ _ _ _ Hget). reflexivity.
    + rewrite Hendpoint. reflexivity.
Qed.

(** X17, for an identifier that the pending ledger does not have. *)
Lemma unknown_booking_is_not_404_witness :
  BookingsApiExt.get_booking "b9" Fixtures.pending_ledger
  = (Raise APIError, Fixtures.pending_ledger).
Proof.
  apply (proj2 (proj2 (unknown_booking_is_not_404
                         (Scenarios.env_paid Scenarios.paid_intent) "b9"
                         Fixtures.pending_ledger))).
  - reflexivity.
  - intros b [<- | []]. discriminate.
Defined.

(* ================================================================== *)
(** ** The confirmation e-mail *)

Lemma get_booking_by_id_found booking_id w b w1 :
  SupabaseService.get_booking_by_id booking_id w = (Ok (Some b), w1) ->
  In b (bookings (db w)) /\ Booking.id b = booking_id.
Proof.
  unfold SupabaseService.get_booking_by_id. intros H.
  apply execute_cases in H as (_ & _ & [(x & Hx & _) | Hq]);
    [discriminate |].
  injection Hq as Hsingle _.
  destruct (filter (SupabaseService.has_id booking_id) (bookings (db w)))
    as [| b0 [| b1 l]] eqn:Hf; simpl in Hsingle; try discriminate.
  inversion Hsingle; subst b0.
  assert (Hin : In b (filter (SupabaseService.has_id booking_id)
                             (bookings (db w))))
    by (rewrite Hf; left; reflexivity).
  apply filter_In in Hin as (Hin & Hid).
  split; [exact Hin | apply String.eqb_eq; exact Hid].
Qed.

(** The profile request never raises: it answers a profile of the user,
    or nothing. *)
Lemma get_user_profile_cases profiles user_id w r w' :
  SupabaseServiceExt.get_user_profile profiles user_id w = (r, w') ->
  untouched w w' /\
  (r = Ok None \/
   exists p, r = Ok (Some p) /\ In p profiles /\ Profile.id p = user_id).
Proof.
  unfold SupabaseServiceExt.get_user_profile. intros H.
  assert (Hread : forall r0 w0,
            SupabaseService._execute
              (fun d : database =>
                 (single (filter (fun p => String.eqb (Profile.id p) user_id)
                                 profiles), d)) w = (r0, w0) ->
            untouched w w0).
  { intros r0 w0. apply untouched_read. intros d. reflexivity. }
  apply try_except_inv in H as [(a & H & ->) | (x & w1 & H & Hh)].
  - split; [eapply Hread; exact H |].
    apply execute_cases in H as (_ & _ & [(x & Hx & _) | Hq]);
      [discriminate |].
    injection Hq as Hsingle _.
    destruct (filter (fun p => String.eqb (Profile.id p) user_id) profiles)
      as [| p0 [| p1 l]] eqn:Hf; simpl in Hsingle; try discriminate.
    inversion Hsingle; subst a. right. exists p0.
    assert (Hin : In p0 (filter (fun p => String.eqb (Profile.id p) user_id)
                                profiles))
      by (rewrite Hf; left; reflexivity).
    apply filter_In in Hin as (Hin & Hid).
    split; [reflexivity |]. split; [exact Hin |].
    apply String.eqb_eq. exact Hid.
  - inversion Hh; subst. split; [eapply Hread; exact H | left; reflexivity].
Qed.

(** The look-up of the recipient at the provider talks to the provider
    only, and never raises. *)
Lemma recipient_from_stripe_cases e payment recipient w r w' :
  Notifications.recipient_from_stripe e payment recipient w = (r, w') ->
  provider_only w w' /\ exists x, r = Ok x.
Proof.
  unfold Notifications.recipient_from_stripe. intros H.
  assert (Hret : forall w0, ret recipient w0 = (r, w') ->
                   provider_only w0 w' /\ exists x, r = Ok x).
  { intros w0 H0. inversion H0; subst.
    split; [apply provider_only_refl | eexists; reflexivity]. }
  destruct payment as [p |]; [| apply Hret; exact H].
  destruct (negb (truthy_str recipient)
            && truthy_str (Payment.transaction_id p));
    [| apply Hret; exact H].
  destruct (Payment.transaction_id p) as [transaction_id |];
    [| apply Hret; exact H].
  assert (Hlog : forall u w1,
            log_call (PaymentIntentRetrieve transaction_id) w = (u, w1) ->
            provider_only w w1).
  { intros u w1. apply provider_only_log_call. }
  apply try_except_inv in H as [(a & H & ->) | (x & w1 & H & Hh)].
  - split; [| eexists; reflexivity].
    apply bind_inv in H as [(u & w1 & H1 & H) | (x & H1 & Hx)].
    + apply Hlog in H1.
      destruct (Stripe.payment_intent_retrieve (stripe e) transaction_id);
        [| inversion H].
      unfold lift_result in H.
      destruct (BookingsApi.fallback_email_of t); inversion H; subst.
      exact H1.
    + inversion H1.
  - inversion Hh; subst. split; [| eexists; reflexivity].
    apply bind_inv in H as [(u & w1 & H1 & H) | (x' & H1 & Hx)].
    + apply Hlog in H1.
      destruct (Stripe.payment_intent_retrieve (stripe e) transaction_id).
      * unfold lift_result in H.
        destruct (BookingsApi.fallback_email_of t); inversion H; subst.
        exact H1.
      * inversion H; subst. exact H1.
    + inversion H1.
Qed.

(** X18: no confirmation without a profile.  When no row of [profiles]
    has the identifier of the user of a booking, the confirmation of a
    booking is never handed to the mailer, whatever the fallback address
    and whatever the provider knows: the coroutine stops before, having
    written nothing and spawned nothing; and when a fallback address is
    given, a run that returns stops at the configuration, at the mark of
    a confirmation already sent, or on the [AttributeError] of the
    greeting. *)
Theorem confirmation_needs_profile
        (e : env) (m : Notifications.mailer) (booking_id : string)
        (fallback_email : option string) (w : world)
        (r : result Notifications.ending) (w' : world) :
  (forall p b, In p (Notifications.profiles m) -> In b (bookings (db w)) ->
               Profile.id p <> Booking.user_id b) ->
  Notifications.send_booking_confirmation_email
    e m booking_id fallback_email w = (r, w') ->
  (forall recipient, r <> Ok (Notifications.Sent recipient) /\
                     r <> Ok (Notifications.SendFailed recipient)) /\
  db w' = db w /\ tasks w' = tasks w /\
  (truthy_str fallback_email = true ->
   forall x, r = Ok x ->
     x = Notifications.NotConfigured \/ x = Notifications.SdkMissing \/
     x = Notifications.AlreadySent \/ x = Notifications.Died_AttributeError).
Proof.
  intros Hnone H.
  assert (Hend : forall x w0,
            db w0 = db w -> tasks w0 = tasks w ->
            (forall recipient, x <> Notifications.Sent recipient /\
                               x <> Notifications.SendFailed recipient) ->
            (truthy_str fallback_email = true ->
             x = Notifications.NotConfigured \/
             x = Notifications.SdkMissing \/
             x = Notifications.AlreadySent \/
             x = Notifications.Died_AttributeError) ->
            ret x w0 = (r, w') ->
            (forall recipient, r <> Ok (Notifications.Sent recipient) /\
                               r <> Ok (Notifications.SendFailed recipient))
            /\ db w' = db w /\ tasks w' = tasks w /\
            (truthy_str fallback_email = true ->
             forall x, r = Ok x ->
               x = Notifications.NotConfigured \/
               x = Notifications.SdkMissing \/
               x = Notifications.AlreadySent \/
               x = Notifications.Died_AttributeError)).
  { intros x w0 Hd Ht Hx Hfb H0. inversion H0; subst.
    split.
    - intros recipient. destruct (Hx recipient) as (Ha & Hb).
      split; intros Heq; inversion Heq; congruence.
    - split; [exact Hd |]. split; [exact Ht |].
      intros Hf y Hy. inversion Hy; subst. apply Hfb, Hf. }
  assert (Hdie : forall (x : exn) w0,
            db w0 = db w -> tasks w0 = tasks w ->
            (@Raise Notifications.ending x, w0) = (r, w') ->
            (forall recipient, r <> Ok (Notifications.Sent recipient) /\
                               r <> Ok (Notifications.SendFailed recipient))
            /\ db w' = db w /\ tasks w' = tasks w /\
            (truthy_str fallback_email = true ->
             forall x, r = Ok x ->
               x = Notifications.NotConfigured \/
               x = Notifications.SdkMissing \/
               x = Notifications.AlreadySent \/
               x = Notifications.Died_AttributeError)).
  { intros x w0 Hd Ht H0. inversion H0; subst.
    split; [intros recipient; split; discriminate |].
    split; [exact Hd |]. split; [exact Ht |].
    intros _ y Hy. discriminate. }
  unfold Notifications.send_booking_confirmation_email in H.
  destruct (String.eqb (Notifications.RESEND_API_KEY m) ""
            || String.eqb (Notifications.RESEND_FROM m) "").
  { eapply Hend; [| | | | exact H]; try reflexivity;
      [intros; split; discriminate | intros _; auto]. }
  destruct (negb (Notifications.RESEND_AVAILABLE m)).
  { eapply Hend; [| | | | exact H]; try reflexivity;
      [intros; split; discriminate | intros _; auto]. }
  apply bind_inv in H as [(booking & w1 & H1 & H) | (x & H1 & ->)].
  2:{ apply get_booking_by_id_untouched in H1 as (Hd & _ & Ht).
      eapply Hdie; [exact Hd | exact Ht | reflexivity]. }
  pose proof (get_booking_by_id_never_none _ _ _ _ H1) as Hsome.
  destruct booking as [b |]; [| exfalso; apply Hsome; reflexivity].
  pose proof (get_booking_by_id_found _ _ _ _ H1) as (Hin & _).
  apply get_booking_by_id_untouched in H1 as (Hd1 & _ & Ht1).
  apply bind_inv in H as [(payment & w2 & H2 & H) | (x & H2 & ->)].
  2:{ apply get_payment_by_booking_untouched in H2 as (Hd & _ & Ht).
      eapply Hdie; [| | reflexivity]; congruence. }
  apply get_payment_by_booking_untouched in H2 as (Hd2 & _ & Ht2).
  match type of H with
  | (if ?c then _ else _) _ = _ => destruct c
  end.
  { eapply Hend; [| | | | exact H]; try congruence;
      [intros; split; discriminate | intros _; auto]. }
  apply bind_inv in H as [(user_profile & w3 & H3 & H) | (x & H3 & ->)].
  2:{ apply get_user_profile_cases in H3 as (_ & [Hx | (p & Hx & _)]);
        discriminate. }
  apply get_user_profile_cases in H3
    as ((Hd3 & _ & Ht3) & [Hp | (p & Hp & Hinp & Hidp)]).
  2:{ exfalso. exact (Hnone p b Hinp Hin Hidp). }
  inversion Hp; subst user_profile. clear Hp.
  cbv beta iota zeta in H.
  replace (if truthy_str None then None else fallback_email)
    with fallback_email in H by reflexivity.
  apply bind_inv in H as [(recipient & w4 & H4 & H) | (x & H4 & ->)].
  2:{ apply recipient_from_stripe_cases in H4 as (_ & (y & Hy)).
      discriminate. }
  pose proof H4 as H4'.
  apply recipient_from_stripe_cases in H4' as ((Hd4 & Ht4 & _) & _).
  assert (Hfb : truthy_str fallback_email = true -> recipient = fallback_email).
  { intros Hf. unfold Notifications.recipient_from_stripe in H4.
    rewrite Hf in H4. simpl in H4.
    destruct payment; inversion H4; reflexivity. }
  destruct (negb (truthy_str recipient)) eqn:Hr.
  { eapply Hend; [| | | | exact H]; try congruence;
      [intros; split; discriminate |].
    intros Hf. rewrite (Hfb Hf), Hf in Hr. discriminate. }
  destruct recipient as [recipient |]; [| discriminate].
  eapply Hend; [| | | | exact H]; try congruence;
    [intros; split; discriminate | intros _; auto].
Qed.

(** X18, at a concrete call: the user of the paid booking has no profile
    and the caller gives an address; nothing is sent. *)
Lemma confirmation_needs_profile_witness :
  fst (Notifications.send_booking_confirmation_email
         (Scenarios.env_paid Scenarios.paid_intent)
         Scenarios.mailer_without_profile "b1" (Some "u1@example.com")
         Scenarios.paid_ledger)
  <> Ok (Notifications.Sent "u1@example.com").
Proof.
  destruct (Notifications.send_booking_confirmation_email
              (Scenarios.env_paid Scenarios.paid_intent)
              Scenarios.mailer_without_profile "b1" (Some "u1@example.com")
              Scenarios.paid_ledger) as [r w'] eqn:Hrun.
  destruct (confirmation_needs_profile
              (Scenarios.env_paid Scenarios.paid_intent)
              Scenarios.mailer_without_profile "b1" (Some "u1@example.com")
              Scenarios.paid_ledger r w'
              (fun p b Hp => match Hp with end) Hrun)
    as (Hnot & _).
  simpl. apply Hnot.
Defined.

Lemma bind_eq {A B} (c : M A) (k : A -> M B) w r w1 :
  c w = (r, w1) ->
  bind c k w = match r with
               | Ok a => k a w1
               | Raise x => (Raise x, w1)
               end.
Proof. unfold bind. intros ->. reflexivity. Qed.

Lemma first_or_none_firstn {A} (l : list A) :
  first_or_none (firstn 1 l) = first_or_none l.
Proof. destruct l; reflexivity. Qed.

Lemma get_user_profile_no_fault profiles user_id w :
  db_script w = [] ->
  SupabaseServiceExt.get_user_profile profiles user_id w
  = (Ok match single (filter (fun p => String.eqb (Profile.id p) user_id)
                             profiles) with
        | Ok x => x
        | Raise _ => None
        end, w).
Proof.
  intros Hs. unfold SupabaseServiceExt.get_user_profile, try_except.
  rewrite execute_no_fault by assumption. unfold run_query.
  destruct w as [d sc cs ts]. simpl in *. subst sc.
  destruct (single _) as [x | x]; reflexivity.
Qed.

(** What the look-up at the provider answers does not depend on the
    world it is made in. *)
Lemma recipient_from_stripe_fst e payment recipient w1 w2 :
  fst (Notifications.recipient_from_stripe e payment recipient w1)
  = fst (Notifications.recipient_from_stripe e payment recipient w2).
Proof.
  unfold Notifications.recipient_from_stripe.
  destruct payment as [p |]; [| reflexivity].
  destruct (negb (truthy_str recipient)
            && truthy_str (Payment.transaction_id p)); [| reflexivity].
  destruct (Payment.transaction_id p) as [transaction_id |];
    [| reflexivity].
  unfold try_except, bind, log_call.
  destruct (Stripe.payment_intent_retrieve (stripe e) transaction_id);
    [| reflexivity].
  unfold lift_result. destruct (BookingsApi.fallback_email_of t);
    reflexivity.
Qed.

(** Marking the record never raises. *)
Lemma mark_sent_total booking_id payment w :
  exists w', Notifications.mark_sent booking_id payment w = (Ok tt, w').
Proof.
  unfold Notifications.mark_sent. destruct payment as [p |];
    [| eexists; reflexivity].
  unfold try_except, bind.
  destruct (SupabaseService.update_payment_status _ _ _ _ _ w)
    as [[a | x] w1]; eexists; reflexivity.
Qed.

Lemma mark_sent_no_fault booking_id p w :
  db_script w = [] ->
  Notifications.mark_sent booking_id (Some p) w
  = let upd q :=
      if SupabaseService.for_booking booking_id q
      then SupabaseService.apply_payment_update
             (Payment.payment_status p) (Payment.transaction_id p) None
             (if truthy_str (Payment.receipt_url p)
              then Payment.receipt_url p else Some "email_sent") q
      else q in
    (Ok tt,
     mkWorld (set_payments (map upd (payments (db w))) (db w))
             [] (calls w) (tasks w)).
Proof.
  intros Hs. unfold Notifications.mark_sent, try_except, bind.
  rewrite update_payment_status_no_fault by assumption. reflexivity.
Qed.

(** An update of the payment records of a booking keeps which records
    are those of the booking, and their order. *)
Lemma first_after_update booking_id (f : Payment.t -> Payment.t) l :
  (forall q, Payment.booking_id (f q) = Payment.booking_id q) ->
  first_or_none
    (filter (SupabaseService.for_booking booking_id)
            (map (fun q => if SupabaseService.for_booking booking_id q
                           then f q else q) l))
  = option_map f
      (first_or_none (filter (SupabaseService.for_booking booking_id) l)).
Proof.
  intros Hf. induction l as [| q l IH]; [reflexivity |]. simpl.
  destruct (SupabaseService.for_booking booking_id q) eqn:Hq.
  - unfold SupabaseService.for_booking at 1. rewrite Hf.
    unfold SupabaseService.for_booking in Hq. rewrite Hq. reflexivity.
  - rewrite Hq. exact IH.
Qed.

(** With no database fault, what the confirmation ends on depends on the
    world through the bookings and the first payment record of the
    booking only. *)
Lemma send_result_congr e m booking_id fallback_email w1 w2 :
  db_script w1 = [] -> db_script w2 = [] ->
  bookings (db w1) = bookings (db w2) ->
  first_or_none (filter (SupabaseService.for_booking booking_id)
                        (payments (db w1)))
  = first_or_none (filter (SupabaseService.for_booking booking_id)
                          (payments (db w2))) ->
  fst (Notifications.send_booking_confirmation_email
         e m booking_id fallback_email w1)
  = fst (Notifications.send_booking_confirmation_email
           e m booking_id fallback_email w2).
Proof.
  intros Hs1 Hs2 Hb Hp.
  unfold Notifications.send_booking_confirmation_email.
  destruct (String.eqb (Notifications.RESEND_API_KEY m) ""
            || String.eqb (Notifications.RESEND_FROM m) "");
    [reflexivity |].
  destruct (negb (Notifications.RESEND_AVAILABLE m)); [reflexivity |].
  erewrite (bind_eq _ _ w1)
    by (apply get_booking_by_id_no_fault; assumption).
  erewrite (bind_eq _ _ w2)
    by (apply get_booking_by_id_no_fault; assumption).
  rewrite Hb.
  destruct (single _) as [[b |] | x]; try reflexivity.
  erewrite (bind_eq _ _ w1)
    by (apply get_payment_by_booking_no_fault; assumption).
  erewrite (bind_eq _ _ w2)
    by (apply get_payment_by_booking_no_fault; assumption).
  rewrite !first_or_none_firstn, Hp.
  set (payment := first_or_none _).
  match goal with
  | |- context [if ?c then ret Notifications.AlreadySent else _] =>
      destruct c; [reflexivity |]
  end.
  erewrite (bind_eq _ _ w1)
    by (apply get_user_profile_no_fault; assumption).
  erewrite (bind_eq _ _ w2)
    by (apply get_user_profile_no_fault; assumption).
  set (user_profile := match single _ with Ok x => x | Raise _ => None end).
  cbv beta iota zeta.
  set (recipient0 := if truthy_str _ then _ else fallback_email).
  pose proof (recipient_from_stripe_fst e payment recipient0 w1 w2) as Hr.
  destruct (Notifications.recipient_from_stripe e payment recipient0 w1)
    as [[rc1 | x1] w1'] eqn:H1;
    destruct (Notifications.recipient_from_stripe e payment recipient0 w2)
      as [[rc2 | x2] w2'] eqn:H2; simpl in Hr; inversion Hr; subst;
    rewrite (bind_eq _ _ _ _ _ H1), (bind_eq _ _ _ _ _ H2);
    [| reflexivity].
  destruct (negb (truthy_str rc2)); [reflexivity |].
  destruct rc2 as [recipient |]; [| reflexivity].
  destruct user_profile; [| reflexivity].
  destruct (negb (Notifications.accepts m recipient)); [reflexivity |].
  destruct (mark_sent_total booking_id payment w1') as (v1 & Hv1).
  destruct (mark_sent_total booking_id payment w2') as (v2 & Hv2).
  rewrite (bind_eq _ _ _ _ _ Hv1), (bind_eq _ _ _ _ _ Hv2).
  reflexivity.
Qed.

(** With no database fault, a confirmation that was handed to the mailer
    has left the bookings as they were and has updated the payment
    records of the booking from the first of them. *)
Lemma send_sent_effect e m booking_id fallback_email w recipient w' :
  db_script w = [] ->
  Notifications.send_booking_confirmation_email
    e m booking_id fallback_email w = (Ok (Notifications.Sent recipient), w')
  ->
  db_script w' = [] /\ bookings (db w') = bookings (db w) /\
  payments (db w')
  = match first_or_none (filter (SupabaseService.for_booking booking_id)
                                (payments (db w))) with
    | Some p =>
        map (fun q =>
               if SupabaseService.for_booking booking_id q
               then SupabaseService.apply_payment_update
                      (Payment.payment_status p) (Payment.transaction_id p)
                      None
                      (if truthy_str (Payment.receipt_url p)
                       then Payment.receipt_url p else Some "email_sent") q
               else q)
            (payments (db w))
    | None => payments (db w)
    end.
Proof.
  intros Hs H.
  unfold Notifications.send_booking_confirmation_email in H.
  destruct (String.eqb (Notifications.RESEND_API_KEY m) ""
            || String.eqb (Notifications.RESEND_FROM m) "");
    [inversion H |].
  destruct (negb (Notifications.RESEND_AVAILABLE m)); [inversion H |].
  unfold bind at 1 in H.
  rewrite get_booking_by_id_no_fault in H by assumption.
  destruct (single _) as [[b |] | x]; try (inversion H; fail).
  unfold bind at 1 in H.
  rewrite get_payment_by_booking_no_fault in H by assumption.
  rewrite first_or_none_firstn in H.
  set (payment := first_or_none _) in *.
  match type of H with
  | (if ?c then _ else _) _ = _ => destruct c; [inversion H |]
  end.
  unfold bind at 1 in H.
  rewrite get_user_profile_no_fault in H by assumption.
  cbv beta iota zeta in H.
  unfold bind at 1 in H.
  match type of H with
  | context [Notifications.recipient_from_stripe e payment ?rc w] =>
      destruct (Notifications.recipient_from_stripe e payment rc w)
        as [[rc1 | x1] w1] eqn:H1; [| inversion H]
  end.
  apply recipient_from_stripe_cases in H1 as ((Hd1 & _ & Hs1) & _).
  rewrite Hs in Hs1.
  destruct (negb (truthy_str rc1)); [inversion H |].
  destruct rc1 as [rc |]; [| inversion H].
  match type of H with
  | match ?up with Some _ => _ | None => _ end _ = _ =>
      destruct up; [| inversion H]
  end.
  destruct (negb (Notifications.accepts m rc)); [inversion H |].
  unfold bind in H.
  destruct payment as [p |].
  - rewrite mark_sent_no_fault in H by assumption.
    cbv beta iota zeta in H. inversion H; subst. simpl.
    rewrite Hd1. auto.
  - simpl in H. inversion H; subst. rewrite Hd1. auto.
Qed.

(** X19: the confirmation is sent once.  With no database fault, when
    the first payment record of the booking holds no receipt reference,
    a confirmation that was handed to the mailer has marked every
    payment record of the booking, and kept the bookings; any later
    confirmation of the booking then ends at the mark, sends nothing and
    changes nothing. *)
Theorem confirmation_sent_once
        (e : env) (m : Notifications.mailer) (booking_id : string)
        (fallback_email : option string) (w : world) (p : Payment.t)
        (recipient : string) (w' : world) :
  db_script w = [] ->
  first_or_none (filter (SupabaseService.for_booking booking_id)
                        (payments (db w))) = Some p ->
  truthy_str (Payment.receipt_url p) = false ->
  Notifications.send_booking_confirmation_email
    e m booking_id fallback_email w = (Ok (Notifications.Sent recipient), w')
  ->
  (forall q, In q (payments (db w')) -> Payment.booking_id q = booking_id ->
             Payment.receipt_url q = Some "email_sent") /\
  bookings (db w') = bookings (db w) /\
  forall fallback_email',
    Notifications.send_booking_confirmation_email
      e m booking_id fallback_email' w' = (Ok Notifications.AlreadySent, w').
Proof.
  intros Hs Hp Hreceipt H.
  pose proof (send_sent_effect _ _ _ _ _ _ _ Hs H) as (Hs' & Hb & Hpay).
  rewrite Hp, Hreceipt in Hpay.
  split; [| split; [exact Hb |]].
  - intros q Hq Hid. rewrite Hpay in Hq.
    apply in_map_iff in Hq as (q0 & Hq0 & _).
    destruct (SupabaseService.for_booking booking_id q0) eqn:Hfor.
    + subst q. reflexivity.
    + subst q. unfold SupabaseService.for_booking in Hfor.
      apply String.eqb_neq in Hfor. contradiction.
  - intros fallback_email'.
    unfold Notifications.send_booking_confirmation_email in H |- *.
    destruct (String.eqb (Notifications.RESEND_API_KEY m) ""
              || String.eqb (Notifications.RESEND_FROM m) "");
      [inversion H |].
    destruct (negb (Notifications.RESEND_AVAILABLE m)); [inversion H |].
    unfold bind at 1 in H. unfold bind at 1.
    rewrite get_booking_by_id_no_fault in H by assumption.
    rewrite get_booking_by_id_no_fault by assumption. rewrite Hb.
    destruct (single _) as [[b |] | x]; try (inversion H; fail).
    unfold bind at 1.
    rewrite get_payment_by_booking_no_fault by assumption.
    rewrite first_or_none_firstn, Hpay.
    rewrite first_after_update by reflexivity.
    rewrite Hp. reflexivity.
Qed.

(** X19, at a concrete call: the confirmation of the paid booking. *)
Lemma confirmation_sent_once_witness :
  exists w',
    Notifications.send_booking_confirmation_email
      (Scenarios.env_paid Scenarios.paid_intent) Scenarios.mailer_ok
      "b1" None Scenarios.paid_ledger
    = (Ok (Notifications.Sent "u1@example.com"), w') /\
    Notifications.send_booking_confirmation_email
      (Scenarios.env_paid Scenarios.paid_intent) Scenarios.mailer_ok
      "b1" None w'
    = (Ok Notifications.AlreadySent, w').
Proof.
  destruct (Notifications.send_booking_confirmation_email
              (Scenarios.env_paid Scenarios.paid_intent) Scenarios.mailer_ok
              "b1" None Scenarios.paid_ledger) as [r w'] eqn:Hrun.
  assert (Hr : r = Ok (Notifications.Sent "u1@example.com"))
    by (vm_compute in Hrun; inversion Hrun; reflexivity).
  subst r. exists w'. split; [reflexivity |].
  refine (proj2 (proj2 (confirmation_sent_once
            (Scenarios.env_paid Scenarios.paid_intent) Scenarios.mailer_ok
            "b1" None Scenarios.paid_ledger
            (Payment.mk "u1" "b1" 21%float "MYR" "completed" "stripe"
                        (Some "pi_1") (Some (17 * Fixtures.hour)) None)
            "u1@example.com" w' _ _ _ Hrun)) None); reflexivity.
Defined.

(** X20: without a payment record there is no mark.  With no database
    fault, when the booking has no payment record (its insertion is best
    effort), a confirmation that was handed to the mailer has left the
    bookings and the payment records as they were, so nothing says that
    it was sent: the next confirmation of the booking is handed to the
    mailer again, for the same recipient, and again leaves no mark. *)
Theorem confirmation_sent_again
        (e : env) (m : Notifications.mailer) (booking_id : string)
        (fallback_email : option string) (w : world)
        (recipient : string) (w' : world) :
  db_script w = [] ->
  filter (SupabaseService.for_booking booking_id) (payments (db w)) = [] ->
  Notifications.send_booking_confirmation_email
    e m booking_id fallback_email w = (Ok (Notifications.Sent recipient), w')
  ->
  bookings (db w') = bookings (db w) /\
  payments (db w') = payments (db w) /\
  exists w'',
    Notifications.send_booking_confirmation_email
      e m booking_id fallback_email w'
    = (Ok (Notifications.Sent recipient), w'') /\
    bookings (db w'') = bookings (db w) /\
    payments (db w'') = payments (db w).
Proof.
  intros Hs Hp H.
  pose proof (send_sent_effect _ _ _ _ _ _ _ Hs H) as (Hs' & Hb & Hpay).
  rewrite Hp in Hpay. simpl in Hpay.
  split; [exact Hb |]. split; [exact Hpay |].
  pose proof (send_result_congr e m booking_id fallback_email w' w
                Hs' Hs Hb) as Hsame.
  rewrite H in Hsame. simpl in Hsame.
  destruct (Notifications.send_booking_confirmation_email
              e m booking_id fallback_email w') as [r w''] eqn:Hagain.
  simpl in Hsame.
  assert (Hr : r = Ok (Notifications.Sent recipient))
    by (apply Hsame; rewrite Hpay; reflexivity).
  subst r. exists w''. split; [reflexivity |].
  pose proof (send_sent_effect _ _ _ _ _ _ _ Hs' Hagain)
    as (_ & Hb' & Hpay').
  rewrite Hpay, Hp in Hpay'. simpl in Hpay'.
  split; congruence.
Qed.

(** X20, at a concrete call: the booking is confirmed and has no payment
    record; the confirmation is sent at each call. *)
Lemma confirmation_sent_again_witness :
  exists w' w'',
    Notifications.send_booking_confirmation_email
      (Scenarios.env_paid Scenarios.paid_intent) Scenarios.mailer_ok
      "b1" None Scenarios.unrecorded_ledger
    = (Ok (Notifications.Sent "u1@example.com"), w') /\
    Notifications.send_booking_confirmation_email
      (Scenarios.env_paid Scenarios.paid_intent) Scenarios.mailer_ok
      "b1" None w'
    = (Ok (Notifications.Sent "u1@example.com"), w'').
Proof.
  destruct (Notifications.send_booking_confirmation_email
              (Scenarios.env_paid Scenarios.paid_intent) Scenarios.mailer_ok
              "b1" None Scenarios.unrecorded_ledger) as [r w'] eqn:Hrun.
  assert (Hr : r = Ok (Notifications.Sent "u1@example.com"))
    by (vm_compute in Hrun; inversion Hrun; reflexivity).
  subst r. exists w'.
  destruct (confirmation_sent_again
              (Scenarios.env_paid Scenarios.paid_intent) Scenarios.mailer_ok
              "b1" None Scenarios.unrecorded_ledger "u1@example.com" w'
              eq_refl eq_refl Hrun)
    as (_ & _ & w'' & Hagain & _).
  exists w''. split; [reflexivity | exact Hagain].
Defined.

(* ================================================================== *)
(** ** The check-in link *)

Lemma rstrip_slash_tail s :
  exists tail,
    s = (Notifications.rstrip_slash s ++ tail)%string /\
    forall c, In c (list_ascii_of_string tail) -> c = "/"%char.
Proof.
  induction s as [| c rest (tail & Hrest & Htail)].
  - exists EmptyString. split; [reflexivity | intros c []].
  - simpl. destruct (Notifications.rstrip_slash rest) as [| k kept] eqn:Hk.
    + simpl in Hrest. destruct (Ascii.eqb c "/") eqn:Hc.
      * apply Ascii.eqb_eq in Hc. exists (String c rest).
        split; [reflexivity |]. rewrite Hrest. simpl.
        intros c0 [<- | Hin]; [exact Hc | apply Htail; exact Hin].
      * exists rest. split; [reflexivity |]. rewrite Hrest. exact Htail.
    + exists tail. split; [| exact Htail].
      simpl. simpl in Hrest. rewrite <- Hrest. reflexivity.
Qed.

Lemma rstrip_slash_end s pre :
  Notifications.rstrip_slash s <> (pre ++ "/")%string.
Proof.
  revert pre. induction s as [| c rest IH]; intros pre.
  - simpl. destruct pre; discriminate.
  - simpl. destruct (Notifications.rstrip_slash rest) as [| k kept] eqn:Hk.
    + destruct (Ascii.eqb c "/") eqn:Hc.
      * destruct pre; discriminate.
      * apply Ascii.eqb_neq in Hc.
        destruct pre as [| p pre]; simpl; intros H; inversion H.
        -- contradiction.
        -- destruct pre; discriminate.
    + destruct pre as [| p pre]; simpl; intros H; inversion H.
      exact (IH pre H2).
Qed.

(** X21: the check-in link has one slash between the address of the
    front end and its path.  The address is the base of the link
    followed by slashes only, the base does not end with a slash, and
    the link is the base, then [/checkin/], then the identifier of the
    booking. *)
Theorem checkin_url_single_slash (s : Settings) (booking_id : string) :
  exists base tail,
    FRONTEND_URL s = (base ++ tail)%string /\
    (forall c, In c (list_ascii_of_string tail) -> c = "/"%char) /\
    (forall pre, base <> (pre ++ "/")%string) /\
    Notifications._build_checkin_url s booking_id
    = (base ++ "/checkin/" ++ booking_id)%string.
Proof.
  destruct (rstrip_slash_tail (FRONTEND_URL s)) as (tail & Hs & Htail).
  exists (Notifications.rstrip_slash (FRONTEND_URL s)), tail.
  split; [exact Hs |]. split; [exact Htail |].
  split; [apply rstrip_slash_end | reflexivity].
Qed.

(* ================================================================== *)
(** ** The bookings of a user *)

Lemma insert_by_start_time_In b x rows :
  In x (SupabaseServiceExt.insert_by_start_time b rows) <->
  x = b \/ In x rows.
Proof.
  induction rows as [| y rows IH]; simpl.
  - split; intros [H | H]; auto; contradiction.
  - destruct (Booking.start_time b <=? Booking.start_time y); simpl.
    + split; intros [H | H]; auto.
    + rewrite IH. split; intros [H | [H | H]]; auto.
Qed.

Lemma order_by_start_time_In x rows :
  In x (SupabaseServiceExt.order_by_start_time rows) <-> In x rows.
Proof.
  unfold SupabaseServiceExt.order_by_start_time.
  induction rows as [| y rows IH]; simpl; [reflexivity |].
  rewrite insert_by_start_time_In, IH.
  split; intros [H | H]; auto.
Qed.

Lemma insert_by_start_time_length b rows :
  List.length (SupabaseServiceExt.insert_by_start_time b rows)
  = S (List.length rows).
Proof.
  induction rows as [| y rows IH]; simpl; [reflexivity |].
  destruct (Booking.start_time b <=? Booking.start_time y); simpl;
    [reflexivity | rewrite IH; reflexivity].
Qed.

Lemma order_by_start_time_length rows :
  List.length (SupabaseServiceExt.order_by_start_time rows)
  = List.length rows.
Proof.
  unfold SupabaseServiceExt.order_by_start_time.
  induction rows as [| y rows IH]; simpl; [reflexivity |].
  rewrite insert_by_start_time_length, IH. reflexivity.
Qed.

Lemma insert_by_start_time_sorted b rows :
  Sorted.StronglySorted
    (fun x y => Booking.start_time x <= Booking.start_time y) rows ->
  Sorted.StronglySorted
    (fun x y => Booking.start_time x <= Booking.start_time y)
    (SupabaseServiceExt.insert_by_start_time b rows).
Proof.
  induction rows as [| y rows IH]; intros Hs; simpl.
  - constructor; constructor.
  - inversion Hs as [| ? ? Hrest Hall]; subst.
    destruct (Booking.start_time b <=? Booking.start_time y) eqn:Hle.
    + apply Z.leb_le in Hle. constructor; [exact Hs |].
      constructor; [exact Hle |].
      rewrite Forall_forall in Hall |- *. intros z Hz.
      specialize (Hall z Hz). lia.
    + apply Z.leb_gt in Hle. constructor; [apply IH; exact Hrest |].
      rewrite Forall_forall in Hall |- *. intros z Hz.
      apply insert_by_start_time_In in Hz as [-> | Hz];
        [lia | apply Hall; exact Hz].
Qed.

Lemma order_by_start_time_sorted rows :
  Sorted.StronglySorted
    (fun x y => Booking.start_time x <= Booking.start_time y)
    (SupabaseServiceExt.order_by_start_time rows).
Proof.
  unfold SupabaseServiceExt.order_by_start_time.
  induction rows as [| y rows IH]; simpl; [constructor |].
  apply insert_by_start_time_sorted, IH.
Qed.

Lemma strongly_sorted_apart (rows l1 l2 l3 : list Booking.t) x y :
  Sorted.StronglySorted
    (fun x y => Booking.start_time x <= Booking.start_time y) rows ->
  rows = l1 ++ x :: l2 ++ y :: l3 ->
  Booking.start_time x <= Booking.start_time y.
Proof.
  intros Hs. revert l1. induction Hs as [| a l Hs IH Hall]; intros l1 Heq.
  - destruct l1; discriminate.
  - destruct l1 as [| a1 l1]; simpl in Heq; inversion Heq; subst.
    + rewrite Forall_forall in Hall. apply Hall.
      apply in_or_app. right. left. reflexivity.
    + eapply IH. reflexivity.
Qed.

(** X22: the listing of the bookings of a user.  A listing that is
    answered holds the bookings of the table that are the user's, have
    the status asked for when one is given (an empty status asks for
    none), and start at the reading of the clock or later when only the
    coming ones are asked for; it holds as many rows as the table has
    such bookings, in ascending order of their start; and the request
    changes nothing. *)
Theorem user_bookings_listing
        (now : datetime) (user_id : string) (status : option string)
        (upcoming_only : bool) (w : world)
        (rows : list Booking.t) (w' : world) :
  SupabaseServiceExt.get_user_bookings now user_id status upcoming_only w
  = (Ok rows, w') ->
  untouched w w' /\
  (forall b,
     In b rows <->
     In b (bookings (db w)) /\
     Booking.user_id b = user_id /\
     (forall s, status = Some s -> s <> "" -> Booking.status b = s) /\
     (upcoming_only = true -> now <= Booking.start_time b)) /\
  List.length rows
  = List.length
      (filter (SupabaseServiceExt.of_user now user_id status upcoming_only)
              (bookings (db w))) /\
  (forall l1 x l2 y l3,
     rows = l1 ++ x :: l2 ++ y :: l3 ->
     Booking.start_time x <= Booking.start_time y).
Proof.
  unfold SupabaseServiceExt.get_user_bookings. intros H.
  split.
  { revert H. apply untouched_read. intros d. reflexivity. }
  apply execute_cases in H as (_ & _ & [(x & Hx & _) | Hq]);
    [discriminate |].
  injection Hq as Hrows _. subst rows.
  split; [| split].
  - intros b. rewrite order_by_start_time_In, filter_In.
    unfold SupabaseServiceExt.of_user.
    rewrite !andb_true_iff, String.eqb_eq.
    split.
    + intros (Hin & (Huser & Hstatus) & Hup).
      split; [exact Hin |]. split; [exact Huser |]. split.
      * intros s -> Hs. simpl in Hstatus.
        apply String.eqb_neq in Hs. rewrite Hs in Hstatus. simpl in Hstatus.
        apply String.eqb_eq. exact Hstatus.
      * intros ->. apply Z.geb_le in Hup. exact Hup.
    + intros (Hin & Huser & Hstatus & Hup).
      split; [exact Hin |]. split; [split; [exact Huser |] |].
      * destruct status as [s |]; simpl; [| reflexivity].
        destruct (String.eqb s "") eqn:Hs; simpl; [reflexivity |].
        apply String.eqb_eq. apply Hstatus; [reflexivity |].
        apply String.eqb_neq. exact Hs.
      * destruct upcoming_only; [| reflexivity].
        apply Z.geb_le. apply Hup. reflexivity.
  - apply order_by_start_time_length.
  - intros l1 x l2 y l3.
    apply strongly_sorted_apart, order_by_start_time_sorted.
Qed.

(** X22, at a concrete call: the coming bookings of user u1 at 13:00. *)
Lemma user_bookings_listing_witness :
  exists rows w',
    SupabaseServiceExt.get_user_bookings
      (13 * Fixtures.hour) "u1" (Some "") true Scenarios.busy_day
    = (Ok rows, w') /\
    (In Fixtures.pending_booking rows <->
     In Fixtures.pending_booking (bookings (db Scenarios.busy_day)) /\
     Booking.user_id Fixtures.pending_booking = "u1" /\
     (forall s, Some "" = Some s -> s <> "" ->
                Booking.status Fixtures.pending_booking = s) /\
     (true = true -> 13 * Fixtures.hour
                     <= Booking.start_time Fixtures.pending_booking)).
Proof.
  destruct (SupabaseServiceExt.get_user_bookings
              (13 * Fixtures.hour) "u1" (Some "") true Scenarios.busy_day)
    as [r w'] eqn:Hrun.
  assert (Hr : exists rows, r = Ok rows)
    by (vm_compute in Hrun; inversion Hrun; eexists; reflexivity).
  destruct Hr as (rows & ->). exists rows, w'.
  split; [reflexivity |].
  exact (proj1 (proj2 (user_bookings_listing
                         (13 * Fixtures.hour) "u1" (Some "") true
                         Scenarios.busy_day rows w' Hrun))
               Fixtures.pending_booking).
Defined.

(* ================================================================== *)
(** ** The free hours of a day *)

Lemma hour_us_value : AvailabilityTool.hour_us = 3600000000.
Proof. reflexivity. Qed.

(** The loop over one booking: with enough turns left it stops on its
    test, and has added the hours of the instants [current],
    [current + 1h], ... that are before the end. *)
Lemma booked_hours_loop_In turns current end_time booked_hours h :
  end_time - current < Z.of_nat turns * AvailabilityTool.hour_us ->
  In h (AvailabilityTool.booked_hours_loop turns current end_time
                                           booked_hours) <->
  In h booked_hours \/
  exists k, 0 <= k /\
            current + k * AvailabilityTool.hour_us < end_time /\
            h = AvailabilityTool.hour_of
                  (current + k * AvailabilityTool.hour_us).
Proof.
  rewrite hour_us_value.
  revert current booked_hours.
  induction turns as [| turns IH]; intros current booked_hours Hfuel.
  - simpl. split; [auto |]. intros [H | (k & Hk & Hlt & _)]; [exact H |].
    exfalso. simpl in Hfuel. lia.
  - simpl. destruct (current <? end_time) eqn:Htest.
    + apply Z.ltb_lt in Htest. rewrite hour_us_value.
      rewrite IH by lia. simpl. split.
      * intros [[<- | H] | (k & Hk & Hlt & ->)]; [| auto |].
        -- right. exists 0. rewrite Z.mul_0_l, Z.add_0_r.
           split; [lia |]. split; [exact Htest | reflexivity].
        -- right. exists (k + 1). split; [lia |].
           replace (current + (k + 1) * 3600000000)
             with (current + 3600000000 + k * 3600000000) by lia.
           split; [exact Hlt | reflexivity].
      * intros [H | (k & Hk & Hlt & ->)]; [auto |].
        destruct (Z.eq_dec k 0) as [-> | Hk0].
        -- left. left. rewrite Z.mul_0_l, Z.add_0_r. reflexivity.
        -- right. exists (k - 1). split; [lia |].
           replace (current + 3600000000 + (k - 1) * 3600000000)
             with (current + k * 3600000000) by lia.
           split; [exact Hlt | reflexivity].
    + apply Z.ltb_ge in Htest. split; [auto |].
      intros [H | (k & Hk & Hlt & _)]; [exact H |]. exfalso. nia.
Qed.

(** The turns given to the loop are enough. *)
Lemma turns_for_enough start_time end_time :
  end_time - start_time
  < Z.of_nat (AvailabilityTool.turns_for start_time end_time)
    * AvailabilityTool.hour_us.
Proof.
  unfold AvailabilityTool.turns_for. rewrite hour_us_value.
  pose proof (Z.div_mod (end_time - start_time) 3600000000 ltac:(lia)) as Hd.
  pose proof (Z.mod_pos_bound (end_time - start_time) 3600000000
                ltac:(lia)) as Hm.
  destruct (Z_lt_le_dec ((end_time - start_time) / 3600000000 + 1) 0)
    as [Hneg | Hpos].
  - destruct ((end_time - start_time) / 3600000000 + 1) eqn:Hq;
      lia.
  - rewrite Z2Nat.id by lia. lia.
Qed.

Lemma booked_hours_fold_In bookings booked_hours h :
  In h (fold_left
          (fun booked_hours b =>
             AvailabilityTool.booked_hours_loop
               (AvailabilityTool.turns_for (Booking.start_time b)
                                           (Booking.end_time b))
               (Booking.start_time b) (Booking.end_time b) booked_hours)
          bookings booked_hours) <->
  In h booked_hours \/
  exists b k, In b bookings /\ 0 <= k /\
              Booking.start_time b + k * AvailabilityTool.hour_us
              < Booking.end_time b /\
              h = AvailabilityTool.hour_of
                    (Booking.start_time b + k * AvailabilityTool.hour_us).
Proof.
  revert booked_hours.
  induction bookings as [| b bookings IH]; intros booked_hours; simpl.
  - split; [auto |]. intros [H | (b & k & [] & _)]. exact H.
  - rewrite IH. rewrite booked_hours_loop_In by apply turns_for_enough.
    split.
    + intros [[H | (k & Hk & Hlt & Hh)] | (b' & k & Hin & Hk & Hlt & Hh)].
      * auto.
      * right. exists b, k. auto.
      * right. exists b', k. auto.
    + intros [H | (b' & k & [<- | Hin] & Hk & Hlt & Hh)].
      * auto.
      * left. right. exists k. auto.
      * right. exists b', k. auto.
Qed.

Lemma booked_hours_of_In bookings h :
  In h (AvailabilityTool.booked_hours_of bookings) <->
  exists b k, In b bookings /\ 0 <= k /\
              Booking.start_time b + k * AvailabilityTool.hour_us
              < Booking.end_time b /\
              h = AvailabilityTool.hour_of
                    (Booking.start_time b + k * AvailabilityTool.hour_us).
Proof.
  unfold AvailabilityTool.booked_hours_of. rewrite booked_hours_fold_In.
  split; [intros [[] | H]; exact H | auto].
Qed.

Lemma business_hours_In h :
  In h AvailabilityTool.business_hours <-> 8 <= h < 22.
Proof.
  change AvailabilityTool.business_hours
    with [8; 9; 10; 11; 12; 13; 14; 15; 16; 17; 18; 19; 20; 21].
  simpl. lia.
Qed.

Lemma available_slots_In booked_hours h h' :
  In (h, h') (AvailabilityTool.available_slots booked_hours) <->
  8 <= h < 22 /\ h' = h + 1 /\ ~ In h booked_hours.
Proof.
  unfold AvailabilityTool.available_slots.
  rewrite in_map_iff. split.
  - intros (x & Hx & Hin). inversion Hx; subst.
    apply filter_In in Hin as (Hin & Hfree).
    apply business_hours_In in Hin.
    split; [exact Hin |]. split; [reflexivity |].
    intros Hb. apply negb_true_iff in Hfree.
    assert (Hex : existsb (Z.eqb h) booked_hours = true).
    { apply existsb_exists. exists h. split; [exact Hb | apply Z.eqb_refl]. }
    congruence.
  - intros (Hh & -> & Hfree). exists h. split; [reflexivity |].
    apply filter_In. split; [apply business_hours_In; exact Hh |].
    apply negb_true_iff. destruct (existsb (Z.eqb h) booked_hours) eqn:Hex;
      [| reflexivity].
    apply existsb_exists in Hex as (x & Hx & Heq).
    apply Z.eqb_eq in Heq. subst x. contradiction.
Qed.

Lemma available_slots_length booked_hours :
  (List.length (AvailabilityTool.available_slots booked_hours) <= 14)%nat.
Proof.
  unfold AvailabilityTool.available_slots. rewrite length_map.
  etransitivity; [apply filter_length_le |]. reflexivity.
Qed.

Lemma get_bookings_for_space_cases space_id start_date end_date w r w' :
  SupabaseServiceExt.get_bookings_for_space space_id start_date end_date w
  = (r, w') ->
  untouched w w' /\
  ((exists x, r = Raise x) \/
   r = Ok (filter (SupabaseServiceExt.within space_id start_date end_date)
                  (bookings (db w)))).
Proof.
  unfold SupabaseServiceExt.get_bookings_for_space. intros H.
  split.
  { revert H. apply untouched_read. intros d. reflexivity. }
  apply execute_cases in H as (_ & _ & [(x & Hx & _) | Hq]).
  - left. exists x. exact Hx.
  - right. injection Hq as Hr _. exact Hr.
Qed.

(** The answers of the tool: a date that does not parse is answered by
    the message of the parser, without a request to the database; else
    the space is asked for, and then the bookings of the day. *)
Lemma get_available_time_slots_cases parse_date space_id date w r w' :
  AvailabilityTool.get_available_time_slots parse_date space_id date w
  = (r, w') ->
  untouched w w' /\
  ((exists msg, parse_date date = inl msg /\
                r = Ok (AvailabilityTool.Error msg) /\ w' = w) \/
   (exists booking_date x, parse_date date = inr booking_date /\
                           r = Raise x) \/
   (exists booking_date space,
      parse_date date = inr booking_date /\
      In space (spaces (db w)) /\ Space.id space = space_id /\
      let available :=
        AvailabilityTool.available_slots
          (AvailabilityTool.booked_hours_of
             (filter (SupabaseServiceExt.within space_id
                        (AvailabilityTool.replace_hms booking_date 0 0 0)
                        (AvailabilityTool.replace_hms booking_date 23 59 59))
                     (bookings (db w)))) in
      r = Ok (AvailabilityTool.Available
                (AvailabilityTool.mkSlots space_id (Space.name space)
                   booking_date available (List.length available))))).
Proof.
  unfold AvailabilityTool.get_available_time_slots. intros H.
  destruct (parse_date date) as [msg | booking_date] eqn:Hparse.
  { inversion H; subst. split; [apply untouched_refl |].
    left. exists msg. auto. }
  apply bind_inv in H as [(space & w1 & H1 & H) | (x & H1 & ->)].
  2:{ apply get_space_by_id_untouched in H1. split; [exact H1 |].
      right. left. exists booking_date, x. auto. }
  pose proof (get_space_by_id_untouched _ _ _ _ H1) as Hu1.
  assert (Hspace : exists s, space = Some s /\ In s (spaces (db w)) /\
                             Space.id s = space_id).
  { unfold SupabaseService.get_space_by_id in H1.
    apply execute_cases in H1 as (_ & _ & [(x & Hx & _) | Hq]);
      [discriminate |].
    injection Hq as Hsingle _.
    destruct (filter (fun s => String.eqb (Space.id s) space_id)
                     (spaces (db w))) as [| s0 [| s1 l]] eqn:Hf;
      simpl in Hsingle; try discriminate.
    inversion Hsingle; subst space. exists s0.
    assert (Hin : In s0 (filter (fun s => String.eqb (Space.id s) space_id)
                                (spaces (db w))))
      by (rewrite Hf; left; reflexivity).
    apply filter_In in Hin as (Hin & Hid).
    split; [reflexivity |]. split; [exact Hin |].
    apply String.eqb_eq. exact Hid. }
  destruct Hspace as (s & -> & Hin & Hid).
  apply bind_inv in H as [(bookings & w2 & H2 & H) | (x & H2 & ->)];
    apply get_bookings_for_space_cases in H2 as (Hu2 & Hr2).
  2:{ split; [eapply untouched_trans; eassumption |].
      right. left. exists booking_date, x. auto. }
  destruct Hr2 as [(x & Hx) | Hr2]; [discriminate |].
  inversion Hr2; subst bookings. clear Hr2.
  unfold ret in H. injection H as Hr Hw. subst r w'.
  split; [eapply untouched_trans; eassumption |].
  right. right. exists booking_date, s.
  destruct Hu1 as (Hd1 & _). rewrite Hd1.
  split; [reflexivity |]. split; [exact Hin |]. split; [exact Hid |].
  reflexivity.
Qed.

(** X23: the hours that are offered.  When the tool answers the slots of
    a day, the slot of hour [h] is offered exactly when [h] is a business
    hour (8 to 21) and no booking of the space that is not cancelled and
    lies within the day (from 0:00:00 to 23:59:59) has one of the
    instants start, start + 1h, start + 2h, ... before its end in that
    hour of the clock.  The count that is answered is the number of
    slots, at most 14, the space is one of the table, and nothing has
    changed. *)
Theorem slot_offered_iff
        (parse_date : string -> string + datetime)
        (space_id date : string) (w : world)
        (s : AvailabilityTool.slots) (w' : world) :
  AvailabilityTool.get_available_time_slots parse_date space_id date w
  = (Ok (AvailabilityTool.Available s), w') ->
  exists booking_date,
    parse_date date = inr booking_date /\
    AvailabilityTool.date s = booking_date /\
    untouched w w' /\
    (exists space, In space (spaces (db w)) /\ Space.id space = space_id /\
                   AvailabilityTool.space_name s = Space.name space) /\
    AvailabilityTool.total_available s
    = List.length (AvailabilityTool.slot_list s) /\
    (AvailabilityTool.total_available s <= 14)%nat /\
    forall h h',
      In (h, h') (AvailabilityTool.slot_list s) <->
      8 <= h <= 21 /\ h' = h + 1 /\
      ~ exists b k,
          In b (bookings (db w)) /\
          Booking.space_id b = space_id /\
          Booking.status b <> "cancelled" /\
          AvailabilityTool.replace_hms booking_date 0 0 0
          <= Booking.start_time b /\
          Booking.end_time b
          <= AvailabilityTool.replace_hms booking_date 23 59 59 /\
          0 <= k /\
          Booking.start_time b + k * AvailabilityTool.hour_us
          < Booking.end_time b /\
          AvailabilityTool.hour_of
            (Booking.start_time b + k * AvailabilityTool.hour_us) = h.
Proof.
  intros H.
  apply get_available_time_slots_cases in H
    as (Hu & [(msg & _ & Hr & _)
             | [(d & x & _ & Hr)
               | (booking_date & space & Hparse & Hin & Hid & Hr)]]);
    try discriminate.
  cbv zeta in Hr. inversion Hr; subst s. clear Hr. simpl.
  exists booking_date.
  split; [exact Hparse |]. split; [reflexivity |]. split; [exact Hu |].
  split; [exists space; auto |].
  split; [reflexivity |].
  split; [apply available_slots_length |].
  intros h h'. rewrite available_slots_In, booked_hours_of_In.
  assert (Hwithin : forall b,
            In b (filter (SupabaseServiceExt.within space_id
                            (AvailabilityTool.replace_hms booking_date 0 0 0)
                            (AvailabilityTool.replace_hms booking_date
                                                          23 59 59))
                         (bookings (db w))) <->
            In b (bookings (db w)) /\
            Booking.space_id b = space_id /\
            Booking.status b <> "cancelled" /\
            AvailabilityTool.replace_hms booking_date 0 0 0
            <= Booking.start_time b /\
            Booking.end_time b
            <= AvailabilityTool.replace_hms booking_date 23 59 59).
  { intros b. rewrite filter_In. unfold SupabaseServiceExt.within.
    rewrite !andb_true_iff, negb_true_iff, String.eqb_eq, String.eqb_neq.
    rewrite Z.geb_le, Z.leb_le. tauto. }
  split.
  - intros (Hh & -> & Hfree). split; [lia |]. split; [reflexivity |].
    intros (b & k & Hb & Hsp & Hst & Hlo & Hhi & Hk & Hlt & Hhour).
    apply Hfree. exists b, k. rewrite Hwithin. auto 10.
  - intros (Hh & -> & Hfree). split; [lia |]. split; [reflexivity |].
    intros (b & k & Hb & Hk & Hlt & Hhour). apply Hfree.
    apply Hwithin in Hb as (Hb & Hsp & Hst & Hlo & Hhi).
    exists b, k. auto 10.
Qed.

(** X23, at a concrete call: on the day of the room, booked from 14:00
    to 16:00 and from 9:30 to 10:30, the slot 10:00 to 11:00 is offered
    and the slot 9:00 to 10:00 is not. *)
Lemma slot_offered_iff_witness :
  exists s w',
    AvailabilityTool.get_available_time_slots
      Scenarios.parse_day "s1" "1970-01-01" Scenarios.busy_day
    = (Ok (AvailabilityTool.Available s), w') /\
    In (10, 11) (AvailabilityTool.slot_list s) /\
    ~ In (9, 10) (AvailabilityTool.slot_list s) /\
    AvailabilityTool.total_available s = 11%nat.
Proof.
  destruct (AvailabilityTool.get_available_time_slots
              Scenarios.parse_day "s1" "1970-01-01" Scenarios.busy_day)
    as [r w'] eqn:Hrun.
  assert (Hr : exists s, r = Ok (AvailabilityTool.Available s) /\
                         AvailabilityTool.total_available s = 11%nat /\
                         In (10, 11) (AvailabilityTool.slot_list s))
    by (vm_compute in Hrun; inversion Hrun; eexists;
        split; [reflexivity |]; split; [reflexivity |];
        right; left; reflexivity).
  destruct Hr as (s & -> & Htotal & Hten). exists s, w'.
  split; [reflexivity |].
  destruct (slot_offered_iff Scenarios.parse_day "s1" "1970-01-01"
              Scenarios.busy_day s w' Hrun)
    as (d & Hd & _ & _ & _ & _ & _ & Hslots).
  vm_compute in Hd. inversion Hd; subst d. clear Hd.
  split; [exact Hten |]. split; [| exact Htotal].
  intros H9. apply Hslots in H9 as (_ & _ & Hfree). apply Hfree.
  exists Scenarios.half_past_booking, 0.
  split; [right; left; reflexivity |]. split; [reflexivity |].
  split; [discriminate |].
  vm_compute. repeat split; try reflexivity; discriminate.
Defined.

(** X24: bookings that reach out of the day are not seen.  The bookings
    of the day are asked for with a start at 0:00:00 or later and an end
    at 23:59:59 or earlier; so when every booking of the space that is
    not cancelled starts before the day or ends after 23:59:59 of it,
    the tool offers all fourteen business hours, whatever part of the
    day those bookings take. *)
Theorem slots_ignore_bookings_across_days
        (parse_date : string -> string + datetime)
        (space_id date : string) (w : world) (booking_date : datetime)
        (s : AvailabilityTool.slots) (w' : world) :
  parse_date date = inr booking_date ->
  (forall b, In b (bookings (db w)) ->
             Booking.space_id b = space_id ->
             Booking.status b <> "cancelled" ->
             Booking.start_time b
             < AvailabilityTool.replace_hms booking_date 0 0 0 \/
             AvailabilityTool.replace_hms booking_date 23 59 59
             < Booking.end_time b) ->
  AvailabilityTool.get_available_time_slots parse_date space_id date w
  = (Ok (AvailabilityTool.Available s), w') ->
  AvailabilityTool.total_available s = 14%nat /\
  forall h, 8 <= h <= 21 -> In (h, h + 1) (AvailabilityTool.slot_list s).
Proof.
  intros Hparse Hout H.
  apply get_available_time_slots_cases in H
    as (_ & [(msg & _ & Hr & _)
            | [(d & x & _ & Hr)
              | (d & space & Hd & _ & _ & Hr)]]);
    try discriminate.
  rewrite Hparse in Hd. injection Hd as <-.
  cbv zeta in Hr. injection Hr as ->.
  rewrite filter_none.
  - split; [reflexivity |]. simpl AvailabilityTool.slot_list.
    intros h Hh. apply available_slots_In.
    split; [lia |]. split; [reflexivity |]. intros [].
  - intros b Hb. unfold SupabaseServiceExt.within.
    destruct (String.eqb (Booking.space_id b) space_id) eqn:Hsp;
      [| reflexivity].
    destruct (String.eqb (Booking.status b) "cancelled") eqn:Hst;
      [reflexivity |].
    apply String.eqb_eq in Hsp. apply String.eqb_neq in Hst.
    destruct (Hout b Hb Hsp Hst) as [Hlo | Hhi]; simpl.
    + apply Z.leb_gt in Hlo. rewrite Z.geb_leb, Hlo. reflexivity.
    + apply Z.leb_gt in Hhi. rewrite Hhi. apply andb_false_r.
Qed.

(** X24, at a concrete call: the room is booked from 20:00 to 2:00 of
    the next day; the tool offers the whole day, and the availability
    check refuses the slot of 20:00. *)
Lemma slots_ignore_bookings_across_days_witness :
  exists s w',
    AvailabilityTool.get_available_time_slots
      Scenarios.parse_day "s1" "1970-01-01" Scenarios.overnight_ledger
    = (Ok (AvailabilityTool.Available s), w') /\
    In (20, 21) (AvailabilityTool.slot_list s) /\
    fst (SupabaseService.check_space_availability
           "s1" (20 * Fixtures.hour) (21 * Fixtures.hour)
           Scenarios.overnight_ledger)
    = Ok false.
Proof.
  destruct (AvailabilityTool.get_available_time_slots
              Scenarios.parse_day "s1" "1970-01-01"
              Scenarios.overnight_ledger)
    as [r w'] eqn:Hrun.
  assert (Hr : exists s, r = Ok (AvailabilityTool.Available s))
    by (vm_compute in Hrun; inversion Hrun; eexists; reflexivity).
  destruct Hr as (s & ->). exists s, w'.
  split; [reflexivity |]. split; [| reflexivity].
  refine (proj2 (slots_ignore_bookings_across_days
                   Scenarios.parse_day "s1" "1970-01-01"
                   Scenarios.overnight_ledger 0 s w'
                   eq_refl _ Hrun) 20 _); [| lia].
  intros b [<- | []] _ _. right. reflexivity.
Defined.

(** X25: an unknown space is not answered.  The space is asked for as a
    single row, so once the date is parsed the tool never answers an
    error: it answers the slots or raises; and with no database fault, a
    space identifier that no space has makes it raise the error of the
    database client, not answer that the space was not found. *)
Theorem time_slots_unknown_space_raises
        (parse_date : string -> string + datetime)
        (space_id date : string) (w : world) (booking_date : datetime) :
  parse_date date = inr booking_date ->
  (forall r w' msg,
     AvailabilityTool.get_available_time_slots parse_date space_id date w
     = (r, w') ->
     r <> Ok (AvailabilityTool.Error msg)) /\
  (db_script w = [] ->
   (forall space, In space (spaces (db w)) -> Space.id space <> space_id) ->
   AvailabilityTool.get_available_time_slots parse_date space_id date w
   = (Raise APIError, w)).
Proof.
  intros Hparse. split.
  - intros r w' msg H.
    apply get_available_time_slots_cases in H
      as (_ & [(msg' & Hinl & _)
              | [(d & x & _ & ->)
                | (d & space & _ & _ & _ & Hr)]]).
    + congruence.
    + discriminate.
    + cbv zeta in Hr. rewrite Hr. discriminate.
  - intros Hs Hnone.
    unfold AvailabilityTool.get_available_time_slots. rewrite Hparse.
    unfold bind. rewrite get_space_by_id_no_fault by assumption.
    rewrite filter_none; [reflexivity |].
    intros space Hin. apply String.eqb_neq. apply Hnone. exact Hin.
Qed.

(** X25, at a concrete call: the slots of a space that does not
    exist. *)
Lemma time_slots_unknown_space_raises_witness :
  AvailabilityTool.get_available_time_slots
    Scenarios.parse_day "s9" "1970-01-01" Scenarios.busy_day
  = (Raise APIError, Scenarios.busy_day).
Proof.
  refine (proj2 (time_slots_unknown_space_raises
                   Scenarios.parse_day "s9" "1970-01-01" Scenarios.busy_day
                   0 eq_refl) eq_refl _).
  intros space [<- | [<- | []]]; discriminate.
Defined.
